(** * Trilium: search context and public share search

    A shallow embedding of

    - [apps/server/src/services/search/search_context.ts]
      (class [SearchContext]), and
    - the share router (the dynamic-dispatch middleware variant and the
      per-route variant of [checkNoteAccess] and of the
      [GET /share/api/notes] search handler),

    together with the properties of the specification that concern them. *)

From Stdlib Require Import ZArith NArith String Ascii List Bool Lia PrimFloat.
From stdpp Require Import base option list gmap.
Import ListNotations.

Local Open Scope Z_scope.

(** ** JavaScript strings

    A JavaScript string is a finite sequence of UTF-16 code units; a code
    unit is modelled as an [N].  [js] turns a literal into that form. *)

Abbreviation jsstring := (list N).

Definition js (s : string) : jsstring :=
  map N_of_ascii (list_ascii_of_string s).

(** [!s] for a string: only the empty string is falsy. *)
Definition str_falsy (s : jsstring) : bool :=
  match s with
  | [] => true
  | _ :: _ => false
  end.

(** [!v] for a value of type [string | undefined] or [string | null]. *)
Definition opt_str_falsy (v : option jsstring) : bool :=
  match v with
  | None => true
  | Some s => str_falsy s
  end.

(** [!!v] for a value of type [boolean | undefined]. *)
Definition truthy (v : option bool) : bool :=
  match v with
  | Some b => b
  | None => false
  end.

(** ECMAScript [WhiteSpace] and [LineTerminator] code points, the ones
    [String.prototype.trim] strips. *)
Definition isWhiteSpace (c : N) : bool :=
  match c with
  | 0x09 | 0x0A | 0x0B | 0x0C | 0x0D | 0x20 | 0xA0 | 0x1680
  | 0x2028 | 0x2029 | 0x202F | 0x205F | 0x3000 | 0xFEFF => true
  | _ => (0x2000 <=? c)%N && (c <=? 0x200A)%N
  end%N.

Fixpoint trimStart (s : jsstring) : jsstring :=
  match s with
  | [] => []
  | c :: s' => if isWhiteSpace c then trimStart s' else s
  end.

Definition trim (s : jsstring) : jsstring :=
  rev (trimStart (rev (trimStart s))).

(** [xs.join(sep)] on an array of strings. *)
Fixpoint join (sep : jsstring) (xs : list jsstring) : jsstring :=
  match xs with
  | [] => []
  | [x] => x
  | x :: xs' => x ++ sep ++ join sep xs'
  end.

(** [xs.indexOf(x)]: the first index holding [x], or [-1]. *)
Fixpoint indexOf (xs : list jsstring) (x : jsstring) : Z :=
  match xs with
  | [] => -1
  | y :: ys =>
      if decide (y = x) then 0
      else
        let i := indexOf ys x in
        if i <? 0 then -1 else i + 1
  end.

(** [xs.slice(start)]: a negative [start] counts from the end. *)
Definition slice {A} (xs : list A) (start : Z) : list A :=
  let len := Z.of_nat (length xs) in
  let k := if start <? 0 then Z.max (len + start) 0 else Z.min start len in
  drop (Z.to_nat k) xs.

(** ** search_context.ts *)

(** The constructor's argument.  [enableFuzzyMatching] is not a declared
    option; the field stands for a caller that passes the property all the
    same, which the constructor never reads. *)
Module SearchParams.
Record t := mk {
  fastSearch : option bool;
  includeArchivedNotes : option bool;
  includeHiddenNotes : option bool;
  ignoreHoistedNote : option bool;
  ignoreInternalAttributes : option bool;
  ancestorNoteId : option jsstring;
  ancestorDepth : option jsstring;
  orderBy : option jsstring;
  orderDirection : option jsstring;
  limit : option (option Z);
  debug : option bool;
  fuzzyAttributeSearch : option bool;
  enableFuzzyMatching : option bool
}.

(** [{}], the default argument. *)
Definition empty : t :=
  mk None None None None None None None None None None None None None.

(** [{ ancestorNoteId: ancestorNoteId }] *)
Definition ofAncestor (ancestorNoteId : jsstring) : t :=
  mk None None None None None (Some ancestorNoteId) None None None None
    None None None.
End SearchParams.

Module SearchContext.
Record t := mk {
  fastSearch : bool;
  includeArchivedNotes : bool;
  includeHiddenNotes : bool;
  ignoreHoistedNote : bool;
  ignoreInternalAttributes : bool;
  ancestorNoteId : option jsstring;
  ancestorDepth : option jsstring;
  orderBy : option jsstring;
  orderDirection : option jsstring;
  limit : option (option Z);
  debug : option bool;
  debugInfo : option unit;
  fuzzyAttributeSearch : bool;
  enableFuzzyMatching : bool;
  highlightedTokens : list jsstring;
  originalQuery : jsstring;
  fulltextQuery : jsstring;
  dbLoadNeeded : bool;
  error : option jsstring
}.

(** [new SearchContext(params)]; [hoistedNoteId] is what
    [hoistedNoteService.getHoistedNoteId()] returns. *)
Definition new (hoistedNoteId : jsstring) (params : SearchParams.t) : t :=
  let ignoreHoisted := truthy (SearchParams.ignoreHoistedNote params) in
  let ancestor := SearchParams.ancestorNoteId params in
  {| fastSearch := truthy (SearchParams.fastSearch params);
     includeArchivedNotes := truthy (SearchParams.includeArchivedNotes params);
     includeHiddenNotes := truthy (SearchParams.includeHiddenNotes params);
     ignoreHoistedNote := ignoreHoisted;
     ignoreInternalAttributes :=
       truthy (SearchParams.ignoreInternalAttributes params);
     ancestorNoteId :=
       if opt_str_falsy ancestor && negb ignoreHoisted
       then Some hoistedNoteId
       else ancestor;
     ancestorDepth := SearchParams.ancestorDepth params;
     orderBy := SearchParams.orderBy params;
     orderDirection := SearchParams.orderDirection params;
     limit := SearchParams.limit params;
     debug := SearchParams.debug params;
     debugInfo := None;
     fuzzyAttributeSearch := truthy (SearchParams.fuzzyAttributeSearch params);
     enableFuzzyMatching := true;
     highlightedTokens := [];
     originalQuery := [];
     fulltextQuery := [];
     dbLoadNeeded := false;
     error := None |}.

Definition set_error (e : option jsstring) (c : t) : t :=
  {| fastSearch := fastSearch c;
     includeArchivedNotes := includeArchivedNotes c;
     includeHiddenNotes := includeHiddenNotes c;
     ignoreHoistedNote := ignoreHoistedNote c;
     ignoreInternalAttributes := ignoreInternalAttributes c;
     ancestorNoteId := ancestorNoteId c;
     ancestorDepth := ancestorDepth c;
     orderBy := orderBy c;
     orderDirection := orderDirection c;
     limit := limit c;
     debug := debug c;
     debugInfo := debugInfo c;
     fuzzyAttributeSearch := fuzzyAttributeSearch c;
     enableFuzzyMatching := enableFuzzyMatching c;
     highlightedTokens := highlightedTokens c;
     originalQuery := originalQuery c;
     fulltextQuery := fulltextQuery c;
     dbLoadNeeded := dbLoadNeeded c;
     error := e |}.

(** [addError(error)]: the assignment happens only while [this.error] is
    falsy. *)
Definition addError (e : jsstring) (c : t) : t :=
  if opt_str_falsy (error c) then set_error (Some e) c else c.

(** [hasError()] is [!!this.error]. *)
Definition hasError (c : t) : bool := negb (opt_str_falsy (error c)).

Definition getError (c : t) : option jsstring := error c.

(** A run of [addError] calls, first message first. *)
Definition addErrors (es : list jsstring) (c : t) : t :=
  fold_left (fun acc e => addError e acc) es c.
End SearchContext.

(** ** The share cache and the HTTP objects the share router touches *)

(** A credential label of a note; the router reads its [value] only. *)
Record SAttribute := { value : jsstring }.

(** A shared note, as far as the router reads it: the fields [noteId] and
    [title], the getter [shareId] and the result of [getCredentials()]. *)
Module SNote.
Record t := mk {
  noteId : jsstring;
  title : jsstring;
  shareId : jsstring;
  getCredentials : list SAttribute
}.
End SNote.

(** The public share cache [shaca], as it stands once
    [shacaLoader.ensureLoad()] has returned. *)
Module Shaca.
Record t := mk {
  notes : gmap jsstring SNote.t;
  shareIndexEnabled : bool
}.

(** [shaca.getNote(noteId)] reads [notes]. *)
Definition getNote (s : t) (noteId : jsstring) : option SNote.t :=
  notes s !! noteId.
End Shaca.

(** A value of [req.query]: a string, or something that is not a string
    (a repeated parameter gives an array, a bracketed one an object). *)
Inductive QueryValue :=
| QString (s : jsstring)
| QArray (xs : list jsstring)
| QObject.

Module Request.
Record t := mk {
  (** [req.header("Authorization")] *)
  authorization : option jsstring;
  (** [req.query.ancestorNoteId] *)
  ancestorNoteId : option QueryValue;
  (** [req.query.search] *)
  search : option QueryValue
}.
End Request.

(** One result of the search service. *)
Module SearchResult.
Record t := mk {
  noteId : jsstring;
  notePathArray : list jsstring;
  score : PrimFloat.float
}.
End SearchResult.

(** One entry of the [results] array of the search response. *)
Module ResultEntry.
Record t := mk {
  id : jsstring;
  title : jsstring;
  score : PrimFloat.float;
  path : jsstring
}.
End ResultEntry.

Inductive Body :=
| JsonMessage (message : jsstring)          (* [{ message }] *)
| JsonResults (results : list ResultEntry.t) (* [{ results }] *)
| StatusText.                                (* the body of [sendStatus] *)

(** The response object: the status code (200 until set), the headers set
    so far and the body once one has been sent. *)
Module Response.
Record t := mk {
  statusCode : Z;
  headers : list (jsstring * jsstring);
  sent : option Body
}.

Definition fresh : t := mk 200 [] None.

Definition status (code : Z) (res : t) : t :=
  mk code (headers res) (sent res).

Definition setHeader (name v : jsstring) (res : t) : t :=
  mk (statusCode res) (headers res ++ [(name, v)]) (sent res).

Definition json (body : Body) (res : t) : t :=
  mk (statusCode res) (headers res) (Some body).

Definition sendStatus (code : Z) (res : t) : t :=
  mk code (headers res) (Some StatusText).
End Response.

(** The code unit of the double quote, as a one-character string. *)
Definition dquote : jsstring := [0x22%N].

(** [requestCredentials(res)], the same in both variants of the router. *)
Definition requestCredentials (res : Response.t) : Response.t :=
  Response.sendStatus 401
    (Response.setHeader (js "WWW-Authenticate")
       (js "Basic realm=" ++ dquote ++ js "User Visible Realm" ++ dquote
          ++ js ", charset=" ++ dquote ++ js "UTF-8" ++ dquote) res).

(** [s.startsWith(prefix)] *)
Fixpoint startsWith (s prefix : jsstring) : bool :=
  match prefix, s with
  | [], _ => true
  | _ :: _, [] => false
  | p :: prefix', c :: s' => bool_decide (c = p) && startsWith s' prefix'
  end.

(** [s.substring(start)] for a [start] that is a length. *)
Definition substring (s : jsstring) (start : nat) : jsstring := drop start s.

(** The package [safe-compare]: a comparison whose running time does not
    depend on the contents, true exactly when the two strings are the
    same. *)
Definition safeCompare (a b : jsstring) : bool := bool_decide (a = b).

(** What a run of a handler leaves behind: the response object, the calls
    made to the search service (query and context, oldest first) and
    whether the handler threw. *)
Record Run := {
  response : Response.t;
  searches : list (jsstring * SearchContext.t);
  threw : bool
}.

Definition returned (res : Response.t) : Run :=
  {| response := res; searches := []; threw := false |}.

(** ** The dynamic-dispatch middleware variant of the share router

    Of the middleware, the access check and the branch that serves the
    search are embedded; the matching of the request path against the
    configured share path is left out. *)

Module Middleware.
Section Router.

(** [Buffer.from(s, "base64").toString("utf-8")], from the platform. *)
Variable decodeBase64 : jsstring -> jsstring.
(** What [hoistedNoteService.getHoistedNoteId()] returns. *)
Variable hoistedNoteId : jsstring.
(** Modelled from the spec: the search service's
    [findResultsWithQuery(query, searchContext)], whose code is not part
    of this development.  The specification gives it as a function from
    the query string and the context to "the raw Search Result list" and
    does not relate its results to the share cache, so any such function
    is admitted. *)
Variable findResultsWithQuery :
  jsstring -> SearchContext.t -> list SearchResult.t.

(** The loop over the credential labels, leaving at the first match. *)
Fixpoint anyCredential (authString : jsstring)
    (credentials : list SAttribute) : bool :=
  match credentials with
  | [] => false
  | credentialLabel :: rest =>
      if safeCompare authString (value credentialLabel) then true
      else anyCredential authString rest
  end.

(** [checkNoteAccess(noteId, req, res)]: the note when access is granted,
    [None] for [false], and the response object as the call leaves it. *)
Definition checkNoteAccess (shaca : Shaca.t) (noteId : jsstring)
    (req : Request.t) (res : Response.t) : option SNote.t * Response.t :=
  match Shaca.getNote shaca noteId with
  | None =>
      (None,
       Response.json
         (JsonMessage (js "Note '" ++ noteId ++ js "' not found."))
         (Response.status 404 res))
  | Some note =>
      if bool_decide (noteId = js "_share")
         && negb (Shaca.shareIndexEnabled shaca)
      then
        (None,
         Response.json
           (JsonMessage (js "Accessing share index is forbidden."))
           (Response.status 403 res))
      else
        let credentials := SNote.getCredentials note in
        if (length credentials =? 0)%nat then (Some note, res)
        else
          match Request.authorization req with
          | None => (None, res)
          | Some header =>
              if startsWith header (js "Basic ") then
                let base64Str :=
                  substring header (length (js "Basic ")) in
                let authString := decodeBase64 base64Str in
                if anyCredential authString credentials
                then (Some note, res)
                else (None, res)
              else (None, res)
          end
  end.

(** The callback given to [searchResults.map]: [None] when reading a
    field of an undefined note throws. *)
Definition toResult (shaca : Shaca.t) (ancestorNoteId : jsstring)
    (sr : SearchResult.t) : option ResultEntry.t :=
  let fullNote := Shaca.notes shaca !! SearchResult.noteId sr in
  let startIndex :=
    indexOf (SearchResult.notePathArray sr) ancestorNoteId in
  let localPathArray :=
    filter (fun id => is_Some (Shaca.notes shaca !! id))
      (slice (SearchResult.notePathArray sr) (startIndex + 1)) in
  titles ← mapM (fun id => SNote.title <$> Shaca.notes shaca !! id)
                localPathArray;
  let pathTitle := join (js " / ") titles in
  fullNote ← fullNote;
  Some {| ResultEntry.id := SNote.shareId fullNote;
          ResultEntry.title := SNote.title fullNote;
          ResultEntry.score := SearchResult.score sr;
          ResultEntry.path := pathTitle |}.

(** The branch of the middleware taken when the path below the share
    path is [/api/notes]. *)
Definition apiNotesSearch (shaca : Shaca.t) (req : Request.t)
    (res : Response.t) : Run :=
  match default (QString (js "_share")) (Request.ancestorNoteId req) with
  | QString ancestorNoteId =>
      match checkNoteAccess shaca ancestorNoteId req res with
      | (None, res) => returned res
      | (Some _, res) =>
          match Request.search req with
          | Some (QString search) =>
              if str_falsy (trim search) then
                returned
                  (Response.json
                     (JsonMessage (js "'search' parameter is mandatory."))
                     (Response.status 400 res))
              else
                let searchContext :=
                  SearchContext.new hoistedNoteId
                    (SearchParams.ofAncestor ancestorNoteId) in
                let searchResults :=
                  findResultsWithQuery search searchContext in
                match mapM (toResult shaca ancestorNoteId) searchResults with
                | Some filteredResults =>
                    {| response :=
                         Response.json (JsonResults filteredResults) res;
                       searches := [(search, searchContext)];
                       threw := false |}
                | None =>
                    {| response := res;
                       searches := [(search, searchContext)];
                       threw := true |}
                end
          | _ =>
              returned
                (Response.json
                   (JsonMessage (js "'search' parameter is mandatory."))
                   (Response.status 400 res))
          end
      end
  | _ =>
      returned
        (Response.json
           (JsonMessage (js "'ancestorNoteId' parameter is mandatory."))
           (Response.status 400 res))
  end.

End Router.
End Middleware.

(** ** The per-route variant of the share router

    The access check and the handler registered for
    [GET /share/api/notes]. *)

Module Routes.
Section Router.

(** [Buffer.from(s, "base64").toString("utf-8")], from the platform. *)
Variable decodeBase64 : jsstring -> jsstring.
(** What [hoistedNoteService.getHoistedNoteId()] returns. *)
Variable hoistedNoteId : jsstring.
(** Modelled from the spec: the search service's
    [findResultsWithQuery(query, searchContext)], whose code is not part
    of this development.  The specification gives it as a function from
    the query string and the context to "the raw Search Result list" and
    does not relate its results to the share cache, so any such function
    is admitted. *)
Variable findResultsWithQuery :
  jsstring -> SearchContext.t -> list SearchResult.t.

(** The loop over the credential labels, leaving at the first match. *)
Fixpoint anyCredential (authString : jsstring)
    (credentials : list SAttribute) : bool :=
  match credentials with
  | [] => false
  | credentialLabel :: rest =>
      if safeCompare authString (value credentialLabel) then true
      else anyCredential authString rest
  end.

(** [checkNoteAccess(noteId, req, res)]: the note when access is granted,
    [None] for [false], and the response object as the call leaves it. *)
Definition checkNoteAccess (shaca : Shaca.t) (noteId : jsstring)
    (req : Request.t) (res : Response.t) : option SNote.t * Response.t :=
  match Shaca.getNote shaca noteId with
  | None =>
      (None,
       Response.json
         (JsonMessage (js "Note '" ++ noteId ++ js "' not found."))
         (Response.status 404 res))
  | Some note =>
      if bool_decide (noteId = js "_share")
         && negb (Shaca.shareIndexEnabled shaca)
      then
        (None,
         Response.json
           (JsonMessage (js "Accessing share index is forbidden."))
           (Response.status 403 res))
      else
        let credentials := SNote.getCredentials note in
        if (length credentials =? 0)%nat then (Some note, res)
        else
          match Request.authorization req with
          | None => (None, res)
          | Some header =>
              if startsWith header (js "Basic ") then
                let base64Str :=
                  substring header (length (js "Basic ")) in
                let authString := decodeBase64 base64Str in
                if anyCredential authString credentials
                then (Some note, res)
                else (None, res)
              else (None, res)
          end
  end.

(** The callback given to [searchResults.map]: [None] when reading a
    field of an undefined note throws. *)
Definition toResult (shaca : Shaca.t) (ancestorNoteId : jsstring)
    (sr : SearchResult.t) : option ResultEntry.t :=
  let fullNote := Shaca.notes shaca !! SearchResult.noteId sr in
  let startIndex :=
    indexOf (SearchResult.notePathArray sr) ancestorNoteId in
  let localPathArray :=
    filter (fun id => is_Some (Shaca.notes shaca !! id))
      (slice (SearchResult.notePathArray sr) (startIndex + 1)) in
  titles ← mapM (fun id => SNote.title <$> Shaca.notes shaca !! id)
                localPathArray;
  let pathTitle := join (js " / ") titles in
  fullNote ← fullNote;
  Some {| ResultEntry.id := SNote.shareId fullNote;
          ResultEntry.title := SNote.title fullNote;
          ResultEntry.score := SearchResult.score sr;
          ResultEntry.path := pathTitle |}.

(** The handler of [GET /share/api/notes]. *)
Definition searchNotes (shaca : Shaca.t) (req : Request.t)
    (res : Response.t) : Run :=
  match default (QString (js "_share")) (Request.ancestorNoteId req) with
  | QString ancestorNoteId =>
      match checkNoteAccess shaca ancestorNoteId req res with
      | (None, res) => returned res
      | (Some _, res) =>
          match Request.search req with
          | Some (QString search) =>
              if str_falsy (trim search) then
                returned
                  (Response.json
                     (JsonMessage (js "'search' parameter is mandatory."))
                     (Response.status 400 res))
              else
                let searchContext :=
                  SearchContext.new hoistedNoteId
                    (SearchParams.ofAncestor ancestorNoteId) in
                let searchResults :=
                  findResultsWithQuery search searchContext in
                match mapM (toResult shaca ancestorNoteId) searchResults with
                | Some filteredResults =>
                    {| response :=
                         Response.json (JsonResults filteredResults) res;
                       searches := [(search, searchContext)];
                       threw := false |}
                | None =>
                    {| response := res;
                       searches := [(search, searchContext)];
                       threw := true |}
                end
          | _ =>
              returned
                (Response.json
                   (JsonMessage (js "'search' parameter is mandatory."))
                   (Response.status 400 res))
          end
      end
  | _ =>
      returned
        (Response.json
           (JsonMessage (js "'ancestorNoteId' parameter is mandatory."))
           (Response.status 400 res))
  end.

End Router.
End Routes.

(** ** Example data *)

(** A base64 decoder for payloads in the standard alphabet that encode
    ASCII text, enough to run the handlers on examples. *)
Definition base64Value (c : N) : option N :=
  if (0x41 <=? c)%N && (c <=? 0x5A)%N then Some (c - 0x41)%N
  else if (0x61 <=? c)%N && (c <=? 0x7A)%N then Some (c - 0x61 + 26)%N
  else if (0x30 <=? c)%N && (c <=? 0x39)%N then Some (c - 0x30 + 52)%N
  else if (c =? 0x2B)%N then Some 62%N
  else if (c =? 0x2F)%N then Some 63%N
  else None.

Fixpoint base64Bytes (vs : list N) : list N :=
  match vs with
  | a :: b :: c :: d :: rest =>
      [a * 4 + b / 16; (b mod 16) * 16 + c / 4; (c mod 4) * 64 + d]
        ++ base64Bytes rest
  | [a; b; c] => [a * 4 + b / 16; (b mod 16) * 16 + c / 4]
  | [a; b] => [a * 4 + b / 16]
  | _ => []
  end%N.

Definition decodeBase64Ascii (s : jsstring) : jsstring :=
  base64Bytes (omap base64Value s).


Module Demo.
Definition shareRoot : SNote.t :=
  SNote.mk (js "_share") (js "Shared Notes") (js "") [].
Definition docs : SNote.t :=
  SNote.mk (js "docs") (js "Docs") (js "docs") [].
Definition guide : SNote.t :=
  SNote.mk (js "guide") (js "Guide") (js "the-guide") [].
Definition vault : SNote.t :=
  SNote.mk (js "vault") (js "Vault") (js "vault") [{| value := js "u:p" |}].

Definition cache (shareIndexEnabled : bool) : Shaca.t :=
  Shaca.mk
    (list_to_map
       [(js "_share", shareRoot); (js "docs", docs);
        (js "guide", guide); (js "vault", vault)])
    shareIndexEnabled.

(** A cache that lacks the share root. *)
Definition cacheWithoutRoot : Shaca.t :=
  Shaca.mk (list_to_map [(js "docs", docs)]) false.

Definition request (authorization : option jsstring)
    (ancestorNoteId search : option jsstring) : Request.t :=
  Request.mk authorization (QString <$> ancestorNoteId) (QString <$> search).

(** A search service that finds [guide] and [vault] below [docs]. *)
Definition findTwo (query : jsstring) (searchContext : SearchContext.t)
    : list SearchResult.t :=
  [ SearchResult.mk (js "guide")
      [js "root"; js "_share"; js "docs"; js "guide"] 2.5%float;
    SearchResult.mk (js "vault")
      [js "root"; js "_share"; js "docs"; js "vault"] 1%float ].

End Demo.

(** ** Notions the properties are stated with *)

(** The elements of [xs] at the positions strictly after position [p]. *)
Definition strictlyAfter {A} (p : Z) (xs : list A) : list A :=
  omap id (imap (fun i x => if p <? Z.of_nat i then Some x else None) xs).

(** The titles of the ids that the share cache holds, in order. *)
Definition cachedTitles (shaca : Shaca.t) (ids : list jsstring)
    : list jsstring :=
  omap (fun id => SNote.title <$> Shaca.notes shaca !! id) ids.

(** A string made of white space only (the empty string included). *)
Definition onlyWhiteSpace (s : jsstring) : bool := forallb isWhiteSpace s.

(** Every search result names a note that the share cache holds. *)
Definition allCached (shaca : Shaca.t) (results : list SearchResult.t)
    : bool :=
  forallb
    (fun sr => bool_decide (is_Some (Shaca.notes shaca !! SearchResult.noteId sr)))
    results.

(** The body and status of a [res.status(code).json({ message })]. *)
Definition jsonError (code : Z) (message : jsstring) (res : Response.t)
    : Response.t :=
  Response.json (JsonMessage message) (Response.status code res).

(** The search context the share search handler builds for an ancestor. *)
Definition shareSearchContext (hoistedNoteId ancestorNoteId : jsstring)
    : SearchContext.t :=
  SearchContext.new hoistedNoteId (SearchParams.ofAncestor ancestorNoteId).

(** A reading of "every returned result has passed the per-note check":
    each entry of a results response stems from a search result whose note
    passes [checkNoteAccess] on the same request. *)
Definition resultsPassAccessCheck
    (decodeBase64 : jsstring -> jsstring) (hoistedNoteId : jsstring)
    (findResultsWithQuery : jsstring -> SearchContext.t -> list SearchResult.t)
    (shaca : Shaca.t) (req : Request.t) : Prop :=
  let run :=
    Routes.searchNotes decodeBase64 hoistedNoteId findResultsWithQuery
      shaca req Response.fresh in
  forall rs entry,
    Response.sent (response run) = Some (JsonResults rs) ->
    entry ∈ rs ->
    exists search ctx sr fullNote,
      (search, ctx) ∈ searches run
      /\ sr ∈ findResultsWithQuery search ctx
      /\ Shaca.notes shaca !! SearchResult.noteId sr = Some fullNote
      /\ ResultEntry.id entry = SNote.shareId fullNote
      /\ ResultEntry.title entry = SNote.title fullNote
      /\ is_Some
           (fst (Routes.checkNoteAccess decodeBase64 shaca
                   (SearchResult.noteId sr) req Response.fresh)).

(** ** The rest of the share router: data *)

(** What [getContent()] returns: a string or a [Buffer]. *)
Inductive Content :=
| Text (s : jsstring)
| Binary (bytes : list N).

(** A member of a parsed JSON object, as far as the router looks: a
    string, or a value of another type. *)
Inductive JsonMember :=
| MString (s : jsstring)
| MOther.

(** A parsed JSON value, as [getJsonContentSafely()] returns it ([JNull]
    also when the content does not parse). *)
Inductive JsonValue :=
| JNull
| JBoolean (b : bool)
| JNumber (n : PrimFloat.float)
| JString (s : jsstring)
| JArray
| JObject (fields : list (jsstring * JsonMember)).

(** [obj[key]] on the members of a parsed object (each name occurs
    once). *)
Fixpoint jsonField (key : jsstring) (fields : list (jsstring * JsonMember))
    : option JsonMember :=
  match fields with
  | [] => None
  | (k, v) :: rest => if bool_decide (k = key) then Some v else jsonField key rest
  end.

(** A shared attachment, as far as the router reads it. *)
Module SAttachment.
Record t := mk {
  attachmentId : jsstring;
  ownerId : jsstring;
  role : jsstring;
  mime : jsstring;
  title : jsstring;
  getContent : Content
}.
End SAttachment.

(** A placement of a note under a parent, as far as the router reads it. *)
Module SBranch.
Record t := mk {
  branchId : jsstring;
  noteId : jsstring;
  parentNoteId : jsstring
}.
End SBranch.

(** The parts of [shaca] that the other handlers read, next to the ones
    of [Shaca.t]. *)
Module ShareCache.
Record t := mk {
  shaca : Shaca.t;
  aliasToNote : gmap jsstring SNote.t;
  attachments : gmap jsstring SAttachment.t;
  shareRootNote : option SNote.t
}.

(** [shaca.getAttachment(attachmentId)] reads [attachments]. *)
Definition getAttachment (c : t) (attachmentId : jsstring)
    : option SAttachment.t :=
  attachments c !! attachmentId.

(** [attachment.note], the owner as the cache holds it. *)
Definition note (c : t) (attachment : SAttachment.t) : option SNote.t :=
  Shaca.notes (shaca c) !! SAttachment.ownerId attachment.
End ShareCache.

(** What a handler may send. *)
Inductive Sent :=
| SentBody (body : Body)          (* a JSON message or results, a status text *)
| SentPojo (note : SNote.t)       (* [res.json(note.getPojo())] *)
| SentContent (content : Content) (* [res.send(content)] *)
| SentView (template : jsstring) (relativePath : option jsstring)
                                  (* [res.render(template, opts)] *)
| SentRedirect (url : jsstring).  (* [res.redirect(url)] *)

(** The response object of the other handlers: the status code, the
    header calls made so far ([res.set] and [res.setHeader], name and value
    as passed) and what was sent. *)
Module Reply.
Record t := mk {
  statusCode : Z;
  headers : list (jsstring * jsstring);
  sent : option Sent
}.

(** The response object as [checkNoteAccess] or [requestCredentials] left
    it. *)
Definition ofResponse (res : Response.t) : t :=
  mk (Response.statusCode res) (Response.headers res)
     (SentBody <$> Response.sent res).

Definition status (code : Z) (r : t) : t := mk code (headers r) (sent r).

Definition setHeader (name v : jsstring) (r : t) : t :=
  mk (statusCode r) (headers r ++ [(name, v)]) (sent r).

Definition send (what : Sent) (r : t) : t :=
  mk (statusCode r) (headers r) (Some what).

(** [res.redirect(url)]: a 302 with a [Location] header. *)
Definition redirect (url : jsstring) (r : t) : t :=
  mk 302 (headers r ++ [(js "Location", url)]) (Some (SentRedirect url)).
End Reply.

(** How a handler ends: it returns, or an exception leaves it. *)
Inductive Outcome :=
| Finished (r : Reply.t)
| Thrown (r : Reply.t).

(** The request as the other handlers read it: the parts of [Request.t],
    [req.path] and [req.query.raw]. *)
Module PageRequest.
Record t := mk {
  request : Request.t;
  path : jsstring;
  raw : option QueryValue
}.
End PageRequest.

(** [s.substr(-1)]: the last code unit as a string, empty on the empty
    string. *)
Definition lastChar (s : jsstring) : jsstring :=
  match rev s with
  | [] => []
  | c :: _ => [c]
  end.

(** [s.split("/")] *)
Fixpoint splitSlash (s : jsstring) : list jsstring :=
  match s with
  | [] => [[]]
  | c :: s' =>
      if bool_decide (c = 0x2F%N) then [] :: splitSlash s'
      else
        match splitSlash s' with
        | [] => [[c]]
        | seg :: segs => (c :: seg) :: segs
        end
  end.

(** [s.repeat(n)] *)
Fixpoint repeatString (s : jsstring) (n : nat) : jsstring :=
  match n with
  | O => []
  | S n' => s ++ repeatString s n'
  end.

(** ** Property lookup on a plain object *)

(** The names that a plain object inherits from [Object.prototype]; what
    stands under each of them is an object or a function, hence truthy. *)
Definition objectPrototypeMembers : list jsstring :=
  [js "constructor"; js "__proto__"; js "hasOwnProperty";
   js "isPrototypeOf"; js "propertyIsEnumerable"; js "toLocaleString";
   js "toString"; js "valueOf"; js "__defineGetter__";
   js "__defineSetter__"; js "__lookupGetter__"; js "__lookupSetter__"].

(** What [obj[key]] gives on a plain object that maps ids to notes: the
    note under an own key, an inherited member, or [undefined]. *)
Inductive Looked :=
| Own (note : SNote.t)
| Inherited
| Absent.

Definition lookupMember (obj : gmap jsstring SNote.t) (key : jsstring)
    : Looked :=
  match obj !! key with
  | Some note => Own note
  | None =>
      if bool_decide (key ∈ objectPrototypeMembers) then Inherited
      else Absent
  end.

(** [a || b] on such values: all but [undefined] are truthy. *)
Definition orElse (a b : Looked) : Looked :=
  match a with
  | Absent => b
  | _ => a
  end.

(** ** The per-route variant: the other handlers *)

Module RouteHandlers.
Section Handlers.

(** [Buffer.from(s, "base64").toString("utf-8")], from the platform. *)
Variable decodeBase64 : jsstring -> jsstring.
(** [note.isLabelTruthy(name)] *)
Variable isLabelTruthy : SNote.t -> jsstring -> bool.
(** [note.type] and [note.mime] *)
Variable noteType : SNote.t -> jsstring.
Variable noteMime : SNote.t -> jsstring.
(** [note.getContent()] *)
Variable noteContent : SNote.t -> Content.
(** [note.getAttachmentByTitle(title)] *)
Variable getAttachmentByTitle : SNote.t -> jsstring -> option SAttachment.t.
(** [note.getJsonContentSafely()] *)
Variable getJsonContentSafely : SNote.t -> JsonValue.
(** [renderNoteContent(note)] of the content renderer. *)
Variable renderNoteContent : SNote.t -> jsstring.
(** [utils.formatDownloadTitle(title, type, mime)], [None] for a [null]
    type, and [utils.getContentDisposition(filename)]. *)
Variable formatDownloadTitle : jsstring -> option jsstring -> jsstring -> jsstring.
Variable getContentDisposition : jsstring -> jsstring.

(** [addNoIndexHeader(note, res)] *)
Definition addNoIndexHeader (note : SNote.t) (res : Reply.t) : Reply.t :=
  if isLabelTruthy note (js "shareDisallowRobotIndexing")
  then Reply.setHeader (js "X-Robots-Tag") (js "noindex") res
  else res.

(** [checkAttachmentAccess(attachmentId, req, res)]: the attachment when
    access is granted, [None] for [false]. *)
Definition checkAttachmentAccess (cache : ShareCache.t)
    (attachmentId : jsstring) (req : Request.t) (res : Response.t)
    : option SAttachment.t * Response.t :=
  match ShareCache.getAttachment cache attachmentId with
  | None =>
      (None,
       Response.json
         (JsonMessage
            (js "Attachment '" ++ attachmentId ++ js "' not found."))
         (Response.status 404 res))
  | Some attachment =>
      match Routes.checkNoteAccess decodeBase64 (ShareCache.shaca cache)
              (SAttachment.ownerId attachment) req res with
      | (Some note, res) => (Some attachment, res)
      | (None, res) => (None, res)
      end
  end.

(** The [svg] member of a note's JSON content, when that content is an
    object with a string of that name. *)
Definition contentSvg (image : SNote.t) : option jsstring :=
  match getJsonContentSafely image with
  | JObject fields =>
      match jsonField (js "svg") fields with
      | Some (MString svg) => Some svg
      | _ => None
      end
  | _ => None
  end.

(** [renderImageAttachment(image, res, attachmentName)]; without the
    attachment this variant returns at once. *)
Definition renderImageAttachment (image : SNote.t) (res : Reply.t)
    (attachmentName : jsstring) : Reply.t :=
  match getAttachmentByTitle image attachmentName with
  | None => res
  | Some attachment =>
      let svgString :=
        match SAttachment.getContent attachment with
        | Text content => content
        | Binary _ =>
            match contentSvg image with
            | Some svg => if str_falsy svg then js "<svg/>" else svg
            | None => js "<svg/>"
            end
        end in
      Reply.send (SentContent (Text svgString))
        (Reply.setHeader (js "Cache-Control")
           (js "no-cache, no-store, must-revalidate")
           (Reply.setHeader (js "Content-Type") (js "image/svg+xml") res))
  end.

(** [render404(res)] *)
Definition render404 (res : Reply.t) : Reply.t :=
  Reply.send (SentView (js "../../share-theme/templates/404.ejs") None)
    (Reply.status 404 res).

(** [renderNote(note, req, res)], [None] for an undefined note.  After a
    refused access check the handler calls [requestCredentials]; when the
    check has already sent its own answer, setting the header on the sent
    response throws. *)
Definition renderNote (cache : ShareCache.t) (note : option SNote.t)
    (req : PageRequest.t) (res : Response.t) : Outcome :=
  match note with
  | None => Finished (render404 (Reply.ofResponse res))
  | Some note =>
      match Routes.checkNoteAccess decodeBase64 (ShareCache.shaca cache)
              (SNote.noteId note) (PageRequest.request req) res with
      | (None, res) =>
          match Response.sent res with
          | Some _ => Thrown (Reply.ofResponse res)
          | None => Finished (Reply.ofResponse (requestCredentials res))
          end
      | (Some _, res) =>
          let res := addNoIndexHeader note (Reply.ofResponse res) in
          if isLabelTruthy note (js "shareRaw")
             || bool_decide (is_Some (PageRequest.raw req))
          then
            Finished
              (Reply.send (SentContent (noteContent note))
                 (Reply.setHeader (js "Content-Type") (noteMime note) res))
          else
            Finished
              (Reply.send (SentContent (Text (renderNoteContent note))) res)
      end
  end.

(** [renderNote(note, req, res)] on a truthy value that is no note, a
    member inherited from [Object.prototype].  Its [noteId] is [undefined],
    which [checkNoteAccess] looks up and prints as the key [undefined];
    after a granted access [note.isLabelTruthy] is no function, and the
    call in [addNoIndexHeader] throws. *)
Definition renderNonNote (cache : ShareCache.t) (req : PageRequest.t)
    (res : Response.t) : Outcome :=
  match Routes.checkNoteAccess decodeBase64 (ShareCache.shaca cache)
          (js "undefined") (PageRequest.request req) res with
  | (None, res) =>
      match Response.sent res with
      | Some _ => Thrown (Reply.ofResponse res)
      | None => Finished (Reply.ofResponse (requestCredentials res))
      end
  | (Some _, res) => Thrown (Reply.ofResponse res)
  end.

(** [renderNote] on what a lookup gave. *)
Definition renderLooked (cache : ShareCache.t) (note : Looked)
    (req : PageRequest.t) (res : Response.t) : Outcome :=
  match note with
  | Own note => renderNote cache (Some note) req res
  | Absent => renderNote cache None req res
  | Inherited => renderNonNote cache req res
  end.

(** [GET /share/] *)
Definition getShare (cache : ShareCache.t) (req : PageRequest.t)
    (res : Response.t) : Outcome :=
  if negb (bool_decide (lastChar (PageRequest.path req) = js "/")) then
    Finished (Reply.redirect (js "../share/") (Reply.ofResponse res))
  else
    match ShareCache.shareRootNote cache with
    | None =>
        Finished
          (Reply.ofResponse
             (Response.json (JsonMessage (js "Share root note not found"))
                (Response.status 404 res)))
    | Some shareRootNote => renderNote cache (Some shareRootNote) req res
    end.

(** [GET /share/:shareId]; [shaca.aliasToNote] and [shaca.notes] are plain
    objects, indexed here by an id the client chooses. *)
Definition getShareId (cache : ShareCache.t) (shareId : jsstring)
    (req : PageRequest.t) (res : Response.t) : Outcome :=
  let note :=
    orElse (lookupMember (ShareCache.aliasToNote cache) shareId)
      (lookupMember (Shaca.notes (ShareCache.shaca cache)) shareId) in
  renderLooked cache note req res.

(** [GET /share/api/notes/:noteId] *)
Definition getApiNote (cache : ShareCache.t) (noteId : jsstring)
    (req : PageRequest.t) (res : Response.t) : Outcome :=
  match Routes.checkNoteAccess decodeBase64 (ShareCache.shaca cache) noteId
          (PageRequest.request req) res with
  | (None, res) => Finished (Reply.ofResponse res)
  | (Some note, res) =>
      Finished
        (Reply.send (SentPojo note)
           (addNoIndexHeader note (Reply.ofResponse res)))
  end.

(** [GET /share/api/notes/:noteId/download] *)
Definition getApiNoteDownload (cache : ShareCache.t) (noteId : jsstring)
    (req : PageRequest.t) (res : Response.t) : Outcome :=
  match Routes.checkNoteAccess decodeBase64 (ShareCache.shaca cache) noteId
          (PageRequest.request req) res with
  | (None, res) => Finished (Reply.ofResponse res)
  | (Some note, res) =>
      let res := addNoIndexHeader note (Reply.ofResponse res) in
      let filename :=
        formatDownloadTitle (SNote.title note) (Some (noteType note))
          (noteMime note) in
      Finished
        (Reply.send (SentContent (noteContent note))
           (Reply.setHeader (js "Content-Type") (noteMime note)
              (Reply.setHeader (js "Cache-Control")
                 (js "no-cache, no-store, must-revalidate")
                 (Reply.setHeader (js "Content-Disposition")
                    (getContentDisposition filename) res))))
  end.

(** [GET /share/api/images/:noteId/:filename]; [:filename] is not read. *)
Definition getApiImage (cache : ShareCache.t) (noteId : jsstring)
    (req : PageRequest.t) (res : Response.t) : Outcome :=
  match Routes.checkNoteAccess decodeBase64 (ShareCache.shaca cache) noteId
          (PageRequest.request req) res with
  | (None, res) => Finished (Reply.ofResponse res)
  | (Some image, res) =>
      let res := Reply.ofResponse res in
      if bool_decide (noteType image = js "image") then
        Finished
          (Reply.send (SentContent (noteContent image))
             (addNoIndexHeader image
                (Reply.setHeader (js "Content-Type") (noteMime image) res)))
      else if bool_decide (noteType image = js "canvas") then
        Finished (renderImageAttachment image res (js "canvas-export.svg"))
      else if bool_decide (noteType image = js "mermaid") then
        Finished (renderImageAttachment image res (js "mermaid-export.svg"))
      else if bool_decide (noteType image = js "mindMap") then
        Finished (renderImageAttachment image res (js "mindmap-export.svg"))
      else
        Finished
          (Reply.send
             (SentBody
                (JsonMessage (js "Requested note is not a shareable image")))
             (Reply.status 400 res))
  end.

(** [GET /share/api/attachments/:attachmentId/image/:filename].  Reading
    [attachment.note] of an attachment whose owner is not cached gives
    [undefined], on which [addNoIndexHeader] throws. *)
Definition getApiAttachmentImage (cache : ShareCache.t)
    (attachmentId : jsstring) (req : PageRequest.t) (res : Response.t)
    : Outcome :=
  match checkAttachmentAccess cache attachmentId
          (PageRequest.request req) res with
  | (None, res) => Finished (Reply.ofResponse res)
  | (Some attachment, res) =>
      let res := Reply.ofResponse res in
      if bool_decide (SAttachment.role attachment = js "image") then
        let res :=
          Reply.setHeader (js "Content-Type") (SAttachment.mime attachment)
            res in
        match ShareCache.note cache attachment with
        | None => Thrown res
        | Some note =>
            Finished
              (Reply.send (SentContent (SAttachment.getContent attachment))
                 (addNoIndexHeader note res))
        end
      else
        Finished
          (Reply.send
             (SentBody
                (JsonMessage
                   (js "Requested attachment is not a shareable image")))
             (Reply.status 400 res))
  end.

(** [GET /share/api/attachments/:attachmentId/download] *)
Definition getApiAttachmentDownload (cache : ShareCache.t)
    (attachmentId : jsstring) (req : PageRequest.t) (res : Response.t)
    : Outcome :=
  match checkAttachmentAccess cache attachmentId
          (PageRequest.request req) res with
  | (None, res) => Finished (Reply.ofResponse res)
  | (Some attachment, res) =>
      let res := Reply.ofResponse res in
      match ShareCache.note cache attachment with
      | None => Thrown res
      | Some note =>
          let res := addNoIndexHeader note res in
          let filename :=
            formatDownloadTitle (SAttachment.title attachment) None
              (SAttachment.mime attachment) in
          Finished
            (Reply.send (SentContent (SAttachment.getContent attachment))
               (Reply.setHeader (js "Content-Type")
                  (SAttachment.mime attachment)
                  (Reply.setHeader (js "Cache-Control")
                     (js "no-cache, no-store, must-revalidate")
                     (Reply.setHeader (js "Content-Disposition")
                        (getContentDisposition filename) res))))
      end
  end.

(** [GET /share/api/notes/:noteId/view] *)
Definition getApiNoteView (cache : ShareCache.t) (noteId : jsstring)
    (req : PageRequest.t) (res : Response.t) : Outcome :=
  match Routes.checkNoteAccess decodeBase64 (ShareCache.shaca cache) noteId
          (PageRequest.request req) res with
  | (None, res) => Finished (Reply.ofResponse res)
  | (Some note, res) =>
      let res := addNoIndexHeader note (Reply.ofResponse res) in
      Finished
        (Reply.send (SentContent (noteContent note))
           (Reply.setHeader (js "Content-Type") (noteMime note)
              (Reply.setHeader (js "Cache-Control")
                 (js "no-cache, no-store, must-revalidate") res)))
  end.

End Handlers.
End RouteHandlers.

(** ** The middleware variant: the other functions *)

(** The result of a call that recurses: a value, an exception, or the
    fuel given to the recursion has run out. *)
Inductive Eval (A : Type) :=
| Value (a : A)
| Raised
| OutOfFuel.
Arguments Value {A} a.
Arguments Raised {A}.
Arguments OutOfFuel {A}.

(** A regular expression of the middleware, anchored at both ends: a
    sequence of literal code units and of groups [([^/]+)]. *)
Inductive Atom :=
| Lit (c : N)
| Group.

Definition lits (s : string) : list Atom := map Lit (js s).

(** The ways to cut a non-empty run without [/] off the front of [s],
    shortest first, each with what remains. *)
Fixpoint groupCuts (s : jsstring) : list (jsstring * jsstring) :=
  match s with
  | [] => []
  | c :: s' =>
      if bool_decide (c = 0x2F%N) then []
      else ([c], s') :: map (fun cut => (c :: fst cut, snd cut)) (groupCuts s')
  end.

(** The first cut, in the order given, after which the rest matches. *)
Fixpoint firstCut (rest : jsstring -> option (list jsstring))
    (cuts : list (jsstring * jsstring)) : option (list jsstring) :=
  match cuts with
  | [] => None
  | (captured, remaining) :: cuts' =>
      match rest remaining with
      | Some captures => Some (captured :: captures)
      | None => firstCut rest cuts'
      end
  end.

(** [s.match(/^...$/)]: the captured groups, [None] for [null].  A group
    is greedy: the longest cut is tried first. *)
Fixpoint matchAtoms (pattern : list Atom) (s : jsstring)
    : option (list jsstring) :=
  match pattern with
  | [] =>
      match s with
      | [] => Some []
      | _ :: _ => None
      end
  | Lit c :: pattern' =>
      match s with
      | d :: s' => if bool_decide (d = c) then matchAtoms pattern' s' else None
      | [] => None
      end
  | Group :: pattern' => firstCut (matchAtoms pattern') (rev (groupCuts s))
  end.

(** [m[i + 1]] of a match [m]. *)
Definition group (captures : list jsstring) (i : nat) : jsstring :=
  nth i captures [].

(** The branch of the middleware that serves a request. *)
Inductive Route :=
| Next                                  (* [next()] *)
| RootPage
| Page (shareId : jsstring)
| ApiNote (noteId : jsstring)
| ApiNoteDownload (noteId : jsstring)
| ApiImage (noteId : jsstring)
| ApiAttachmentImage (attachmentId : jsstring)
| ApiAttachmentDownload (attachmentId : jsstring)
| ApiNoteView (noteId : jsstring)
| ApiNotesSearch.

Module MiddlewareHandlers.

(** [options.getOptionOrNull("sharePath") || "/share"] *)
Definition sharePath (option : option jsstring) : jsstring :=
  if opt_str_falsy option then js "/share" else default [] option.

(** The dispatch of the middleware on [req.path]: which branch runs, with
    the id it reads from the path. *)
Definition dispatch (sharePathOption : option jsstring) (path : jsstring)
    : Route :=
  let sharePath := sharePath sharePathOption in
  if bool_decide (path = sharePath) || startsWith path (sharePath ++ js "/")
  then
    let subPath := drop (length sharePath) path in
    if bool_decide (subPath = js "") || bool_decide (subPath = js "/")
    then RootPage
    else
    match matchAtoms (lits "/" ++ [Group]) subPath with
    | Some shareIdMatch => Page (group shareIdMatch 0)
    | None =>
    match matchAtoms (lits "/api/notes/" ++ [Group]) subPath with
    | Some apiNoteMatch => ApiNote (group apiNoteMatch 0)
    | None =>
    match matchAtoms (lits "/api/notes/" ++ [Group] ++ lits "/download")
            subPath with
    | Some apiNoteDownloadMatch =>
        ApiNoteDownload (group apiNoteDownloadMatch 0)
    | None =>
    match matchAtoms (lits "/api/images/" ++ [Group] ++ lits "/" ++ [Group])
            subPath with
    | Some apiImageMatch => ApiImage (group apiImageMatch 0)
    | None =>
    match matchAtoms
            (lits "/api/attachments/" ++ [Group] ++ lits "/image/" ++ [Group])
            subPath with
    | Some apiAttachmentImageMatch =>
        ApiAttachmentImage (group apiAttachmentImageMatch 0)
    | None =>
    match matchAtoms
            (lits "/api/attachments/" ++ [Group] ++ lits "/download")
            subPath with
    | Some apiAttachmentDownloadMatch =>
        ApiAttachmentDownload (group apiAttachmentDownloadMatch 0)
    | None =>
    match matchAtoms (lits "/api/notes/" ++ [Group] ++ lits "/view")
            subPath with
    | Some apiNoteViewMatch => ApiNoteView (group apiNoteViewMatch 0)
    | None =>
    match matchAtoms (lits "/api/notes") subPath with
    | Some apiNotesSearchMatch => ApiNotesSearch
    | None => Next
    end end end end end end end end
  else Next.

(** The relative path [renderNote] computes from [req.path]: one [../]
    for every non-empty segment. *)
Definition relativePath (path : jsstring) : jsstring :=
  let pathSegments :=
    filter (fun segment => segment <> []) (splitSlash path) in
  repeatString (js "../") (length pathSegments).

Section Handlers.

(** [shareRoot.SHARE_ROOT_NOTE_ID] *)
Variable SHARE_ROOT_NOTE_ID : jsstring.
(** [note.getParentBranches()] and [branch.getParentNote()] *)
Variable getParentBranches : SNote.t -> list SBranch.t.
Variable getParentNote : SBranch.t -> option SNote.t.
(** [note.getAttachmentByTitle(title)] and [note.getJsonContentSafely()] *)
Variable getAttachmentByTitle : SNote.t -> jsstring -> option SAttachment.t.
Variable getJsonContentSafely : SNote.t -> JsonValue.

(** [getSharedSubTreeRoot(note)]: [None] for [{}], the pair for
    [{ note, branch }].  Reading a member of an undefined branch or note
    raises. *)
Fixpoint getSharedSubTreeRoot (fuel : nat) (note : SNote.t)
    : Eval (option (SNote.t * SBranch.t)) :=
  match fuel with
  | O => OutOfFuel
  | S fuel' =>
      if bool_decide (SNote.noteId note = SHARE_ROOT_NOTE_ID) then Value None
      else
        match getParentBranches note with
        | [] => Raised
        | parentBranch :: _ =>
            if bool_decide
                 (SBranch.parentNoteId parentBranch = SHARE_ROOT_NOTE_ID)
            then Value (Some (note, parentBranch))
            else
              match getParentNote parentBranch with
              | None => Raised
              | Some parentNote => getSharedSubTreeRoot fuel' parentNote
              end
        end
  end.

(** [renderDefault(res, template, opts)]; of [opts] the relative path is
    kept. *)
Definition renderDefault (res : Reply.t) (template : jsstring)
    (relativePath : option jsstring) : Reply.t :=
  Reply.send
    (SentView (js "../../share-theme/templates/" ++ template ++ js ".ejs")
       relativePath)
    res.

(** [renderImageAttachment(image, res, attachmentName)]; without the
    attachment this variant answers with the 404 page. *)
Definition renderImageAttachment (image : SNote.t) (res : Reply.t)
    (attachmentName : jsstring) : Reply.t :=
  match getAttachmentByTitle image attachmentName with
  | None => renderDefault (Reply.status 404 res) (js "404") None
  | Some attachment =>
      let svgString :=
        match SAttachment.getContent attachment with
        | Text content => content
        | Binary _ =>
            match RouteHandlers.contentSvg getJsonContentSafely image with
            | Some svg => if str_falsy svg then js "<svg/>" else svg
            | None => js "<svg/>"
            end
        end in
      Reply.send (SentContent (Text svgString))
        (Reply.setHeader (js "Cache-Control")
           (js "no-cache, no-store, must-revalidate")
           (Reply.setHeader (js "Content-Type") (js "image/svg+xml") res))
  end.

End Handlers.
End MiddlewareHandlers.

(** ** Further notions *)

(** The first message of a run that is not the empty string. *)
Definition firstNonEmpty (messages : list jsstring) : option jsstring :=
  List.find (fun m => negb (str_falsy m)) messages.





(** The request does not satisfy the credential labels of [note]: there
    are some, and the request has no [Authorization] header, or one that
    is not a [Basic] header, or one that decodes to none of the label
    values. *)
Definition credentialsRefused (decodeBase64 : jsstring -> jsstring)
    (note : SNote.t) (req : Request.t) : Prop :=
  SNote.getCredentials note <> []
  /\ match Request.authorization req with
     | None => True
     | Some header =>
         startsWith header (js "Basic ") = false
         \/ forall credentialLabel,
              credentialLabel ∈ SNote.getCredentials note ->
              decodeBase64 (substring header (length (js "Basic ")))
              <> value credentialLabel
     end.


(** Example instances of what the handlers take from the entities. *)
Module DemoPages.
Definition isLabelTruthy (note : SNote.t) (name : jsstring) : bool :=
  bool_decide (SNote.noteId note = js "guide")
  && bool_decide (name = js "shareDisallowRobotIndexing").
Definition noteType (note : SNote.t) : jsstring :=
  if bool_decide (SNote.noteId note = js "docs") then js "canvas"
  else js "text".
Definition noteMime (note : SNote.t) : jsstring := js "text/html".
Definition noteContent (note : SNote.t) : Content := Text (SNote.title note).
Definition drawing : SAttachment.t :=
  SAttachment.mk (js "att1") (js "vault") (js "image") (js "image/png")
    (js "drawing.png") (Binary [0x89; 0x50]%N).
Definition export : SAttachment.t :=
  SAttachment.mk (js "att2") (js "guide") (js "file") (js "image/svg+xml")
    (js "canvas-export.svg") (Binary []).
Definition getAttachmentByTitle (note : SNote.t) (title : jsstring)
    : option SAttachment.t :=
  if bool_decide (SNote.noteId note = js "guide")
     && bool_decide (title = js "canvas-export.svg")
  then Some export else None.
Definition getJsonContentSafely (note : SNote.t) : JsonValue :=
  JObject [(js "svg", MString (js "<svg>old</svg>"))].
Definition renderNoteContent (note : SNote.t) : jsstring :=
  js "<h1>" ++ SNote.title note ++ js "</h1>".
Definition formatDownloadTitle (title : jsstring) (type : option jsstring)
    (mime : jsstring) : jsstring := title.
Definition getContentDisposition (filename : jsstring) : jsstring :=
  js "file; filename=" ++ filename.
Definition cache : ShareCache.t :=
  ShareCache.mk (Demo.cache false) (list_to_map [(js "home", Demo.docs)])
    (list_to_map [(js "att1", drawing); (js "att2", export)])
    (Some Demo.shareRoot).
Definition request (authorization : option jsstring) (path : jsstring)
    : PageRequest.t :=
  PageRequest.mk (Request.mk authorization None None) path None.
End DemoPages.





(** The response object as a handler left it. *)
Definition replyOf (outcome : Outcome) : Reply.t :=
  match outcome with
  | Finished r | Thrown r => r
  end.

(** The note types the image handler serves. *)
Definition shareableImageType (type : jsstring) : bool :=
  bool_decide (type = js "image") || bool_decide (type = js "canvas")
  || bool_decide (type = js "mermaid") || bool_decide (type = js "mindMap").



(** Notions for [getSharedSubTreeRoot]. *)
Section SubTreeNotions.
Variable SHARE_ROOT_NOTE_ID : jsstring.
Variable getParentBranches : SNote.t -> list SBranch.t.
Variable getParentNote : SBranch.t -> option SNote.t.

(** [parent] is where the first parent branch of [note] leads, [note] not
    being the share root and that branch not leading to the share root. *)
Definition firstParent (note parent : SNote.t) : Prop :=
  SNote.noteId note <> SHARE_ROOT_NOTE_ID
  /\ exists parentBranch rest,
       getParentBranches note = parentBranch :: rest
       /\ SBranch.parentNoteId parentBranch <> SHARE_ROOT_NOTE_ID
       /\ getParentNote parentBranch = Some parent.

(** [top] is reached from [note] in [n] steps along first parents. *)
Fixpoint climbs (n : nat) (note top : SNote.t) : Prop :=
  match n with
  | O => note = top
  | S n' => exists parent, firstParent note parent /\ climbs n' parent top
  end.

(** What the note [top] at which the climb ends makes of the result: the
    share root gives [{}]; a note whose first parent branch leads to the
    share root gives itself with that branch; a note without parent
    branch, or whose first parent branch has no parent note, raises. *)
Definition climbEnds (top : SNote.t)
    (result : Eval (option (SNote.t * SBranch.t))) : Prop :=
  match result with
  | Value None => SNote.noteId top = SHARE_ROOT_NOTE_ID
  | Value (Some (note, branch)) =>
      note = top
      /\ SNote.noteId top <> SHARE_ROOT_NOTE_ID
      /\ (exists rest, getParentBranches top = branch :: rest)
      /\ SBranch.parentNoteId branch = SHARE_ROOT_NOTE_ID
  | Raised =>
      SNote.noteId top <> SHARE_ROOT_NOTE_ID
      /\ (getParentBranches top = []
          \/ exists parentBranch rest,
               getParentBranches top = parentBranch :: rest
               /\ SBranch.parentNoteId parentBranch <> SHARE_ROOT_NOTE_ID
               /\ getParentNote parentBranch = None)
  | OutOfFuel => False
  end.
End SubTreeNotions.

(** Example instances for [getSharedSubTreeRoot]: [guide] lies under
    [docs], which lies under the share root. *)
Module DemoTree.
Definition guideBranch : SBranch.t :=
  SBranch.mk (js "b2") (js "guide") (js "docs").
Definition docsBranch : SBranch.t :=
  SBranch.mk (js "b1") (js "docs") (js "_share").
Definition getParentBranches (note : SNote.t) : list SBranch.t :=
  if bool_decide (SNote.noteId note = js "guide") then [guideBranch]
  else if bool_decide (SNote.noteId note = js "docs") then [docsBranch]
  else [].
Definition getParentNote (branch : SBranch.t) : option SNote.t :=
  if bool_decide (SBranch.parentNoteId branch = js "docs") then Some Demo.docs
  else None.
End DemoTree.

(** Notions for the dispatch of the middleware. *)

(** [/a/b] for the segments [a] and [b]. *)
Definition joinSlash (segments : list jsstring) : jsstring :=
  concat (map (fun segment => 0x2F%N :: segment) segments).

(** A pattern read by segments: a fixed word, or a group. *)
Inductive SegmentPattern :=
| Word (w : jsstring)
| AnySegment.

(** The regular expression of a pattern read by segments. *)
Definition compile (pattern : list SegmentPattern) : list Atom :=
  concat
    (map (fun p =>
            Lit 0x2F%N
            :: match p with
               | Word w => map Lit w
               | AnySegment => [Group]
               end)
       pattern).

(** Matching segment by segment: a word against an equal segment, a group
    against a non-empty segment, which it captures. *)
Fixpoint matchSegments (pattern : list SegmentPattern)
    (segments : list jsstring) : option (list jsstring) :=
  match pattern, segments with
  | [], [] => Some []
  | Word w :: pattern', segment :: segments' =>
      if bool_decide (segment = w) then matchSegments pattern' segments'
      else None
  | AnySegment :: pattern', segment :: segments' =>
      if str_falsy segment then None
      else cons segment <$> matchSegments pattern' segments'
  | _, _ => None
  end.

(** The branch of the middleware by the segments of the path below the
    share path: a table whose rows exclude one another. *)
Definition routeOfSegments (segments : list jsstring) : Route :=
  match segments with
  | [] => RootPage
  | [id] => if str_falsy id then RootPage else Page id
  | [a; b] =>
      if bool_decide (a = js "api") && bool_decide (b = js "notes")
      then ApiNotesSearch else Next
  | [a; b; id] =>
      if bool_decide (a = js "api") && bool_decide (b = js "notes")
         && negb (str_falsy id)
      then ApiNote id else Next
  | [a; b; id; c] =>
      if bool_decide (a = js "api") && negb (str_falsy id) then
        if bool_decide (b = js "notes") && bool_decide (c = js "download")
        then ApiNoteDownload id
        else if bool_decide (b = js "notes") && bool_decide (c = js "view")
        then ApiNoteView id
        else if bool_decide (b = js "images") && negb (str_falsy c)
        then ApiImage id
        else if bool_decide (b = js "attachments")
                && bool_decide (c = js "download")
        then ApiAttachmentDownload id
        else Next
      else Next
  | [a; b; id; c; filename] =>
      if bool_decide (a = js "api") && bool_decide (b = js "attachments")
         && negb (str_falsy id) && bool_decide (c = js "image")
         && negb (str_falsy filename)
      then ApiAttachmentImage id else Next
  | _ => Next
  end.





(** The id that a branch of the middleware reads from the path. *)
Definition routeId (route : Route) : option jsstring :=
  match route with
  | Page id | ApiNote id | ApiNoteDownload id | ApiImage id
  | ApiAttachmentImage id | ApiAttachmentDownload id | ApiNoteView id =>
      Some id
  | Next | RootPage | ApiNotesSearch => None
  end.

(** ** The middleware variant: the page handler *)

(** What [contentRenderer.getContent(note, relativePath)] returns: the
    three members the page handler reads. *)
Module RenderedContent.
Record t := mk {
  header : jsstring;
  content : Content;
  isEmpty : bool
}.
End RenderedContent.

(** Of the options handed to a template, the ones that depend on the
    request: the note, what the content renderer returned, the sub-tree
    root, the relative path and the option read. *)
Module PageOptions.
Record t := mk {
  note : SNote.t;
  rendered : RenderedContent.t;
  subRoot : option (SNote.t * SBranch.t);
  relativePath : jsstring;
  showLoginInShareTheme : jsstring
}.
End PageOptions.

Module MiddlewarePages.
Section Pages.

(** [Buffer.from(s, "base64").toString("utf-8")], from the platform. *)
Variable decodeBase64 : jsstring -> jsstring.
(** [shareRoot.SHARE_ROOT_NOTE_ID] *)
Variable SHARE_ROOT_NOTE_ID : jsstring.
(** [note.getParentBranches()] and [branch.getParentNote()] *)
Variable getParentBranches : SNote.t -> list SBranch.t.
Variable getParentNote : SBranch.t -> option SNote.t.
(** [note.isLabelTruthy(name)], [note.type], [note.mime],
    [note.getContent()] and [note.children] *)
Variable isLabelTruthy : SNote.t -> jsstring -> bool.
Variable noteType : SNote.t -> jsstring.
Variable noteMime : SNote.t -> jsstring.
Variable noteContent : SNote.t -> Content.
Variable children : SNote.t -> list SNote.t.
(** [note.hasRelation(name)] and [note.getRelation(name)] *)
Variable hasRelation : SNote.t -> jsstring -> bool.
Variable getRelation : SNote.t -> jsstring -> option SAttribute.
(** [ejs.render(template, opts, { includer })]; [None] when it throws. *)
Variable ejsRender :
  jsstring -> PageOptions.t -> (jsstring -> option jsstring) -> option jsstring.
(** [contentRenderer.getContent(note, relativePath)] and
    [options.getOption(name)]; [None] when the call throws. *)
Variable getContent : SNote.t -> jsstring -> option RenderedContent.t.
Variable getOption : jsstring -> option jsstring.

(** [addNoIndexHeader(note, res)] *)
Definition addNoIndexHeader (note : SNote.t) (res : Reply.t) : Reply.t :=
  if isLabelTruthy note (js "shareDisallowRobotIndexing")
  then Reply.setHeader (js "X-Robots-Tag") (js "noindex") res
  else res.

(** The [includer] given to the template engine: the content of the first
    child of the template note that has the asked title; [None] when it
    throws, for want of such a child, or because that child is no EJS code
    note or has no string content. *)
Definition includer (templateNote : SNote.t) (path : jsstring)
    : option jsstring :=
  match List.find (fun n => bool_decide (path = SNote.title n))
          (children templateNote) with
  | None => None
  | Some childNote =>
      if negb (bool_decide (noteType childNote = js "code"))
         || negb (bool_decide (noteMime childNote = js "application/x-ejs"))
      then None
      else
        match noteContent childNote with
        | Text template => Some template
        | Binary _ => None
        end
  end.

(** The attempt to render the template a note names: the result of the
    template engine, [None] when the default view is to be used.  The
    read of the template's content and the call of the engine stand
    inside the [try]: an exception there gives the default view, as a
    content that is no string does. *)
Definition userView (cache : ShareCache.t) (note : SNote.t)
    (opts : PageOptions.t) : option jsstring :=
  if hasRelation note (js "shareTemplate") then
    let templateId := value <$> getRelation note (js "shareTemplate") in
    let templateNote :=
      if opt_str_falsy templateId then None
      else Shaca.getNote (ShareCache.shaca cache) (default [] templateId) in
    match templateNote with
    | Some templateNote =>
        if bool_decide (noteType templateNote = js "code")
           && bool_decide (noteMime templateNote = js "application/x-ejs")
        then
          match noteContent templateNote with
          | Text content => ejsRender content opts (includer templateNote)
          | Binary _ => None
          end
        else None
    | None => None
    end
  else None.

(** [renderNote(note, req, res)] of the middleware; [None] when the fuel
    given to [getSharedSubTreeRoot] runs out.  The content renderer, the
    search for the sub-tree root and the option lookup run in this order,
    outside any [try]: an exception of one of them leaves the handler. *)
Definition renderNote (fuel : nat) (cache : ShareCache.t)
    (note : option SNote.t) (req : PageRequest.t) (res : Response.t)
    : option Outcome :=
  let relativePath := MiddlewareHandlers.relativePath (PageRequest.path req) in
  match note with
  | None =>
      Some
        (Finished
           (MiddlewareHandlers.renderDefault
              (Reply.status 404 (Reply.ofResponse res)) (js "404")
              (Some relativePath)))
  | Some note =>
      match Middleware.checkNoteAccess decodeBase64 (ShareCache.shaca cache)
              (SNote.noteId note) (PageRequest.request req) res with
      | (None, res) =>
          match Response.sent res with
          | Some _ => Some (Thrown (Reply.ofResponse res))
          | None => Some (Finished (Reply.ofResponse (requestCredentials res)))
          end
      | (Some _, res) =>
          let res := addNoIndexHeader note (Reply.ofResponse res) in
          if isLabelTruthy note (js "shareRaw")
             || bool_decide (is_Some (PageRequest.raw req))
          then
            Some
              (Finished
                 (Reply.send (SentContent (noteContent note))
                    (Reply.setHeader (js "Content-Type") (noteMime note) res)))
          else
            match getContent note relativePath with
            | None => Some (Thrown res)
            | Some rendered =>
            match MiddlewareHandlers.getSharedSubTreeRoot SHARE_ROOT_NOTE_ID
                    getParentBranches getParentNote fuel note with
            | OutOfFuel => None
            | Raised => Some (Thrown res)
            | Value subRoot =>
            match getOption (js "showLoginInShareTheme") with
            | None => Some (Thrown res)
            | Some showLoginInShareTheme =>
                let opts :=
                  PageOptions.mk note rendered subRoot relativePath
                    showLoginInShareTheme in
                match userView cache note opts with
                | Some ejsResult =>
                    Some
                      (Finished
                         (Reply.send (SentContent (Text ejsResult)) res))
                | None =>
                    Some
                      (Finished
                         (MiddlewareHandlers.renderDefault res (js "page")
                            (Some relativePath)))
                end
            end end end
      end
  end.

(** [renderNote(note, req, res)] on a truthy value that is no note, a
    member inherited from [Object.prototype]; as in the per-route
    variant. *)
Definition renderNonNote (cache : ShareCache.t) (req : PageRequest.t)
    (res : Response.t) : Outcome :=
  match Middleware.checkNoteAccess decodeBase64 (ShareCache.shaca cache)
          (js "undefined") (PageRequest.request req) res with
  | (None, res) =>
      match Response.sent res with
      | Some _ => Thrown (Reply.ofResponse res)
      | None => Finished (Reply.ofResponse (requestCredentials res))
      end
  | (Some _, res) => Thrown (Reply.ofResponse res)
  end.

(** [renderNote] on what a lookup gave. *)
Definition renderLooked (fuel : nat) (cache : ShareCache.t) (note : Looked)
    (req : PageRequest.t) (res : Response.t) : option Outcome :=
  match note with
  | Own note => renderNote fuel cache (Some note) req res
  | Absent => renderNote fuel cache None req res
  | Inherited => Some (renderNonNote cache req res)
  end.

End Pages.
End MiddlewarePages.

(** Example instances for the page handler of the middleware: [guide]
    names the template note [docs], which is no EJS code note. *)
Module DemoTemplates.
Definition hasRelation (note : SNote.t) (name : jsstring) : bool :=
  bool_decide (SNote.noteId note = js "guide")
  && bool_decide (name = js "shareTemplate").
Definition getRelation (note : SNote.t) (name : jsstring)
    : option SAttribute :=
  if hasRelation note name then Some {| value := js "docs" |} else None.
Definition children (note : SNote.t) : list SNote.t := [].
Definition ejsRender (template : jsstring) (opts : PageOptions.t)
    (includer : jsstring -> option jsstring) : option jsstring :=
  Some template.
Definition getContent (note : SNote.t) (relativePath : jsstring)
    : option RenderedContent.t :=
  Some (RenderedContent.mk (js "") (Text (SNote.title note)) false).
Definition getOption (name : jsstring) : option jsstring :=
  if bool_decide (name = js "showLoginInShareTheme") then Some (js "false")
  else None.
End DemoTemplates.

(** The header calls on a reply name [name]. *)
Definition hasHeader (name : jsstring) (r : Reply.t) : Prop :=
  name ∈ (fst <$> Reply.headers r).


(** ** The middleware variant: the branches and the middleware itself *)

(** What the middleware does with a request: it calls [next()], a branch
    ends with an outcome, the search branch ends with its run, or the fuel
    given to [getSharedSubTreeRoot] runs out. *)
Inductive Served :=
| PassedOn
| Answered (outcome : Outcome)
| Searched (run : Run)
| Unfinished.

Definition ofPage (outcome : option Outcome) : Served :=
  match outcome with
  | Some outcome => Answered outcome
  | None => Unfinished
  end.

Module MiddlewareRouter.
Section Router.

(** [Buffer.from(s, "base64").toString("utf-8")], from the platform. *)
Variable decodeBase64 : jsstring -> jsstring.
(** [hoistedNoteService.getHoistedNoteId()] and the search service's
    [findResultsWithQuery], as [Middleware] takes them. *)
Variable hoistedNoteId : jsstring.
Variable findResultsWithQuery :
  jsstring -> SearchContext.t -> list SearchResult.t.
(** [shareRoot.SHARE_ROOT_NOTE_ID] *)
Variable SHARE_ROOT_NOTE_ID : jsstring.
(** What the branches read from the entities and from the utilities, as
    [MiddlewarePages], [MiddlewareHandlers] and [RouteHandlers] take it. *)
Variable getParentBranches : SNote.t -> list SBranch.t.
Variable getParentNote : SBranch.t -> option SNote.t.
Variable isLabelTruthy : SNote.t -> jsstring -> bool.
Variable noteType : SNote.t -> jsstring.
Variable noteMime : SNote.t -> jsstring.
Variable noteContent : SNote.t -> Content.
Variable children : SNote.t -> list SNote.t.
Variable hasRelation : SNote.t -> jsstring -> bool.
Variable getRelation : SNote.t -> jsstring -> option SAttribute.
Variable ejsRender :
  jsstring -> PageOptions.t -> (jsstring -> option jsstring) -> option jsstring.
Variable getContent : SNote.t -> jsstring -> option RenderedContent.t.
Variable getOption : jsstring -> option jsstring.
Variable getAttachmentByTitle : SNote.t -> jsstring -> option SAttachment.t.
Variable getJsonContentSafely : SNote.t -> JsonValue.
Variable formatDownloadTitle : jsstring -> option jsstring -> jsstring -> jsstring.
Variable getContentDisposition : jsstring -> jsstring.

Local Abbreviation checkNoteAccess := (Middleware.checkNoteAccess decodeBase64).
Local Abbreviation addNoIndexHeader :=
  (MiddlewarePages.addNoIndexHeader isLabelTruthy).
Local Abbreviation renderImageAttachment :=
  (MiddlewareHandlers.renderImageAttachment getAttachmentByTitle
     getJsonContentSafely).
Local Abbreviation renderNote :=
  (MiddlewarePages.renderNote decodeBase64 SHARE_ROOT_NOTE_ID
     getParentBranches getParentNote isLabelTruthy noteType noteMime
     noteContent children hasRelation getRelation ejsRender getContent
     getOption).
Local Abbreviation renderLooked :=
  (MiddlewarePages.renderLooked decodeBase64 SHARE_ROOT_NOTE_ID
     getParentBranches getParentNote isLabelTruthy noteType noteMime
     noteContent children hasRelation getRelation ejsRender getContent
     getOption).

(** [checkAttachmentAccess(attachmentId, req, res)] of this variant. *)
Definition checkAttachmentAccess (cache : ShareCache.t)
    (attachmentId : jsstring) (req : Request.t) (res : Response.t)
    : option SAttachment.t * Response.t :=
  match ShareCache.getAttachment cache attachmentId with
  | None =>
      (None,
       Response.json
         (JsonMessage
            (js "Attachment '" ++ attachmentId ++ js "' not found."))
         (Response.status 404 res))
  | Some attachment =>
      match checkNoteAccess (ShareCache.shaca cache)
              (SAttachment.ownerId attachment) req res with
      | (Some note, res) => (Some attachment, res)
      | (None, res) => (None, res)
      end
  end.

(** The branch of the share path itself. *)
Definition rootPage (fuel : nat) (cache : ShareCache.t)
    (req : PageRequest.t) (res : Response.t) : Served :=
  match ShareCache.shareRootNote cache with
  | None =>
      Answered
        (Finished
           (Reply.ofResponse
              (Response.json (JsonMessage (js "Share root not found"))
                 (Response.status 404 res))))
  | Some shareRootNote =>
      ofPage (renderNote fuel cache (Some shareRootNote) req res)
  end.

(** The branch [/:shareId]; [shaca.aliasToNote] and [shaca.notes] are
    plain objects, indexed here by an id the client chooses. *)
Definition page (fuel : nat) (cache : ShareCache.t) (shareId : jsstring)
    (req : PageRequest.t) (res : Response.t) : Served :=
  let note :=
    orElse (lookupMember (ShareCache.aliasToNote cache) shareId)
      (lookupMember (Shaca.notes (ShareCache.shaca cache)) shareId) in
  ofPage (renderLooked fuel cache note req res).

(** The branch [/api/notes/:noteId] *)
Definition apiNote (cache : ShareCache.t) (noteId : jsstring)
    (req : PageRequest.t) (res : Response.t) : Outcome :=
  match checkNoteAccess (ShareCache.shaca cache) noteId
          (PageRequest.request req) res with
  | (None, res) => Finished (Reply.ofResponse res)
  | (Some note, res) =>
      Finished
        (Reply.send (SentPojo note)
           (addNoIndexHeader note (Reply.ofResponse res)))
  end.

(** The branch [/api/notes/:noteId/download] *)
Definition apiNoteDownload (cache : ShareCache.t) (noteId : jsstring)
    (req : PageRequest.t) (res : Response.t) : Outcome :=
  match checkNoteAccess (ShareCache.shaca cache) noteId
          (PageRequest.request req) res with
  | (None, res) => Finished (Reply.ofResponse res)
  | (Some note, res) =>
      let res := addNoIndexHeader note (Reply.ofResponse res) in
      let filename :=
        formatDownloadTitle (SNote.title note) (Some (noteType note))
          (noteMime note) in
      Finished
        (Reply.send (SentContent (noteContent note))
           (Reply.setHeader (js "Content-Type") (noteMime note)
              (Reply.setHeader (js "Cache-Control")
                 (js "no-cache, no-store, must-revalidate")
                 (Reply.setHeader (js "Content-Disposition")
                    (getContentDisposition filename) res))))
  end.

(** The branch [/api/images/:noteId/:filename]; the second group is not
    read. *)
Definition apiImage (cache : ShareCache.t) (noteId : jsstring)
    (req : PageRequest.t) (res : Response.t) : Outcome :=
  match checkNoteAccess (ShareCache.shaca cache) noteId
          (PageRequest.request req) res with
  | (None, res) => Finished (Reply.ofResponse res)
  | (Some image, res) =>
      let res := Reply.ofResponse res in
      if bool_decide (noteType image = js "image") then
        Finished
          (Reply.send (SentContent (noteContent image))
             (addNoIndexHeader image
                (Reply.setHeader (js "Content-Type") (noteMime image) res)))
      else if bool_decide (noteType image = js "canvas") then
        Finished (renderImageAttachment image res (js "canvas-export.svg"))
      else if bool_decide (noteType image = js "mermaid") then
        Finished (renderImageAttachment image res (js "mermaid-export.svg"))
      else if bool_decide (noteType image = js "mindMap") then
        Finished (renderImageAttachment image res (js "mindmap-export.svg"))
      else
        Finished
          (Reply.send
             (SentBody
                (JsonMessage (js "Requested note is not a shareable image")))
             (Reply.status 400 res))
  end.

(** The branch [/api/attachments/:attachmentId/image/:filename]; reading
    [attachment.note] of an attachment whose owner is not cached gives
    [undefined], on which [addNoIndexHeader] throws. *)
Definition apiAttachmentImage (cache : ShareCache.t)
    (attachmentId : jsstring) (req : PageRequest.t) (res : Response.t)
    : Outcome :=
  match checkAttachmentAccess cache attachmentId
          (PageRequest.request req) res with
  | (None, res) => Finished (Reply.ofResponse res)
  | (Some attachment, res) =>
      let res := Reply.ofResponse res in
      if bool_decide (SAttachment.role attachment = js "image") then
        let res :=
          Reply.setHeader (js "Content-Type") (SAttachment.mime attachment)
            res in
        match ShareCache.note cache attachment with
        | None => Thrown res
        | Some note =>
            Finished
              (Reply.send (SentContent (SAttachment.getContent attachment))
                 (addNoIndexHeader note res))
        end
      else
        Finished
          (Reply.send
             (SentBody
                (JsonMessage
                   (js "Requested attachment is not a shareable image")))
             (Reply.status 400 res))
  end.

(** The branch [/api/attachments/:attachmentId/download] *)
Definition apiAttachmentDownload (cache : ShareCache.t)
    (attachmentId : jsstring) (req : PageRequest.t) (res : Response.t)
    : Outcome :=
  match checkAttachmentAccess cache attachmentId
          (PageRequest.request req) res with
  | (None, res) => Finished (Reply.ofResponse res)
  | (Some attachment, res) =>
      let res := Reply.ofResponse res in
      match ShareCache.note cache attachment with
      | None => Thrown res
      | Some note =>
          let res := addNoIndexHeader note res in
          let filename :=
            formatDownloadTitle (SAttachment.title attachment) None
              (SAttachment.mime attachment) in
          Finished
            (Reply.send (SentContent (SAttachment.getContent attachment))
               (Reply.setHeader (js "Content-Type")
                  (SAttachment.mime attachment)
                  (Reply.setHeader (js "Cache-Control")
                     (js "no-cache, no-store, must-revalidate")
                     (Reply.setHeader (js "Content-Disposition")
                        (getContentDisposition filename) res))))
      end
  end.

(** The branch [/api/notes/:noteId/view] *)
Definition apiNoteView (cache : ShareCache.t) (noteId : jsstring)
    (req : PageRequest.t) (res : Response.t) : Outcome :=
  match checkNoteAccess (ShareCache.shaca cache) noteId
          (PageRequest.request req) res with
  | (None, res) => Finished (Reply.ofResponse res)
  | (Some note, res) =>
      let res := addNoIndexHeader note (Reply.ofResponse res) in
      Finished
        (Reply.send (SentContent (noteContent note))
           (Reply.setHeader (js "Content-Type") (noteMime note)
              (Reply.setHeader (js "Cache-Control")
                 (js "no-cache, no-store, must-revalidate") res)))
  end.

(** The middleware: the branch that the dispatch on [req.path] selects,
    [next()] when there is none. *)
Definition middleware (fuel : nat) (sharePathOption : option jsstring)
    (cache : ShareCache.t) (req : PageRequest.t) (res : Response.t)
    : Served :=
  match MiddlewareHandlers.dispatch sharePathOption (PageRequest.path req)
  with
  | Next => PassedOn
  | RootPage => rootPage fuel cache req res
  | Page shareId => page fuel cache shareId req res
  | ApiNote noteId => Answered (apiNote cache noteId req res)
  | ApiNoteDownload noteId => Answered (apiNoteDownload cache noteId req res)
  | ApiImage noteId => Answered (apiImage cache noteId req res)
  | ApiAttachmentImage attachmentId =>
      Answered (apiAttachmentImage cache attachmentId req res)
  | ApiAttachmentDownload attachmentId =>
      Answered (apiAttachmentDownload cache attachmentId req res)
  | ApiNoteView noteId => Answered (apiNoteView cache noteId req res)
  | ApiNotesSearch =>
      Searched
        (Middleware.apiNotesSearch decodeBase64 hoistedNoteId
           findResultsWithQuery (ShareCache.shaca cache)
           (PageRequest.request req) res)
  end.

End Router.
End MiddlewareRouter.

(** The attachment that the image handler sends for a note of a type
    other than [image]. *)
Definition exportName (type : jsstring) : option jsstring :=
  if bool_decide (type = js "canvas") then Some (js "canvas-export.svg")
  else if bool_decide (type = js "mermaid") then Some (js "mermaid-export.svg")
  else if bool_decide (type = js "mindMap") then Some (js "mindmap-export.svg")
  else None.

(** What was sent is a redirect. *)
Definition redirects (served : Served) : bool :=
  match served with
  | Answered outcome =>
      match Reply.sent (replyOf outcome) with
      | Some (SentRedirect _) => true
      | _ => false
      end
  | _ => false
  end.


(** * Properties *)

(** ** SearchContext *)

Section SearchContextFacts.
Import SearchContext.

Lemma addError_recorded e c :
  hasError c = true -> addError e c = c.
Proof.
  unfold hasError, addError. intros H.
  destruct (opt_str_falsy (error c)); [discriminate | reflexivity].
Qed.

Lemma addError_fresh e c :
  hasError c = false -> error (addError e c) = Some e.
Proof.
  unfold hasError, addError. intros H.
  destruct (opt_str_falsy (error c)); [reflexivity | discriminate].
Qed.

Lemma hasError_nonempty e c :
  error c = Some e -> e <> [] -> hasError c = true.
Proof.
  unfold hasError. intros -> Hne. destruct e; [congruence | reflexivity].
Qed.

Lemma addErrors_recorded es c :
  hasError c = true -> addErrors es c = c.
Proof.
  revert c. induction es as [| e es IH]; intros c H; [reflexivity |].
  unfold addErrors in *. simpl. rewrite (addError_recorded e c H).
  now apply IH.
Qed.
End SearchContextFacts.

(** C3, as stated, fails: on a fresh context the empty message is stored by
    the first call and replaced by the second, and [hasError()] is still
    false after the first call. *)
Lemma addError_first_message_counterexample :
  let c := SearchContext.new (js "root") SearchParams.empty in
  let m1 := js "" in
  let m2 := js "unbalanced quotes" in
  ~ (SearchContext.getError
       (SearchContext.addError m2 (SearchContext.addError m1 c)) = Some m1
     /\ SearchContext.hasError (SearchContext.addError m1 c) = true).
Proof. intros c m1 m2 [H _]. vm_compute in H. discriminate. Qed.

(** C3 (amended): on a context that has no error recorded yet, after
    [addError(m1)] with a non-empty [m1] followed by [addError(m2)] the
    stored error is [m1]; [hasError()] is true after the first call and
    stays true, with [m1] still stored, after any further run of
    [addError] calls. *)
Theorem addError_first_nonempty_wins
    (c : SearchContext.t) (m1 m2 : jsstring) (ms : list jsstring) :
  SearchContext.hasError c = false ->
  m1 <> [] ->
  SearchContext.getError
    (SearchContext.addError m2 (SearchContext.addError m1 c)) = Some m1
  /\ SearchContext.hasError (SearchContext.addError m1 c) = true
  /\ SearchContext.hasError
       (SearchContext.addErrors ms (SearchContext.addError m1 c)) = true
  /\ SearchContext.getError
       (SearchContext.addErrors ms (SearchContext.addError m1 c)) = Some m1.
Proof.
  intros Hfresh Hne.
  pose proof (addError_fresh m1 c Hfresh) as Hm1.
  pose proof (hasError_nonempty _ _ Hm1 Hne) as Hhas.
  rewrite (addError_recorded m2 _ Hhas), (addErrors_recorded ms _ Hhas).
  unfold SearchContext.getError. auto.
Qed.

Lemma addError_first_nonempty_wins_witness :
  let c := SearchContext.new (js "root") SearchParams.empty in
  SearchContext.getError
    (SearchContext.addError (js "second")
       (SearchContext.addError (js "first") c)) = Some (js "first")
  /\ SearchContext.hasError (SearchContext.addError (js "first") c) = true
  /\ SearchContext.hasError
       (SearchContext.addErrors [js "third"; js ""]
          (SearchContext.addError (js "first") c)) = true
  /\ SearchContext.getError
       (SearchContext.addErrors [js "third"; js ""]
          (SearchContext.addError (js "first") c)) = Some (js "first").
Proof.
  intros c.
  apply (addError_first_nonempty_wins c (js "first") (js "second")
           [js "third"; js ""]).
  - reflexivity.
  - discriminate.
Defined.

(** C4, as stated, fails: an [ancestorNoteId] that is supplied as the empty
    string is not kept when [ignoreHoistedNote] is false. *)
Lemma constructor_ancestor_kept_counterexample :
  let params :=
    SearchParams.mk None None None None None (Some (js "")) None None None
      None None None None in
  ~ (SearchContext.ancestorNoteId (SearchContext.new (js "root") params)
     = SearchParams.ancestorNoteId params).
Proof. intros params H. vm_compute in H. discriminate. Qed.

(** C4 (amended): with no [ancestorNoteId] supplied (or the empty string)
    and [ignoreHoistedNote] false or absent, the context's [ancestorNoteId]
    is the hoisted note id; with none supplied and [ignoreHoistedNote]
    true it is undefined; a supplied non-empty [ancestorNoteId] is kept
    unchanged, and so is any supplied one when [ignoreHoistedNote] is
    true. *)
Theorem constructor_ancestorNoteId
    (hoistedNoteId : jsstring) (params : SearchParams.t) :
  let ctx := SearchContext.new hoistedNoteId params in
  (opt_str_falsy (SearchParams.ancestorNoteId params) = true ->
   truthy (SearchParams.ignoreHoistedNote params) = false ->
   SearchContext.ancestorNoteId ctx = Some hoistedNoteId)
  /\ (SearchParams.ancestorNoteId params = None ->
      SearchParams.ignoreHoistedNote params = Some true ->
      SearchContext.ancestorNoteId ctx = None)
  /\ (forall a, SearchParams.ancestorNoteId params = Some a ->
      a <> [] ->
      SearchContext.ancestorNoteId ctx = Some a)
  /\ (forall a, SearchParams.ancestorNoteId params = Some a ->
      SearchParams.ignoreHoistedNote params = Some true ->
      SearchContext.ancestorNoteId ctx = Some a).
Proof.
  simpl. repeat split.
  - intros -> ->. reflexivity.
  - intros -> ->. reflexivity.
  - intros a -> Hne. destruct a; [congruence |]. reflexivity.
  - intros a -> ->. simpl. now rewrite andb_false_r.
Qed.

Lemma constructor_ancestorNoteId_witness :
  SearchContext.ancestorNoteId
    (SearchContext.new (js "root") SearchParams.empty) = Some (js "root")
  /\ SearchContext.ancestorNoteId
       (SearchContext.new (js "root")
          (SearchParams.mk None None None None None (Some (js "docs")) None
             None None None None None None)) = Some (js "docs").
Proof.
  split.
  - apply (proj1 (constructor_ancestorNoteId (js "root") SearchParams.empty));
      reflexivity.
  - apply (proj1 (proj2 (proj2
             (constructor_ancestorNoteId (js "root")
                (SearchParams.mk None None None None None (Some (js "docs"))
                   None None None None None None None)))) (js "docs"));
      [reflexivity | discriminate].
Defined.

(** C5: each of the boolean options [fastSearch], [includeArchivedNotes],
    [includeHiddenNotes], [ignoreHoistedNote], [ignoreInternalAttributes]
    and [fuzzyAttributeSearch] is false when absent from the constructor
    input, and [enableFuzzyMatching] is true after construction for every
    input, also one that carries an [enableFuzzyMatching] property. *)
Theorem constructor_boolean_defaults
    (hoistedNoteId : jsstring) (params : SearchParams.t) :
  let ctx := SearchContext.new hoistedNoteId params in
  (SearchParams.fastSearch params = None ->
   SearchContext.fastSearch ctx = false)
  /\ (SearchParams.includeArchivedNotes params = None ->
      SearchContext.includeArchivedNotes ctx = false)
  /\ (SearchParams.includeHiddenNotes params = None ->
      SearchContext.includeHiddenNotes ctx = false)
  /\ (SearchParams.ignoreHoistedNote params = None ->
      SearchContext.ignoreHoistedNote ctx = false)
  /\ (SearchParams.ignoreInternalAttributes params = None ->
      SearchContext.ignoreInternalAttributes ctx = false)
  /\ (SearchParams.fuzzyAttributeSearch params = None ->
      SearchContext.fuzzyAttributeSearch ctx = false)
  /\ SearchContext.enableFuzzyMatching ctx = true.
Proof.
  simpl. repeat split; intros ->; reflexivity.
Qed.

Lemma constructor_boolean_defaults_witness :
  let ctx :=
    SearchContext.new (js "root")
      (SearchParams.mk None None None None None None None None None None
         None None (Some false)) in
  SearchContext.fastSearch ctx = false
  /\ SearchContext.fuzzyAttributeSearch ctx = false
  /\ SearchContext.enableFuzzyMatching ctx = true.
Proof.
  intros ctx.
  pose proof (constructor_boolean_defaults (js "root")
    (SearchParams.mk None None None None None None None None None None
       None None (Some false))) as (H1 & _ & _ & _ & _ & H6 & H7).
  split; [apply H1; reflexivity |].
  split; [apply H6; reflexivity | exact H7].
Defined.

(** ** Strings and arrays *)

Lemma trimStart_nil (s : jsstring) :
  trimStart s = [] <-> onlyWhiteSpace s = true.
Proof.
  unfold onlyWhiteSpace. induction s as [| c s IH]; simpl.
  - split; reflexivity.
  - destruct (isWhiteSpace c) eqn:Hc; simpl; [exact IH |].
    split; discriminate.
Qed.

Lemma trimStart_head (s t : jsstring) (c : N) :
  trimStart s = c :: t -> isWhiteSpace c = false.
Proof.
  induction s as [| d s IH]; simpl; [discriminate |].
  destruct (isWhiteSpace d) eqn:Hd; [exact IH |].
  intros H. now inversion H; subst.
Qed.

Lemma onlyWhiteSpace_rev (s : jsstring) :
  onlyWhiteSpace (rev s) = onlyWhiteSpace s.
Proof.
  unfold onlyWhiteSpace. induction s as [| c s IH]; simpl; [reflexivity |].
  rewrite forallb_app, IH. simpl. rewrite andb_true_r. apply andb_comm.
Qed.

Lemma trim_nil (s : jsstring) : trim s = [] <-> onlyWhiteSpace s = true.
Proof.
  unfold trim. split.
  - intros H.
    apply (f_equal (@rev N)) in H. rewrite rev_involutive in H. simpl in H.
    apply trimStart_nil in H. rewrite onlyWhiteSpace_rev in H.
    destruct (trimStart s) as [| c t] eqn:Hs.
    + now apply trimStart_nil.
    + apply trimStart_head in Hs. simpl in H. rewrite Hs in H. discriminate.
  - intros H. apply trimStart_nil in H. now rewrite H.
Qed.

Lemma blank_search (s : jsstring) : str_falsy (trim s) = onlyWhiteSpace s.
Proof.
  destruct (onlyWhiteSpace s) eqn:E.
  - apply trim_nil in E. now rewrite E.
  - destruct (trim s) eqn:Ht; [| reflexivity].
    apply trim_nil in Ht. congruence.
Qed.

Lemma startsWith_app (prefix s : jsstring) :
  startsWith (prefix ++ s) prefix = true.
Proof.
  induction prefix as [| p prefix IH]; simpl; [now destruct s |].
  now rewrite bool_decide_eq_true_2, IH.
Qed.

Lemma indexOf_lower (xs : list jsstring) (x : jsstring) :
  -1 <= indexOf xs x.
Proof.
  induction xs as [| y ys IH]; simpl; [lia |].
  destruct (decide (y = x)); [lia |].
  destruct (indexOf ys x <? 0) eqn:E; lia.
Qed.


Lemma indexOf_absent (xs : list jsstring) (x : jsstring) :
  x ∉ xs -> indexOf xs x = -1.
Proof.
  induction xs as [| y ys IH]; intros Hnot; simpl; [reflexivity |].
  destruct (decide (y = x)) as [-> | _].
  - exfalso. apply Hnot. constructor.
  - rewrite IH by (intros Hin; apply Hnot; now constructor). reflexivity.
Qed.

Lemma omap_imap_from {A} (n k : nat) (xs : list A) :
  omap id (imap (fun i x => if (n <=? k + i)%nat then Some x else None) xs)
  = drop (n - k) xs.
Proof.
  revert k. induction xs as [| x xs IH]; intros k.
  - now rewrite drop_nil.
  - rewrite imap_cons. simpl.
    rewrite (imap_ext _
      (fun i x => if (n <=? S k + i)%nat then Some x else None))
      by (intros i y _; simpl; now replace (k + S i)%nat with (S (k + i))%nat by lia).
    rewrite IH, Nat.add_0_r.
    destruct (n <=? k)%nat eqn:E.
    + apply Nat.leb_le in E.
      replace (n - k)%nat with 0%nat by lia.
      replace (n - S k)%nat with 0%nat by lia. reflexivity.
    + apply Nat.leb_gt in E.
      replace (n - k)%nat with (S (n - S k)) by lia. reflexivity.
Qed.

Lemma slice_strictlyAfter {A} (xs : list A) (p : Z) :
  -1 <= p -> slice xs (p + 1) = strictlyAfter p xs.
Proof.
  intros Hp. unfold slice, strictlyAfter.
  destruct (p + 1 <? 0) eqn:E; [lia |].
  rewrite (imap_ext _
    (fun i x => if (Z.to_nat (p + 1) <=? 0 + i)%nat then Some x else None)).
  - rewrite omap_imap_from, Nat.sub_0_r.
    destruct (Z_le_gt_dec (p + 1) (Z.of_nat (length xs))).
    + now rewrite Z.min_l by lia.
    + rewrite Z.min_r by lia. rewrite Nat2Z.id.
      now rewrite !drop_ge by lia.
  - intros i x _. simpl.
    destruct (p <? Z.of_nat i) eqn:E1, (Z.to_nat (p + 1) <=? i)%nat eqn:E2;
      try reflexivity.
    + apply Nat.leb_gt in E2. lia.
    + apply Nat.leb_le in E2. lia.
Qed.


(** No position precedes an absent [x]: every element counts as after. *)
Lemma strictlyAfter_absent (xs : list jsstring) (x : jsstring) :
  x ∉ xs -> strictlyAfter (indexOf xs x) xs = xs.
Proof.
  intros Hnot. rewrite <- slice_strictlyAfter by apply indexOf_lower.
  rewrite indexOf_absent by assumption. unfold slice. simpl.
  now rewrite Z.min_l by lia.
Qed.

(** ** The access check *)

Section AccessCheck.
Variable decodeBase64 : jsstring -> jsstring.

Lemma anyCredential_true authString credentials :
  Routes.anyCredential authString credentials = true
  <-> exists credentialLabel,
        credentialLabel ∈ credentials /\ authString = value credentialLabel.
Proof.
  induction credentials as [| c cs IH]; simpl.
  - split; [discriminate |]. intros (c & Hin & _). inversion Hin.
  - unfold safeCompare. case_bool_decide as Heq.
    + split; [| reflexivity]. intros _. exists c. split; [constructor | exact Heq].
    + rewrite IH. split.
      * intros (d & Hin & Hd). exists d. split; [now constructor | exact Hd].
      * intros (d & Hin & Hd). inversion Hin; subst; [contradiction |].
        now exists d.
Qed.

Lemma checkNoteAccess_missing shaca noteId req res :
  Shaca.notes shaca !! noteId = None ->
  Routes.checkNoteAccess decodeBase64 shaca noteId req res
  = (None,
     jsonError 404 (js "Note '" ++ noteId ++ js "' not found.") res).
Proof.
  intros H. unfold Routes.checkNoteAccess, Shaca.getNote. now rewrite H.
Qed.

Lemma checkNoteAccess_forbidden shaca req res note :
  Shaca.notes shaca !! js "_share" = Some note ->
  Shaca.shareIndexEnabled shaca = false ->
  Routes.checkNoteAccess decodeBase64 shaca (js "_share") req res
  = (None, jsonError 403 (js "Accessing share index is forbidden.") res).
Proof.
  intros H Hidx. unfold Routes.checkNoteAccess, Shaca.getNote.
  rewrite H, Hidx. now rewrite bool_decide_eq_true_2.
Qed.

(** A granted access leaves the response object as it was, and the note
    is the cached one. *)
Lemma checkNoteAccess_granted shaca noteId req res note res' :
  Routes.checkNoteAccess decodeBase64 shaca noteId req res = (Some note, res') ->
  res' = res /\ Shaca.notes shaca !! noteId = Some note.
Proof.
  unfold Routes.checkNoteAccess, Shaca.getNote.
  destruct (Shaca.notes shaca !! noteId) as [n |]; [| discriminate].
  destruct (bool_decide (noteId = js "_share")
            && negb (Shaca.shareIndexEnabled shaca)); [discriminate |].
  destruct (length (SNote.getCredentials n) =? 0)%nat.
  { intros H. now inversion H. }
  destruct (Request.authorization req) as [header |]; [| discriminate].
  destruct (startsWith header (js "Basic ")); [| discriminate].
  destruct (Routes.anyCredential _ _); [| discriminate].
  intros H. now inversion H.
Qed.

(** A note that carries credential labels is refused, without a word on
    the response object, when the request has no [Authorization] header,
    when the header is not a [Basic] one, or when the decoded string is
    none of the label values. *)
Lemma checkNoteAccess_denied shaca noteId req res note :
  Shaca.notes shaca !! noteId = Some note ->
  (noteId = js "_share" -> Shaca.shareIndexEnabled shaca = true) ->
  SNote.getCredentials note <> [] ->
  match Request.authorization req with
  | None => True
  | Some header =>
      startsWith header (js "Basic ") = false
      \/ forall credentialLabel,
           credentialLabel ∈ SNote.getCredentials note ->
           decodeBase64 (substring header (length (js "Basic ")))
           <> value credentialLabel
  end ->
  Routes.checkNoteAccess decodeBase64 shaca noteId req res = (None, res).
Proof.
  intros Hnote Hidx Hcred Hreq.
  unfold Routes.checkNoteAccess, Shaca.getNote. rewrite Hnote.
  replace (bool_decide (noteId = js "_share")
           && negb (Shaca.shareIndexEnabled shaca)) with false.
  2:{ case_bool_decide as E; [| reflexivity]. now rewrite (Hidx E). }
  destruct (SNote.getCredentials note) as [| c cs] eqn:Hcs; [congruence |].
  simpl Nat.eqb. cbv iota.
  destruct (Request.authorization req) as [header |]; [| reflexivity].
  destruct (startsWith header (js "Basic ")) eqn:Hs; [| reflexivity].
  destruct Hreq as [Hreq | Hreq]; [discriminate |].
  destruct (Routes.anyCredential _ (c :: cs)) eqn:Hany; [| reflexivity].
  apply anyCredential_true in Hany as (d & Hin & Hd).
  exfalso. exact (Hreq d Hin Hd).
Qed.

(** The decoded string of a [Basic] header that is one of the label values
    grants access. *)
Lemma checkNoteAccess_match shaca noteId req res note base64Str credentialLabel :
  Shaca.notes shaca !! noteId = Some note ->
  (noteId = js "_share" -> Shaca.shareIndexEnabled shaca = true) ->
  Request.authorization req = Some (js "Basic " ++ base64Str) ->
  credentialLabel ∈ SNote.getCredentials note ->
  decodeBase64 base64Str = value credentialLabel ->
  Routes.checkNoteAccess decodeBase64 shaca noteId req res = (Some note, res).
Proof.
  intros Hnote Hidx Hhdr Hin Hdec.
  unfold Routes.checkNoteAccess, Shaca.getNote. rewrite Hnote, Hhdr.
  replace (bool_decide (noteId = js "_share")
           && negb (Shaca.shareIndexEnabled shaca)) with false.
  2:{ case_bool_decide as E; [| reflexivity]. now rewrite (Hidx E). }
  destruct (length (SNote.getCredentials note) =? 0)%nat; [reflexivity |].
  rewrite startsWith_app.
  replace (substring (js "Basic " ++ base64Str) (length (js "Basic ")))
    with base64Str by reflexivity.
  replace (Routes.anyCredential _ _) with true; [reflexivity |].
  symmetry. apply anyCredential_true. now exists credentialLabel.
Qed.

End AccessCheck.

(** ** The search handler *)

Lemma mapM_cachedTitles (shaca : Shaca.t) (ids : list jsstring) :
  mapM (fun id => SNote.title <$> Shaca.notes shaca !! id)
    (filter (fun id => is_Some (Shaca.notes shaca !! id)) ids)
  = Some (cachedTitles shaca ids).
Proof.
  unfold cachedTitles. induction ids as [| id ids IH]; [reflexivity |].
  rewrite filter_cons. simpl omap.
  destruct (Shaca.notes shaca !! id) as [n |] eqn:Hid.
  - rewrite decide_True by eauto. simpl. rewrite Hid. simpl.
    now rewrite IH.
  - rewrite decide_False by (intros [? ?]; discriminate). simpl. exact IH.
Qed.

(** What the callback of [searchResults.map] computes for one result. *)
Lemma toResult_eq (shaca : Shaca.t) (ancestorNoteId : jsstring)
    (sr : SearchResult.t) :
  Routes.toResult shaca ancestorNoteId sr
  = (fun fullNote =>
       ResultEntry.mk (SNote.shareId fullNote) (SNote.title fullNote)
         (SearchResult.score sr)
         (join (js " / ")
            (cachedTitles shaca
               (strictlyAfter
                  (indexOf (SearchResult.notePathArray sr) ancestorNoteId)
                  (SearchResult.notePathArray sr)))))
    <$> Shaca.notes shaca !! SearchResult.noteId sr.
Proof.
  unfold Routes.toResult.
  rewrite slice_strictlyAfter by apply indexOf_lower.
  rewrite mapM_cachedTitles. simpl.
  now destruct (Shaca.notes shaca !! SearchResult.noteId sr).
Qed.

Lemma toResult_is_Some (shaca : Shaca.t) (ancestorNoteId : jsstring)
    (sr : SearchResult.t) :
  is_Some (Routes.toResult shaca ancestorNoteId sr)
  <-> is_Some (Shaca.notes shaca !! SearchResult.noteId sr).
Proof. rewrite toResult_eq. apply fmap_is_Some. Qed.

Lemma allCached_Forall (shaca : Shaca.t) (results : list SearchResult.t) :
  allCached shaca results = true
  <-> Forall
        (fun sr => is_Some (Shaca.notes shaca !! SearchResult.noteId sr))
        results.
Proof.
  unfold allCached. rewrite forallb_forall, Forall_forall.
  split; intros H sr Hin.
  - apply list_elem_of_In in Hin. specialize (H sr Hin).
    now apply bool_decide_eq_true in H.
  - apply bool_decide_eq_true. apply H. now apply list_elem_of_In.
Qed.

Lemma mapM_toResult_cached (shaca : Shaca.t) (ancestorNoteId : jsstring)
    (results : list SearchResult.t) :
  is_Some (mapM (Routes.toResult shaca ancestorNoteId) results)
  <-> allCached shaca results = true.
Proof.
  rewrite mapM_is_Some, allCached_Forall. apply Forall_proper; [| reflexivity].
  intros sr. apply toResult_is_Some.
Qed.

Section SearchHandler.
Variable decodeBase64 : jsstring -> jsstring.
Variable hoistedNoteId : jsstring.
Variable findResultsWithQuery :
  jsstring -> SearchContext.t -> list SearchResult.t.

(** The two variants of the router carry the same search handler. *)
Lemma searchNotes_variants shaca req res :
  Middleware.apiNotesSearch decodeBase64 hoistedNoteId findResultsWithQuery
    shaca req res
  = Routes.searchNotes decodeBase64 hoistedNoteId findResultsWithQuery
      shaca req res.
Proof. reflexivity. Qed.

Lemma searchNotes_not_string shaca req res v :
  Request.ancestorNoteId req = Some v ->
  (forall s, v <> QString s) ->
  Routes.searchNotes decodeBase64 hoistedNoteId findResultsWithQuery
    shaca req res
  = returned
      (jsonError 400 (js "'ancestorNoteId' parameter is mandatory.") res).
Proof.
  intros Hv Hns. unfold Routes.searchNotes. rewrite Hv. simpl.
  destruct v as [s | xs |]; [now destruct (Hns s) | reflexivity | reflexivity].
Qed.

Lemma searchNotes_refused shaca req res ancestorNoteId res' :
  default (QString (js "_share")) (Request.ancestorNoteId req)
  = QString ancestorNoteId ->
  Routes.checkNoteAccess decodeBase64 shaca ancestorNoteId req res
  = (None, res') ->
  Routes.searchNotes decodeBase64 hoistedNoteId findResultsWithQuery
    shaca req res
  = returned res'.
Proof.
  intros Ha Hc. unfold Routes.searchNotes. now rewrite Ha, Hc.
Qed.

Lemma searchNotes_blank shaca req res ancestorNoteId note :
  default (QString (js "_share")) (Request.ancestorNoteId req)
  = QString ancestorNoteId ->
  fst (Routes.checkNoteAccess decodeBase64 shaca ancestorNoteId req res)
  = Some note ->
  match Request.search req with
  | Some (QString search) => onlyWhiteSpace search = true
  | _ => True
  end ->
  Routes.searchNotes decodeBase64 hoistedNoteId findResultsWithQuery
    shaca req res
  = returned (jsonError 400 (js "'search' parameter is mandatory.") res).
Proof.
  intros Ha Hc Hs. unfold Routes.searchNotes. rewrite Ha.
  destruct (Routes.checkNoteAccess _ _ _ _ _) as [o res'] eqn:Hchk.
  simpl in Hc. subst o.
  apply checkNoteAccess_granted in Hchk as [-> _].
  destruct (Request.search req) as [[search | xs |] |]; try reflexivity.
  now rewrite blank_search, Hs.
Qed.

Lemma searchNotes_run shaca req res ancestorNoteId note search :
  default (QString (js "_share")) (Request.ancestorNoteId req)
  = QString ancestorNoteId ->
  fst (Routes.checkNoteAccess decodeBase64 shaca ancestorNoteId req res)
  = Some note ->
  Request.search req = Some (QString search) ->
  onlyWhiteSpace search = false ->
  let searchContext := shareSearchContext hoistedNoteId ancestorNoteId in
  Routes.searchNotes decodeBase64 hoistedNoteId findResultsWithQuery
    shaca req res
  = match mapM (Routes.toResult shaca ancestorNoteId)
            (findResultsWithQuery search searchContext) with
    | Some filteredResults =>
        {| response := Response.json (JsonResults filteredResults) res;
           searches := [(search, searchContext)];
           threw := false |}
    | None =>
        {| response := res;
           searches := [(search, searchContext)];
           threw := true |}
    end.
Proof.
  intros Ha Hc Hs Hq. unfold Routes.searchNotes. rewrite Ha.
  destruct (Routes.checkNoteAccess _ _ _ _ _) as [o res'] eqn:Hchk.
  simpl in Hc. subst o.
  apply checkNoteAccess_granted in Hchk as [-> _].
  now rewrite Hs, blank_search, Hq.
Qed.

(** Whatever the request, a search that was run was rooted at the
    ancestor the request names, [_share] by default. *)
Lemma searchNotes_searches shaca req res search searchContext :
  (search, searchContext)
    ∈ searches (Routes.searchNotes decodeBase64 hoistedNoteId
                  findResultsWithQuery shaca req res) ->
  exists ancestorNoteId,
    default (QString (js "_share")) (Request.ancestorNoteId req)
    = QString ancestorNoteId
    /\ Request.search req = Some (QString search)
    /\ searchContext = shareSearchContext hoistedNoteId ancestorNoteId.
Proof.
  unfold Routes.searchNotes, returned.
  destruct (default _ _) as [anc | xs |];
    try (simpl; intros []%elem_of_nil).
  destruct (Routes.checkNoteAccess _ _ _ _ _) as [[n |] res'];
    try (simpl; intros []%elem_of_nil).
  destruct (Request.search req) as [[q | xs |] |];
    try (simpl; intros []%elem_of_nil).
  destruct (str_falsy (trim q)); try (simpl; intros []%elem_of_nil).
  destruct (mapM _ _); simpl; intros H;
    apply list_elem_of_singleton in H; inversion H; subst;
    exists anc; auto.
Qed.

End SearchHandler.

(** ** The share search endpoint *)

Example decodeBase64Ascii_user_pass :
  decodeBase64Ascii (js "dTpw") = js "u:p".
Proof. reflexivity. Qed.

(** A refused access either leaves the response object alone or sends a
    JSON message with a status. *)
Lemma checkNoteAccess_refused
    (decodeBase64 : jsstring -> jsstring) (shaca : Shaca.t)
    (noteId : jsstring) (req : Request.t) (res res' : Response.t) :
  Routes.checkNoteAccess decodeBase64 shaca noteId req res = (None, res') ->
  res' = res \/ exists code message, res' = jsonError code message res.
Proof.
  unfold Routes.checkNoteAccess.
  destruct (Shaca.getNote shaca noteId) as [n |].
  2:{ intros H; inversion H. right. eauto. }
  destruct (bool_decide (noteId = js "_share")
            && negb (Shaca.shareIndexEnabled shaca)).
  { intros H; inversion H. right. eauto. }
  destruct (length (SNote.getCredentials n) =? 0)%nat; [discriminate |].
  destruct (Request.authorization req) as [header |].
  2:{ intros H; inversion H. now left. }
  destruct (startsWith header (js "Basic ")).
  2:{ intros H; inversion H. now left. }
  destruct (Routes.anyCredential _ _); [discriminate |].
  intros H; inversion H. now left.
Qed.

(** C1, as stated, fails: with [docs] as ancestor (no credential labels)
    and no [Authorization] header, the response lists [vault], a note
    whose own credential label the request does not satisfy. *)
Lemma search_results_unchecked_counterexample :
  ~ resultsPassAccessCheck decodeBase64Ascii (js "root") Demo.findTwo
      (Demo.cache true)
      (Demo.request None (Some (js "docs")) (Some (js "gui"))).
Proof.
  intros H.
  pose (guideEntry :=
    ResultEntry.mk (js "the-guide") (js "Guide") 2.5%float (js "Guide")).
  pose (vaultEntry :=
    ResultEntry.mk (js "vault") (js "Vault") 1%float (js "Vault")).
  destruct (H [guideEntry; vaultEntry] vaultEntry)
    as (q & ctx & sr & n & _ & Hsr & Hn & Hid & _ & Hchk).
  - vm_compute. reflexivity.
  - right. left.
  - unfold Demo.findTwo in Hsr.
    apply elem_of_cons in Hsr as [-> | Hsr].
    + vm_compute in Hn. inversion Hn; subst n.
      vm_compute in Hid. discriminate.
    + apply list_elem_of_singleton in Hsr as ->.
      vm_compute in Hchk. destruct Hchk as [x Hx]. discriminate.
Qed.

(** C1 (amended): on the share search endpoint only the ancestor note goes
    through the existence and credential check.  When the check refuses
    the ancestor, no search is run and no results are returned: the
    handler returns with the response as the check left it, untouched or
    with the JSON message of the check.  When it passes, the search string
    is not blank and every result names a cached note, the response lists
    one entry for every result of [findResultsWithQuery], in the same
    order, each with the share id and title of the result's note and the
    result's score; the credential labels of the result notes play no
    part. *)
Theorem search_checks_ancestor_only
    (decodeBase64 : jsstring -> jsstring) (hoistedNoteId : jsstring)
    (findResultsWithQuery : jsstring -> SearchContext.t -> list SearchResult.t)
    (shaca : Shaca.t) (req : Request.t) (res : Response.t)
    (ancestorNoteId search : jsstring) :
  default (QString (js "_share")) (Request.ancestorNoteId req)
  = QString ancestorNoteId ->
  let run :=
    Routes.searchNotes decodeBase64 hoistedNoteId findResultsWithQuery
      shaca req res in
  let check :=
    Routes.checkNoteAccess decodeBase64 shaca ancestorNoteId req res in
  let searchResults :=
    findResultsWithQuery search
      (shareSearchContext hoistedNoteId ancestorNoteId) in
  (fst check = None ->
   run = returned (snd check)
   /\ (snd check = res
       \/ exists code message, snd check = jsonError code message res))
  /\ (forall note,
        fst check = Some note ->
        Request.search req = Some (QString search) ->
        onlyWhiteSpace search = false ->
        allCached shaca searchResults = true ->
        exists filteredResults,
          run
          = {| response := Response.json (JsonResults filteredResults) res;
               searches :=
                 [(search, shareSearchContext hoistedNoteId ancestorNoteId)];
               threw := false |}
          /\ Forall2
               (fun sr entry =>
                  exists fullNote,
                    Shaca.notes shaca !! SearchResult.noteId sr = Some fullNote
                    /\ ResultEntry.id entry = SNote.shareId fullNote
                    /\ ResultEntry.title entry = SNote.title fullNote
                    /\ ResultEntry.score entry = SearchResult.score sr)
               searchResults filteredResults).
Proof.
  intros Ha run check searchResults. subst run check. split.
  - intros Hc.
    destruct (Routes.checkNoteAccess _ _ _ _ _) as [o res'] eqn:Hchk.
    cbn [fst snd] in *. subst o. split.
    + now apply searchNotes_refused with (ancestorNoteId := ancestorNoteId).
    + now apply checkNoteAccess_refused in Hchk.
  - intros note Hc Hs Hq Hcached.
    rewrite (searchNotes_run _ _ _ _ _ _ _ _ _ Ha Hc Hs Hq). simpl.
    apply (mapM_toResult_cached shaca ancestorNoteId) in Hcached
      as [filteredResults Hmap].
    fold searchResults. rewrite Hmap. exists filteredResults.
    split; [reflexivity |].
    apply mapM_Some_1 in Hmap.
    eapply Forall2_impl; [exact Hmap |].
    intros sr entry Hentry. simpl in Hentry. rewrite toResult_eq in Hentry.
    destruct (Shaca.notes shaca !! SearchResult.noteId sr) as [fullNote |];
      [| discriminate].
    inversion Hentry; subst entry. exists fullNote. auto.
Qed.

Lemma search_checks_ancestor_only_witness :
  exists filteredResults,
    Routes.searchNotes decodeBase64Ascii (js "root") Demo.findTwo
      (Demo.cache true)
      (Demo.request None (Some (js "docs")) (Some (js "gui")))
      Response.fresh
    = {| response :=
           Response.json (JsonResults filteredResults) Response.fresh;
         searches := [(js "gui", shareSearchContext (js "root") (js "docs"))];
         threw := false |}
    /\ Forall2
         (fun sr entry =>
            exists fullNote,
              Shaca.notes (Demo.cache true) !! SearchResult.noteId sr
              = Some fullNote
              /\ ResultEntry.id entry = SNote.shareId fullNote
              /\ ResultEntry.title entry = SNote.title fullNote
              /\ ResultEntry.score entry = SearchResult.score sr)
         (Demo.findTwo (js "gui") (shareSearchContext (js "root") (js "docs")))
         filteredResults.
Proof.
  apply (proj2 (search_checks_ancestor_only decodeBase64Ascii (js "root")
                  Demo.findTwo (Demo.cache true)
                  (Demo.request None (Some (js "docs")) (Some (js "gui")))
                  Response.fresh (js "docs") (js "gui") eq_refl) Demo.docs).
  - vm_compute. reflexivity.
  - reflexivity.
  - vm_compute. reflexivity.
  - vm_compute. reflexivity.
Defined.

(** C2, at the failing input: the ancestor [vault] carries a credential
    label and the request has no [Authorization] header; the handler
    returns with the response object untouched (no status 401, no
    [WWW-Authenticate] header, nothing sent).  The same holds for a
    [Basic] header whose decoded string is none of the label values. *)
Theorem search_without_credentials_unanswered :
  Routes.searchNotes decodeBase64Ascii (js "root") Demo.findTwo
    (Demo.cache true)
    (Demo.request None (Some (js "vault")) (Some (js "gui")))
    Response.fresh
  = returned Response.fresh
  /\ Routes.searchNotes decodeBase64Ascii (js "root") Demo.findTwo
       (Demo.cache true)
       (Demo.request (Some (js "Basic dTpx")) (Some (js "vault"))
          (Some (js "gui")))
       Response.fresh
     = returned Response.fresh
  /\ requestCredentials Response.fresh <> Response.fresh.
Proof.
  split; [vm_compute; reflexivity |].
  split; [vm_compute; reflexivity |].
  vm_compute. discriminate.
Qed.

(** In general: when the ancestor carries a credential label and the
    request does not satisfy it, the search handler returns and leaves the
    response object as it found it. *)
Lemma search_denied_unanswered
    (decodeBase64 : jsstring -> jsstring) (hoistedNoteId : jsstring)
    (findResultsWithQuery : jsstring -> SearchContext.t -> list SearchResult.t)
    (shaca : Shaca.t) (req : Request.t) (res : Response.t)
    (ancestorNoteId : jsstring) (note : SNote.t) :
  default (QString (js "_share")) (Request.ancestorNoteId req)
  = QString ancestorNoteId ->
  Shaca.notes shaca !! ancestorNoteId = Some note ->
  (ancestorNoteId = js "_share" -> Shaca.shareIndexEnabled shaca = true) ->
  SNote.getCredentials note <> [] ->
  match Request.authorization req with
  | None => True
  | Some header =>
      startsWith header (js "Basic ") = false
      \/ forall credentialLabel,
           credentialLabel ∈ SNote.getCredentials note ->
           decodeBase64 (substring header (length (js "Basic ")))
           <> value credentialLabel
  end ->
  Routes.searchNotes decodeBase64 hoistedNoteId findResultsWithQuery
    shaca req res
  = returned res.
Proof.
  intros Ha Hn Hidx Hcred Hreq.
  apply (searchNotes_refused _ _ _ _ _ _ ancestorNoteId res Ha).
  now apply checkNoteAccess_denied with (note := note).
Qed.

(** C6, as stated, fails: without an [ancestorNoteId] parameter the
    response is not a 400 (here the search runs and a 200 follows), and a
    blank [search] gives a 404 when the ancestor is unknown. *)
Lemma search_bad_request_counterexample :
  Response.statusCode
    (response
       (Routes.searchNotes decodeBase64Ascii (js "root") Demo.findTwo
          (Demo.cache true) (Demo.request None None (Some (js "gui")))
          Response.fresh)) <> 400
  /\ Response.statusCode
       (response
          (Routes.searchNotes decodeBase64Ascii (js "root") Demo.findTwo
             (Demo.cache true)
             (Demo.request None (Some (js "nowhere")) (Some (js "  ")))
             Response.fresh)) <> 400.
Proof. split; vm_compute; discriminate. Qed.

(** C6 (amended): in both variants the share search endpoint answers 400
    with a JSON [{ message }] body when [ancestorNoteId] is given but is
    not a string, and, once the ancestor ([_share] when the parameter is
    omitted) has passed the access check, when [search] is absent, is not a
    string or consists of white space only; in these cases no search is
    run. *)
Theorem search_bad_request
    (decodeBase64 : jsstring -> jsstring) (hoistedNoteId : jsstring)
    (findResultsWithQuery : jsstring -> SearchContext.t -> list SearchResult.t)
    (shaca : Shaca.t) (req : Request.t) (res : Response.t) :
  let run :=
    Routes.searchNotes decodeBase64 hoistedNoteId findResultsWithQuery
      shaca req res in
  Middleware.apiNotesSearch decodeBase64 hoistedNoteId findResultsWithQuery
    shaca req res = run
  /\ (forall v,
        Request.ancestorNoteId req = Some v ->
        (forall s, v <> QString s) ->
        response run
        = jsonError 400 (js "'ancestorNoteId' parameter is mandatory.") res
        /\ searches run = [] /\ threw run = false)
  /\ (forall ancestorNoteId note,
        default (QString (js "_share")) (Request.ancestorNoteId req)
        = QString ancestorNoteId ->
        fst (Routes.checkNoteAccess decodeBase64 shaca ancestorNoteId req res)
        = Some note ->
        (Request.search req = None
         \/ (exists v, Request.search req = Some v /\ forall s, v <> QString s)
         \/ (exists s, Request.search req = Some (QString s)
                       /\ onlyWhiteSpace s = true)) ->
        response run
        = jsonError 400 (js "'search' parameter is mandatory.") res
        /\ searches run = [] /\ threw run = false).
Proof.
  intros run. split; [apply searchNotes_variants |]. split.
  - intros v Hv Hns. subst run.
    now rewrite (searchNotes_not_string _ _ _ _ _ _ _ Hv Hns).
  - intros ancestorNoteId note Ha Hc Hs. subst run.
    rewrite (searchNotes_blank _ _ _ _ _ _ ancestorNoteId note Ha Hc); [auto |].
    destruct Hs as [-> | [(v & -> & Hns) | (s & -> & Hws)]];
      [exact I | | exact Hws].
    destruct v as [s | |]; [now destruct (Hns s) | exact I | exact I].
Qed.

Lemma search_bad_request_witness :
  let run :=
    Routes.searchNotes decodeBase64Ascii (js "root") Demo.findTwo
      (Demo.cache true) (Demo.request None (Some (js "docs")) (Some (js " ")))
      Response.fresh in
  response run
  = jsonError 400 (js "'search' parameter is mandatory.") Response.fresh
  /\ searches run = [] /\ threw run = false.
Proof.
  intros run.
  apply (proj2 (proj2 (search_bad_request decodeBase64Ascii (js "root")
           Demo.findTwo (Demo.cache true)
           (Demo.request None (Some (js "docs")) (Some (js " ")))
           Response.fresh)) (js "docs") Demo.docs).
  - reflexivity.
  - vm_compute. reflexivity.
  - right. right. exists (js " "). split; reflexivity.
Defined.

(** C7, as stated, fails: with the parameter omitted, the share index
    disabled and no [_share] note in the cache, the response is a 404, not
    a 403. *)
Lemma search_default_ancestor_counterexample :
  let run :=
    Routes.searchNotes decodeBase64Ascii (js "root") Demo.findTwo
      Demo.cacheWithoutRoot (Demo.request None None (Some (js "gui")))
      Response.fresh in
  ~ (Response.statusCode (response run) = 403
     <-> Shaca.shareIndexEnabled Demo.cacheWithoutRoot = false).
Proof.
  intros run [_ H]. specialize (H eq_refl). vm_compute in H. discriminate.
Qed.

(** A cached note without credential labels is open to every request. *)
Lemma checkNoteAccess_open
    (decodeBase64 : jsstring -> jsstring) (shaca : Shaca.t)
    (noteId : jsstring) (req : Request.t) (res : Response.t) (note : SNote.t) :
  Shaca.notes shaca !! noteId = Some note ->
  (noteId = js "_share" -> Shaca.shareIndexEnabled shaca = true) ->
  SNote.getCredentials note = [] ->
  Routes.checkNoteAccess decodeBase64 shaca noteId req res = (Some note, res).
Proof.
  intros Hnote Hidx Hcred.
  unfold Routes.checkNoteAccess, Shaca.getNote. rewrite Hnote, Hcred.
  replace (bool_decide (noteId = js "_share")
           && negb (Shaca.shareIndexEnabled shaca)) with false; [reflexivity |].
  case_bool_decide as E; [| reflexivity]. now rewrite (Hidx E).
Qed.

(** When the share index is enabled and the share root is cached, a search
    request without [ancestorNoteId] never ends in a 403. *)
Lemma search_default_ancestor_enabled
    (decodeBase64 : jsstring -> jsstring) (hoistedNoteId : jsstring)
    (findResultsWithQuery : jsstring -> SearchContext.t -> list SearchResult.t)
    (shaca : Shaca.t) (req : Request.t) (shareRoot : SNote.t) :
  Request.ancestorNoteId req = None ->
  Shaca.notes shaca !! js "_share" = Some shareRoot ->
  Shaca.shareIndexEnabled shaca = true ->
  Response.statusCode
    (response
       (Routes.searchNotes decodeBase64 hoistedNoteId findResultsWithQuery
          shaca req Response.fresh)) <> 403.
Proof.
  intros Hreq Hroot Hidx.
  unfold Routes.searchNotes, Routes.checkNoteAccess, Shaca.getNote.
  rewrite Hreq. simpl default. cbv beta iota. rewrite Hroot, Hidx.
  rewrite andb_false_r.
  destruct (length (SNote.getCredentials shareRoot) =? 0)%nat.
  2: destruct (Request.authorization req) as [header |];
       [destruct (startsWith header (js "Basic "));
          [destruct (Routes.anyCredential _ _) |] |].
  all: try (simpl; discriminate).
  all: destruct (Request.search req) as [[q | xs |] |];
         try (simpl; discriminate).
  all: destruct (str_falsy (trim q)); try (simpl; discriminate).
  all: destruct (mapM _ _); simpl; discriminate.
Qed.

(** C7 (amended): when the [ancestorNoteId] parameter is omitted, every
    search the handler runs is rooted at [_share].  If the cache has no
    [_share] note the response is a 404.  If it has one, the response is a
    403 exactly when the share index is disabled; with the index enabled
    the request goes on to the credential check of [_share] and, when
    that note has no credential labels and the search string is not blank,
    to the search itself. *)
Theorem search_default_ancestor
    (decodeBase64 : jsstring -> jsstring) (hoistedNoteId : jsstring)
    (findResultsWithQuery : jsstring -> SearchContext.t -> list SearchResult.t)
    (shaca : Shaca.t) (req : Request.t) :
  Request.ancestorNoteId req = None ->
  let run :=
    Routes.searchNotes decodeBase64 hoistedNoteId findResultsWithQuery
      shaca req Response.fresh in
  (forall search searchContext,
     (search, searchContext) ∈ searches run ->
     SearchContext.ancestorNoteId searchContext = Some (js "_share"))
  /\ (Shaca.notes shaca !! js "_share" = None ->
      run = returned
              (jsonError 404 (js "Note '_share' not found.") Response.fresh))
  /\ (forall shareRoot,
        Shaca.notes shaca !! js "_share" = Some shareRoot ->
        (Response.statusCode (response run) = 403
         <-> Shaca.shareIndexEnabled shaca = false)
        /\ (Shaca.shareIndexEnabled shaca = false ->
            run = returned
                    (jsonError 403 (js "Accessing share index is forbidden.")
                       Response.fresh))
        /\ (Shaca.shareIndexEnabled shaca = true ->
            SNote.getCredentials shareRoot = [] ->
            forall search,
              Request.search req = Some (QString search) ->
              onlyWhiteSpace search = false ->
              searches run
              = [(search, shareSearchContext hoistedNoteId (js "_share"))])).
Proof.
  intros Hreq run.
  assert (Ha : default (QString (js "_share")) (Request.ancestorNoteId req)
               = QString (js "_share")) by now rewrite Hreq.
  split; [| split].
  - intros search searchContext Hin.
    apply searchNotes_searches in Hin as (anc & Ha' & _ & ->).
    rewrite Ha in Ha'. inversion Ha'; subst anc. reflexivity.
  - intros Hnone. subst run.
    apply (searchNotes_refused _ _ _ _ _ _ (js "_share") _ Ha).
    now apply checkNoteAccess_missing.
  - intros shareRoot Hroot.
    assert (Hforbidden :
      Shaca.shareIndexEnabled shaca = false ->
      run = returned
              (jsonError 403 (js "Accessing share index is forbidden.")
                 Response.fresh)).
    { intros Hidx. subst run.
      apply (searchNotes_refused _ _ _ _ _ _ (js "_share") _ Ha).
      now apply checkNoteAccess_forbidden with (note := shareRoot). }
    split; [| split].
    + split.
      * intros H403. destruct (Shaca.shareIndexEnabled shaca) eqn:Hidx;
          [| reflexivity].
        exfalso. revert H403.
        now apply search_default_ancestor_enabled with (shareRoot := shareRoot).
      * intros Hidx. now rewrite (Hforbidden Hidx).
    + exact Hforbidden.
    + intros Hidx Hcred search Hs Hq. subst run.
      rewrite (searchNotes_run _ _ _ _ _ _ (js "_share") shareRoot search Ha);
        [| | exact Hs | exact Hq].
      * now destruct (mapM _ _).
      * now rewrite (checkNoteAccess_open _ _ _ _ _ shareRoot Hroot).
Qed.

Lemma search_default_ancestor_witness :
  let run :=
    Routes.searchNotes decodeBase64Ascii (js "root") Demo.findTwo
      (Demo.cache false) (Demo.request None None (Some (js "gui")))
      Response.fresh in
  Response.statusCode (response run) = 403
  <-> Shaca.shareIndexEnabled (Demo.cache false) = false.
Proof.
  intros run.
  apply (proj2 (proj2 (search_default_ancestor decodeBase64Ascii (js "root")
           Demo.findTwo (Demo.cache false)
           (Demo.request None None (Some (js "gui"))) eq_refl))
           Demo.shareRoot).
  vm_compute. reflexivity.
Defined.




(** C9: the access check of the middleware variant and the access check of
    the per-route variant agree on every note id, share cache, request and
    response object: the same note or refusal comes back, and the response
    object is left in the same state (the same status and body, if any). *)
Theorem checkNoteAccess_variants_agree
    (decodeBase64 : jsstring -> jsstring) (shaca : Shaca.t)
    (noteId : jsstring) (req : Request.t) (res : Response.t) :
  Middleware.checkNoteAccess decodeBase64 shaca noteId req res
  = Routes.checkNoteAccess decodeBase64 shaca noteId req res.
Proof.
  unfold Middleware.checkNoteAccess, Routes.checkNoteAccess.
  destruct (Shaca.getNote shaca noteId) as [note |]; [| reflexivity].
  destruct (bool_decide (noteId = js "_share")
            && negb (Shaca.shareIndexEnabled shaca)); [reflexivity |].
  destruct (length (SNote.getCredentials note) =? 0)%nat; [reflexivity |].
  destruct (Request.authorization req) as [header |]; [| reflexivity].
  destruct (startsWith header (js "Basic ")); reflexivity.
Qed.




(** * Further properties of the code *)

(** ** SearchContext: runs of [addError] *)

Lemma addError_frame (e : jsstring) (c : SearchContext.t) :
  SearchContext.addError e c
  = SearchContext.set_error
      (SearchContext.error (SearchContext.addError e c)) c.
Proof.
  unfold SearchContext.addError.
  destruct (opt_str_falsy (SearchContext.error c)); [reflexivity |].
  now destruct c.
Qed.

(** X1: a run of [addError] calls on a context that holds an error changes
    nothing at all.  On a context without one, the stored error ends up as
    the first non-empty message of the run; if every message is empty, the
    empty string is stored (unless the run is empty) and [hasError()]
    stays false. *)
Theorem addErrors_first_nonempty
    (messages : list jsstring) (c : SearchContext.t) :
  (SearchContext.hasError c = true ->
   SearchContext.addErrors messages c = c)
  /\ (SearchContext.hasError c = false ->
      SearchContext.getError (SearchContext.addErrors messages c)
      = match firstNonEmpty messages with
        | Some m => Some m
        | None =>
            match messages with
            | [] => SearchContext.getError c
            | _ :: _ => Some []
            end
        end
      /\ SearchContext.hasError (SearchContext.addErrors messages c)
         = bool_decide (is_Some (firstNonEmpty messages))).
Proof.
  split; [apply addErrors_recorded |].
  revert c. induction messages as [| m ms IH]; intros c Hc.
  - simpl. split; [reflexivity |]. exact Hc.
  - unfold SearchContext.addErrors. simpl fold_left.
    fold (SearchContext.addErrors ms (SearchContext.addError m c)).
    unfold firstNonEmpty. simpl List.find.
    pose proof (addError_fresh m c Hc) as Hm.
    destruct m as [| x m]; simpl negb.
    + assert (Hc' : SearchContext.hasError (SearchContext.addError [] c) = false)
        by (unfold SearchContext.hasError; now rewrite Hm).
      destruct (IH _ Hc') as [IH1 IH2]. rewrite IH1, IH2.
      split; [| reflexivity].
      fold (firstNonEmpty ms). destruct (firstNonEmpty ms); [reflexivity |].
      destruct ms; [exact Hm | reflexivity].
    + assert (Hc' : SearchContext.hasError
                      (SearchContext.addError (x :: m) c) = true)
        by (unfold SearchContext.hasError; now rewrite Hm).
      rewrite (addErrors_recorded ms _ Hc'). split.
      * exact Hm.
      * rewrite Hc'. symmetry. apply bool_decide_eq_true. eauto.
Qed.

Lemma addErrors_first_nonempty_witness :
  let c := SearchContext.new (js "root") SearchParams.empty in
  SearchContext.getError
    (SearchContext.addErrors [js ""; js "first"; js "second"] c)
  = Some (js "first")
  /\ SearchContext.hasError
       (SearchContext.addErrors [js ""; js "first"; js "second"] c)
     = bool_decide (is_Some (firstNonEmpty [js ""; js "first"; js "second"])).
Proof.
  intros c.
  apply (proj2 (addErrors_first_nonempty
                  [js ""; js "first"; js "second"] c)).
  reflexivity.
Defined.

(** X2: [addError] touches the [error] field only, over any run of calls,
    and calling it twice with the same message is the same as calling it
    once. *)
Theorem addErrors_touch_error_only
    (messages : list jsstring) (e : jsstring) (c : SearchContext.t) :
  SearchContext.addErrors messages c
  = SearchContext.set_error
      (SearchContext.error (SearchContext.addErrors messages c)) c
  /\ SearchContext.addError e (SearchContext.addError e c)
     = SearchContext.addError e c.
Proof.
  split.
  - revert c. induction messages as [| m ms IH]; intros c.
    + now destruct c.
    + unfold SearchContext.addErrors. simpl fold_left.
      fold (SearchContext.addErrors ms (SearchContext.addError m c)).
      rewrite IH at 1. rewrite (addError_frame m c) at 2.
      reflexivity.
  - destruct (SearchContext.hasError c) eqn:Hc.
    + now rewrite !(addError_recorded e c Hc).
    + pose proof (addError_fresh e c Hc) as He.
      destruct e as [| x e].
      * unfold SearchContext.hasError in Hc.
        apply negb_false_iff in Hc.
        unfold SearchContext.addError at 1. rewrite He. simpl.
        unfold SearchContext.addError. rewrite Hc. reflexivity.
      * apply addError_recorded.
        unfold SearchContext.hasError. now rewrite He.
Qed.

(** ** The access checks *)

Lemma startsWith_prefix (s prefix : jsstring) :
  startsWith s prefix = true -> s = prefix ++ drop (length prefix) s.
Proof.
  revert s. induction prefix as [| p prefix IH]; intros s H.
  - reflexivity.
  - destruct s as [| c s]; simpl in H; [discriminate |].
    apply andb_true_iff in H as [Hc Hs].
    apply bool_decide_eq_true in Hc. subst c.
    simpl. f_equal. now apply IH.
Qed.

(** X3: [checkNoteAccess] grants a note exactly when the cache holds it
    under that id, it is not the share index [_share] with the index
    disabled, and either it has no credential labels or the request has a
    header [Basic <b>] where [<b>] decodes to the value of one of the
    labels; the note handed back is the cached one. *)
Theorem checkNoteAccess_grants_iff
    (decodeBase64 : jsstring -> jsstring) (shaca : Shaca.t)
    (noteId : jsstring) (req : Request.t) (res : Response.t) (note : SNote.t) :
  fst (Routes.checkNoteAccess decodeBase64 shaca noteId req res) = Some note
  <-> Shaca.notes shaca !! noteId = Some note
      /\ (noteId = js "_share" -> Shaca.shareIndexEnabled shaca = true)
      /\ (SNote.getCredentials note = []
          \/ exists base64Str credentialLabel,
               Request.authorization req = Some (js "Basic " ++ base64Str)
               /\ credentialLabel ∈ SNote.getCredentials note
               /\ decodeBase64 base64Str = value credentialLabel).
Proof.
  split.
  - unfold Routes.checkNoteAccess, Shaca.getNote.
    destruct (Shaca.notes shaca !! noteId) as [n |]; [| discriminate].
    destruct (bool_decide (noteId = js "_share")
              && negb (Shaca.shareIndexEnabled shaca)) eqn:Hgate;
      [discriminate |].
    assert (Hidx : noteId = js "_share" -> Shaca.shareIndexEnabled shaca = true).
    { intros E. rewrite (bool_decide_eq_true_2 _ E) in Hgate.
      now destruct (Shaca.shareIndexEnabled shaca). }
    destruct (length (SNote.getCredentials n) =? 0)%nat eqn:Hlen.
    { intros H; cbn [fst] in H; inversion H; subst n.
      repeat split; [exact Hidx |].
      left. apply Nat.eqb_eq in Hlen. now destruct (SNote.getCredentials note). }
    destruct (Request.authorization req) as [header |]; [| discriminate].
    destruct (startsWith header (js "Basic ")) eqn:Hs; [| discriminate].
    destruct (Routes.anyCredential _ _) eqn:Hany; [| discriminate].
    intros H; cbn [fst] in H; inversion H; subst n.
    repeat split; [exact Hidx |].
    right. apply anyCredential_true in Hany as (c & Hin & Hc).
    exists (drop (length (js "Basic ")) header), c.
    split; [| split; [exact Hin | exact Hc]].
    f_equal. now apply startsWith_prefix.
  - intros (Hnote & Hidx & [Hcred | (b & c & Hhdr & Hin & Hdec)]).
    + now rewrite (checkNoteAccess_open _ _ _ _ _ note Hnote Hidx Hcred).
    + now rewrite (checkNoteAccess_match _ _ _ _ _ note b c Hnote Hidx Hhdr Hin Hdec).
Qed.

Lemma checkNoteAccess_grants_iff_witness :
  fst (Routes.checkNoteAccess decodeBase64Ascii (Demo.cache true)
         (js "vault")
         (Demo.request (Some (js "Basic dTpw")) None None) Response.fresh)
  = Some Demo.vault.
Proof.
  apply (proj2 (checkNoteAccess_grants_iff decodeBase64Ascii (Demo.cache true)
           (js "vault") (Demo.request (Some (js "Basic dTpw")) None None)
           Response.fresh Demo.vault)).
  split; [vm_compute; reflexivity |].
  split; [intros H; vm_compute in H; discriminate |].
  right. exists (js "dTpw"), {| value := js "u:p" |}.
  split; [reflexivity |]. split; [left | vm_compute; reflexivity].
Defined.

(** X4: what [checkNoteAccess] does to the response object: the 404
    answer when the note is not cached, the 403 answer for the share
    index when it is disabled, and nothing in every other case, a refusal
    for want of credentials included.  It sets no header and no status
    other than these two. *)
Theorem checkNoteAccess_response
    (decodeBase64 : jsstring -> jsstring) (shaca : Shaca.t)
    (noteId : jsstring) (req : Request.t) (res : Response.t) :
  let res' := snd (Routes.checkNoteAccess decodeBase64 shaca noteId req res) in
  (Shaca.notes shaca !! noteId = None ->
   res' = jsonError 404 (js "Note '" ++ noteId ++ js "' not found.") res)
  /\ (is_Some (Shaca.notes shaca !! noteId) ->
      noteId = js "_share" ->
      Shaca.shareIndexEnabled shaca = false ->
      res' = jsonError 403 (js "Accessing share index is forbidden.") res)
  /\ (is_Some (Shaca.notes shaca !! noteId) ->
      (noteId = js "_share" -> Shaca.shareIndexEnabled shaca = true) ->
      res' = res)
  /\ Response.headers res' = Response.headers res.
Proof.
  simpl. unfold Routes.checkNoteAccess, Shaca.getNote.
  destruct (Shaca.notes shaca !! noteId) as [n |] eqn:Hn.
  2:{ repeat split; try (intros [? ?]; discriminate). }
  split; [discriminate |].
  destruct (bool_decide (noteId = js "_share")
            && negb (Shaca.shareIndexEnabled shaca)) eqn:Hgate.
  - apply andb_true_iff in Hgate as [Hid Hidx].
    apply bool_decide_eq_true in Hid. apply negb_true_iff in Hidx.
    repeat split. intros _ H. rewrite (H Hid) in Hidx. discriminate.
  - assert (Hres :
      snd (if (length (SNote.getCredentials n) =? 0)%nat
           then (Some n, res)
           else
             match Request.authorization req with
             | Some header =>
                 if startsWith header (js "Basic ")
                 then
                   if Routes.anyCredential
                        (decodeBase64
                           (substring header (length (js "Basic "))))
                        (SNote.getCredentials n)
                   then (Some n, res) else (None, res)
                 else (None, res)
             | None => (None, res)
             end) = res).
    { destruct (_ =? _)%nat; [reflexivity |].
      destruct (Request.authorization req) as [header |]; [| reflexivity].
      destruct (startsWith header _); [| reflexivity].
      now destruct (Routes.anyCredential _ _). }
    rewrite Hres. repeat split.
    intros _ Hid Hidx. rewrite (bool_decide_eq_true_2 _ Hid), Hidx in Hgate.
    discriminate.
Qed.

Lemma checkNoteAccess_response_witness :
  snd (Routes.checkNoteAccess decodeBase64Ascii (Demo.cache true)
         (js "vault") (Demo.request None None None) Response.fresh)
  = Response.fresh.
Proof.
  apply (proj1 (proj2 (proj2 (checkNoteAccess_response decodeBase64Ascii
           (Demo.cache true) (js "vault") (Demo.request None None None)
           Response.fresh)))).
  - vm_compute. eauto.
  - intros H. vm_compute in H. discriminate.
Defined.

Lemma checkNoteAccess_granted_cached
    (decodeBase64 : jsstring -> jsstring) (shaca : Shaca.t)
    (noteId : jsstring) (req : Request.t) (res : Response.t) (note : SNote.t) :
  fst (Routes.checkNoteAccess decodeBase64 shaca noteId req res) = Some note ->
  Shaca.notes shaca !! noteId = Some note.
Proof.
  unfold Routes.checkNoteAccess, Shaca.getNote.
  destruct (Shaca.notes shaca !! noteId) as [n |]; [| discriminate].
  destruct (bool_decide (noteId = js "_share")
            && negb (Shaca.shareIndexEnabled shaca)); [discriminate |].
  destruct (length (SNote.getCredentials n) =? 0)%nat.
  { intros H; cbn [fst] in H; congruence. }
  destruct (Request.authorization req) as [header |]; [| discriminate].
  destruct (startsWith header (js "Basic ")); [| discriminate].
  destruct (Routes.anyCredential _ _); [| discriminate].
  intros H; cbn [fst] in H; congruence.
Qed.

Lemma checkAttachmentAccess_granted_iff
    (decodeBase64 : jsstring -> jsstring) (cache : ShareCache.t)
    (attachmentId : jsstring) (req : Request.t) (res : Response.t)
    (attachment : SAttachment.t) :
  fst (RouteHandlers.checkAttachmentAccess decodeBase64 cache attachmentId
         req res) = Some attachment
  <-> ShareCache.attachments cache !! attachmentId = Some attachment
      /\ is_Some
           (fst (Routes.checkNoteAccess decodeBase64
                   (ShareCache.shaca cache)
                   (SAttachment.ownerId attachment) req res)).
Proof.
  unfold RouteHandlers.checkAttachmentAccess, ShareCache.getAttachment.
  destruct (ShareCache.attachments cache !! attachmentId) as [a |].
  - destruct (Routes.checkNoteAccess _ _ (SAttachment.ownerId a) _ _)
      as [[n |] res'] eqn:Hchk; cbn [fst]; split.
    + intros H; inversion H; subst a. rewrite Hchk. cbn [fst]. eauto.
    + intros [H _]. exact H.
    + discriminate.
    + intros [H [x Hx]]. inversion H; subst a.
      rewrite Hchk in Hx. discriminate.
  - cbn [fst]. split; [discriminate | intros [H _]; discriminate].
Qed.

Lemma checkAttachmentAccess_granted_note
    (decodeBase64 : jsstring -> jsstring) (cache : ShareCache.t)
    (attachmentId : jsstring) (req : Request.t) (res : Response.t)
    (attachment : SAttachment.t) :
  fst (RouteHandlers.checkAttachmentAccess decodeBase64 cache attachmentId
         req res) = Some attachment ->
  is_Some (ShareCache.note cache attachment).
Proof.
  intros H. apply checkAttachmentAccess_granted_iff in H as [_ [n Hn]].
  apply checkNoteAccess_granted_cached in Hn.
  unfold ShareCache.note. eauto.
Qed.

(** X5: [checkAttachmentAccess] grants an attachment exactly when the
    cache holds it and [checkNoteAccess] grants its owner on the same
    request; it hands back the cached attachment, whose owner is then
    cached too.  An attachment the cache does not hold gets the 404 answer
    that names it. *)
Theorem checkAttachmentAccess_owner
    (decodeBase64 : jsstring -> jsstring) (cache : ShareCache.t)
    (attachmentId : jsstring) (req : Request.t) (res : Response.t) :
  (forall attachment,
     fst (RouteHandlers.checkAttachmentAccess decodeBase64 cache attachmentId
            req res) = Some attachment
     <-> ShareCache.attachments cache !! attachmentId = Some attachment
         /\ is_Some
              (fst (Routes.checkNoteAccess decodeBase64
                      (ShareCache.shaca cache)
                      (SAttachment.ownerId attachment) req res)))
  /\ (forall attachment,
        fst (RouteHandlers.checkAttachmentAccess decodeBase64 cache
               attachmentId req res) = Some attachment ->
        is_Some (ShareCache.note cache attachment))
  /\ (ShareCache.attachments cache !! attachmentId = None ->
      RouteHandlers.checkAttachmentAccess decodeBase64 cache attachmentId
        req res
      = (None,
         jsonError 404
           (js "Attachment '" ++ attachmentId ++ js "' not found.") res)).
Proof.
  split; [intros attachment; apply checkAttachmentAccess_granted_iff |].
  split; [intros attachment; apply checkAttachmentAccess_granted_note |].
  intros Hnone.
  unfold RouteHandlers.checkAttachmentAccess, ShareCache.getAttachment.
  now rewrite Hnone.
Qed.

(** X6: the share search handler runs the search service at most once, and
    only for a request whose ancestor passed the access check and whose
    search string is not blank.  The context it passes is built from the
    ancestor alone: every flag is off, and the hoisted note stands in only
    for an empty ancestor id. *)
Theorem search_runs_only_when_granted
    (decodeBase64 : jsstring -> jsstring) (hoistedNoteId : jsstring)
    (findResultsWithQuery : jsstring -> SearchContext.t -> list SearchResult.t)
    (shaca : Shaca.t) (req : Request.t) (res : Response.t) :
  let run :=
    Routes.searchNotes decodeBase64 hoistedNoteId findResultsWithQuery
      shaca req res in
  searches run = []
  \/ exists ancestorNoteId note search,
       default (QString (js "_share")) (Request.ancestorNoteId req)
       = QString ancestorNoteId
       /\ fst (Routes.checkNoteAccess decodeBase64 shaca ancestorNoteId
                 req res) = Some note
       /\ Request.search req = Some (QString search)
       /\ onlyWhiteSpace search = false
       /\ searches run
          = [(search, shareSearchContext hoistedNoteId ancestorNoteId)]
       /\ SearchContext.ancestorNoteId
            (shareSearchContext hoistedNoteId ancestorNoteId)
          = Some (if str_falsy ancestorNoteId then hoistedNoteId
                  else ancestorNoteId)
       /\ SearchContext.includeArchivedNotes
            (shareSearchContext hoistedNoteId ancestorNoteId) = false
       /\ SearchContext.includeHiddenNotes
            (shareSearchContext hoistedNoteId ancestorNoteId) = false
       /\ SearchContext.fastSearch
            (shareSearchContext hoistedNoteId ancestorNoteId) = false.
Proof.
  simpl. unfold Routes.searchNotes, returned.
  destruct (default _ _) as [anc | xs |] eqn:Ha; try (now left).
  destruct (Routes.checkNoteAccess _ _ _ _ _) as [[n |] res'] eqn:Hchk;
    try (now left).
  destruct (Request.search req) as [[q | xs |] |] eqn:Hs; try (now left).
  rewrite blank_search.
  destruct (onlyWhiteSpace q) eqn:Hq; try (now left).
  right. exists anc, n, q.
  fold (shareSearchContext hoistedNoteId anc).
  split; [reflexivity |]. split; [now rewrite Hchk |].
  split; [reflexivity |]. split; [exact Hq |].
  split; [now destruct (mapM _ _) |].
  repeat split. now destruct anc.
Qed.

Lemma checkNoteAccess_status
    (decodeBase64 : jsstring -> jsstring) (shaca : Shaca.t)
    (noteId : jsstring) (req : Request.t) (res : Response.t) :
  let res' := snd (Routes.checkNoteAccess decodeBase64 shaca noteId req res) in
  Response.headers res' = Response.headers res
  /\ (Response.statusCode res' = Response.statusCode res
      \/ Response.statusCode res' = 403
      \/ Response.statusCode res' = 404)
  /\ (Response.sent res <> Some StatusText ->
      Response.sent res' <> Some StatusText).
Proof.
  simpl. unfold Routes.checkNoteAccess.
  destruct (Shaca.getNote shaca noteId) as [n |];
    [| simpl; repeat split; auto; discriminate].
  destruct (bool_decide (noteId = js "_share")
            && negb (Shaca.shareIndexEnabled shaca));
    [simpl; repeat split; auto; discriminate |].
  destruct (length (SNote.getCredentials n) =? 0)%nat;
    [simpl; repeat split; auto |].
  destruct (Request.authorization req) as [header |];
    [| simpl; repeat split; auto].
  destruct (startsWith header (js "Basic "));
    [| simpl; repeat split; auto].
  destruct (Routes.anyCredential _ _); simpl; repeat split; auto.
Qed.

(** X7: the share search handler never asks for credentials: whatever the
    request and the cache, it leaves the headers of the response as they
    were, the status is the one it found or one of 400, 403 and 404 (so
    never 401), and it sends no bare status text. *)
Theorem search_never_requests_credentials
    (decodeBase64 : jsstring -> jsstring) (hoistedNoteId : jsstring)
    (findResultsWithQuery : jsstring -> SearchContext.t -> list SearchResult.t)
    (shaca : Shaca.t) (req : Request.t) (res : Response.t) :
  let res' :=
    response (Routes.searchNotes decodeBase64 hoistedNoteId
                findResultsWithQuery shaca req res) in
  Response.headers res' = Response.headers res
  /\ (Response.statusCode res' = Response.statusCode res
      \/ Response.statusCode res' = 400
      \/ Response.statusCode res' = 403
      \/ Response.statusCode res' = 404)
  /\ (Response.sent res <> Some StatusText ->
      Response.sent res' <> Some StatusText).
Proof.
  simpl. unfold Routes.searchNotes, returned.
  destruct (default _ _) as [anc | xs |];
    try (simpl; repeat split; auto; discriminate).
  pose proof (checkNoteAccess_status decodeBase64 shaca anc req res)
    as (Hh & Hst & Hsent).
  destruct (Routes.checkNoteAccess _ _ _ _ _) as [[n |] res'] eqn:Hchk;
    cbn [snd] in Hh, Hst, Hsent.
  - apply checkNoteAccess_granted in Hchk as [-> _].
    destruct (Request.search req) as [[q | xs |] |];
      try (simpl; repeat split; auto; discriminate).
    destruct (str_falsy (trim q));
      try (simpl; repeat split; auto; discriminate).
    destruct (mapM _ _); simpl; repeat split; auto; discriminate.
  - simpl. repeat split; [exact Hh | tauto | exact Hsent].
Qed.

(** ** The pages and the API handlers of the per-route variant *)

Section RouteHandlerFacts.
Variable decodeBase64 : jsstring -> jsstring.
Variable isLabelTruthy : SNote.t -> jsstring -> bool.
Variable noteType : SNote.t -> jsstring.
Variable noteMime : SNote.t -> jsstring.
Variable noteContent : SNote.t -> Content.
Variable getAttachmentByTitle : SNote.t -> jsstring -> option SAttachment.t.
Variable getJsonContentSafely : SNote.t -> JsonValue.
Variable renderNoteContent : SNote.t -> jsstring.
Variable formatDownloadTitle : jsstring -> option jsstring -> jsstring -> jsstring.
Variable getContentDisposition : jsstring -> jsstring.

Local Abbreviation renderNote :=
  (RouteHandlers.renderNote decodeBase64 isLabelTruthy noteMime noteContent
     renderNoteContent).
Local Abbreviation getApiNote :=
  (RouteHandlers.getApiNote decodeBase64 isLabelTruthy).
Local Abbreviation getApiNoteDownload :=
  (RouteHandlers.getApiNoteDownload decodeBase64 isLabelTruthy noteType
     noteMime noteContent formatDownloadTitle getContentDisposition).
Local Abbreviation getApiNoteView :=
  (RouteHandlers.getApiNoteView decodeBase64 isLabelTruthy noteMime
     noteContent).
Local Abbreviation getApiImage :=
  (RouteHandlers.getApiImage decodeBase64 isLabelTruthy noteType noteMime
     noteContent getAttachmentByTitle getJsonContentSafely).
Local Abbreviation getApiAttachmentImage :=
  (RouteHandlers.getApiAttachmentImage decodeBase64 isLabelTruthy).
Local Abbreviation getApiAttachmentDownload :=
  (RouteHandlers.getApiAttachmentDownload decodeBase64 isLabelTruthy
     formatDownloadTitle getContentDisposition).

Lemma credentialsRefused_check (shaca : Shaca.t) (noteId : jsstring)
    (req : Request.t) (res : Response.t) (note : SNote.t) :
  Shaca.notes shaca !! noteId = Some note ->
  (noteId = js "_share" -> Shaca.shareIndexEnabled shaca = true) ->
  credentialsRefused decodeBase64 note req ->
  Routes.checkNoteAccess decodeBase64 shaca noteId req res = (None, res).
Proof.
  intros Hn Hidx [Hcred Hreq]. now apply checkNoteAccess_denied with (note := note).
Qed.

(** X8: the page handler [renderNote] asks for credentials: for a cached
    note whose credential labels the request does not satisfy it answers
    with status 401, the [WWW-Authenticate] header and nothing of the
    note. *)
Theorem renderNote_requests_credentials
    (cache : ShareCache.t) (note cached : SNote.t) (req : PageRequest.t)
    (res : Response.t) :
  Shaca.notes (ShareCache.shaca cache) !! SNote.noteId note = Some cached ->
  (SNote.noteId note = js "_share" ->
   Shaca.shareIndexEnabled (ShareCache.shaca cache) = true) ->
  credentialsRefused decodeBase64 cached (PageRequest.request req) ->
  Response.sent res = None ->
  renderNote cache (Some note) req res
  = Finished (Reply.ofResponse (requestCredentials res))
  /\ Reply.statusCode (Reply.ofResponse (requestCredentials res)) = 401
  /\ Reply.sent (Reply.ofResponse (requestCredentials res))
     = Some (SentBody StatusText)
  /\ exists challenge,
       Reply.headers (Reply.ofResponse (requestCredentials res))
       = Response.headers res ++ [(js "WWW-Authenticate", challenge)].
Proof.
  intros Hn Hidx Href Hsent. unfold RouteHandlers.renderNote.
  rewrite (credentialsRefused_check _ _ _ res cached Hn Hidx Href), Hsent.
  repeat split. eexists. reflexivity.
Qed.

(** X9: the API handlers of a note (record, download, view, image) do not
    ask for credentials: for a cached note whose credential labels the
    request does not satisfy they return with the response object as they
    found it, nothing sent. *)
Theorem api_handlers_leave_unanswered
    (cache : ShareCache.t) (noteId : jsstring) (cached : SNote.t)
    (req : PageRequest.t) (res : Response.t) :
  Shaca.notes (ShareCache.shaca cache) !! noteId = Some cached ->
  (noteId = js "_share" ->
   Shaca.shareIndexEnabled (ShareCache.shaca cache) = true) ->
  credentialsRefused decodeBase64 cached (PageRequest.request req) ->
  getApiNote cache noteId req res = Finished (Reply.ofResponse res)
  /\ getApiNoteDownload cache noteId req res = Finished (Reply.ofResponse res)
  /\ getApiNoteView cache noteId req res = Finished (Reply.ofResponse res)
  /\ getApiImage cache noteId req res = Finished (Reply.ofResponse res).
Proof.
  intros Hn Hidx Href.
  unfold RouteHandlers.getApiNote, RouteHandlers.getApiNoteDownload,
    RouteHandlers.getApiNoteView, RouteHandlers.getApiImage.
  rewrite (credentialsRefused_check _ _ _ res cached Hn Hidx Href).
  repeat split.
Qed.



End RouteHandlerFacts.

Lemma renderNote_requests_credentials_witness :
  RouteHandlers.renderNote decodeBase64Ascii DemoPages.isLabelTruthy
    DemoPages.noteMime DemoPages.noteContent DemoPages.renderNoteContent
    DemoPages.cache (Some Demo.vault)
    (DemoPages.request None (js "/share/vault")) Response.fresh
  = Finished (Reply.ofResponse (requestCredentials Response.fresh)).
Proof.
  apply (renderNote_requests_credentials decodeBase64Ascii
           DemoPages.isLabelTruthy DemoPages.noteMime DemoPages.noteContent
           DemoPages.renderNoteContent DemoPages.cache Demo.vault Demo.vault
           (DemoPages.request None (js "/share/vault")) Response.fresh).
  - vm_compute. reflexivity.
  - intros H. vm_compute in H. discriminate.
  - split; [discriminate | exact I].
  - reflexivity.
Defined.

Lemma api_handlers_leave_unanswered_witness :
  RouteHandlers.getApiNote decodeBase64Ascii DemoPages.isLabelTruthy
    DemoPages.cache (js "vault")
    (DemoPages.request None (js "/share/api/notes/vault")) Response.fresh
  = Finished (Reply.ofResponse Response.fresh).
Proof.
  apply (api_handlers_leave_unanswered decodeBase64Ascii
           DemoPages.isLabelTruthy DemoPages.noteType DemoPages.noteMime
           DemoPages.noteContent DemoPages.getAttachmentByTitle
           DemoPages.getJsonContentSafely DemoPages.formatDownloadTitle
           DemoPages.getContentDisposition DemoPages.cache (js "vault")
           Demo.vault (DemoPages.request None (js "/share/api/notes/vault"))
           Response.fresh).
  - vm_compute. reflexivity.
  - intros H. vm_compute in H. discriminate.
  - split; [discriminate | exact I].
Defined.


Lemma checkAttachmentAccess_owner_witness :
  fst (RouteHandlers.checkAttachmentAccess decodeBase64Ascii DemoPages.cache
         (js "att1")
         (Request.mk (Some (js "Basic dTpw")) None None) Response.fresh)
  = Some DemoPages.drawing.
Proof.
  apply (proj1 (checkAttachmentAccess_owner decodeBase64Ascii DemoPages.cache
           (js "att1") (Request.mk (Some (js "Basic dTpw")) None None)
           Response.fresh) DemoPages.drawing).
  split; vm_compute; eauto.
Defined.

Lemma search_never_requests_credentials_witness :
  Response.sent
    (response
       (Routes.searchNotes decodeBase64Ascii (js "root") Demo.findTwo
          (Demo.cache true)
          (Demo.request None (Some (js "vault")) (Some (js "gui")))
          Response.fresh))
  <> Some StatusText.
Proof.
  apply (proj2 (proj2 (search_never_requests_credentials decodeBase64Ascii
           (js "root") Demo.findTwo (Demo.cache true)
           (Demo.request None (Some (js "vault")) (Some (js "gui")))
           Response.fresh))).
  discriminate.
Defined.

(** ** Images *)

(** X12: [renderImageAttachment] in the two variants.  When the note has
    the attachment, both variants do the same.  When it has not, the
    per-route variant returns without touching the response, while the
    middleware variant sets status 404 and renders the 404 page. *)
Theorem renderImageAttachment_variants
    (getAttachmentByTitle : SNote.t -> jsstring -> option SAttachment.t)
    (getJsonContentSafely : SNote.t -> JsonValue)
    (image : SNote.t) (res : Reply.t) (attachmentName : jsstring) :
  (is_Some (getAttachmentByTitle image attachmentName) ->
   RouteHandlers.renderImageAttachment getAttachmentByTitle
     getJsonContentSafely image res attachmentName
   = MiddlewareHandlers.renderImageAttachment getAttachmentByTitle
       getJsonContentSafely image res attachmentName)
  /\ (getAttachmentByTitle image attachmentName = None ->
      RouteHandlers.renderImageAttachment getAttachmentByTitle
        getJsonContentSafely image res attachmentName = res
      /\ MiddlewareHandlers.renderImageAttachment getAttachmentByTitle
           getJsonContentSafely image res attachmentName
         = Reply.mk 404 (Reply.headers res)
             (Some (SentView (js "../../share-theme/templates/404.ejs")
                      None))).
Proof.
  unfold RouteHandlers.renderImageAttachment,
    MiddlewareHandlers.renderImageAttachment.
  split.
  - intros [a ->]. reflexivity.
  - intros ->. split; reflexivity.
Qed.

Lemma renderImageAttachment_variants_witness :
  RouteHandlers.renderImageAttachment DemoPages.getAttachmentByTitle
    DemoPages.getJsonContentSafely Demo.docs
    (Reply.ofResponse Response.fresh) (js "canvas-export.svg")
  = Reply.ofResponse Response.fresh
  /\ MiddlewareHandlers.renderImageAttachment DemoPages.getAttachmentByTitle
       DemoPages.getJsonContentSafely Demo.docs
       (Reply.ofResponse Response.fresh) (js "canvas-export.svg")
     = Reply.mk 404 []
         (Some (SentView (js "../../share-theme/templates/404.ejs") None)).
Proof.
  apply (proj2 (renderImageAttachment_variants DemoPages.getAttachmentByTitle
           DemoPages.getJsonContentSafely Demo.docs
           (Reply.ofResponse Response.fresh) (js "canvas-export.svg"))).
  vm_compute. reflexivity.
Defined.

(** X13: the SVG that [renderImageAttachment] sends for an attachment the
    note has.  The response gets the headers [Content-Type:
    image/svg+xml] and [Cache-Control: no-cache, no-store,
    must-revalidate] and a text body.  A string content is sent as it
    is.  For a binary content the body is the [svg] member of the note's
    JSON content when that content is an object whose member [svg] is a
    non-empty string, and [<svg/>] in every other case; so it is never
    empty. *)
Theorem renderImageAttachment_svg
    (getAttachmentByTitle : SNote.t -> jsstring -> option SAttachment.t)
    (getJsonContentSafely : SNote.t -> JsonValue)
    (image : SNote.t) (res : Reply.t) (attachmentName : jsstring)
    (attachment : SAttachment.t) :
  getAttachmentByTitle image attachmentName = Some attachment ->
  exists svg,
    RouteHandlers.renderImageAttachment getAttachmentByTitle
      getJsonContentSafely image res attachmentName
    = Reply.mk (Reply.statusCode res)
        (Reply.headers res
           ++ [(js "Content-Type", js "image/svg+xml");
               (js "Cache-Control", js "no-cache, no-store, must-revalidate")])
        (Some (SentContent (Text svg)))
    /\ (forall content,
          SAttachment.getContent attachment = Text content -> svg = content)
    /\ (forall bytes,
          SAttachment.getContent attachment = Binary bytes ->
          svg <> []
          /\ (svg = js "<svg/>"
              \/ exists fields,
                   getJsonContentSafely image = JObject fields
                   /\ jsonField (js "svg") fields = Some (MString svg))
          /\ (forall fields member,
                getJsonContentSafely image = JObject fields ->
                jsonField (js "svg") fields = Some (MString member) ->
                member <> [] ->
                svg = member)
          /\ ((forall fields member,
                 getJsonContentSafely image = JObject fields ->
                 jsonField (js "svg") fields = Some (MString member) ->
                 member = []) ->
              svg = js "<svg/>")).
Proof.
  intros Ha. unfold RouteHandlers.renderImageAttachment. rewrite Ha.
  eexists. split.
  - unfold Reply.send, Reply.setHeader. simpl.
    rewrite <- app_assoc. reflexivity.
  - split.
    + intros content ->. reflexivity.
    + intros bytes ->. unfold RouteHandlers.contentSvg.
      destruct (getJsonContentSafely image) as [| | | | | fields];
        try (split; [discriminate |];
             split; [now left |];
             split; [intros ? ? [=] | reflexivity]).
      destruct (jsonField (js "svg") fields) as [[svg |] |] eqn:Hf;
        try (split; [discriminate |];
             split; [now left |];
             split; [intros ? ? [= <-]; congruence | reflexivity]).
      destruct svg as [| c svg]; cbn [str_falsy].
      * split; [discriminate |]. split; [now left |].
        split; [| reflexivity].
        intros fields' member [= <-] Hm. congruence.
      * split; [discriminate |].
        split; [right; exists fields; split; [reflexivity | exact Hf] |].
        split.
        -- intros fields' member [= <-] Hm _. congruence.
        -- intros Hempty. now specialize (Hempty fields (c :: svg) eq_refl Hf).
Qed.

Lemma renderImageAttachment_svg_witness :
  exists svg,
    RouteHandlers.renderImageAttachment DemoPages.getAttachmentByTitle
      DemoPages.getJsonContentSafely Demo.guide
      (Reply.ofResponse Response.fresh) (js "canvas-export.svg")
    = Reply.mk 200
        ([] ++ [(js "Content-Type", js "image/svg+xml");
                (js "Cache-Control", js "no-cache, no-store, must-revalidate")])
        (Some (SentContent (Text svg)))
    /\ svg = js "<svg>old</svg>".
Proof.
  destruct (renderImageAttachment_svg DemoPages.getAttachmentByTitle
              DemoPages.getJsonContentSafely Demo.guide
              (Reply.ofResponse Response.fresh) (js "canvas-export.svg")
              DemoPages.export)
    as (svg & Hreply & _ & Hbinary).
  - vm_compute. reflexivity.
  - exists svg. split; [exact Hreply |].
    destruct (Hbinary [] eq_refl) as (_ & _ & Hmember & _).
    apply (Hmember [(js "svg", MString (js "<svg>old</svg>"))]).
    + reflexivity.
    + vm_compute. reflexivity.
    + discriminate.
Defined.

Section ImageHandlerFacts.
Variable decodeBase64 : jsstring -> jsstring.
Variable isLabelTruthy : SNote.t -> jsstring -> bool.
Variable noteType : SNote.t -> jsstring.
Variable noteMime : SNote.t -> jsstring.
Variable noteContent : SNote.t -> Content.
Variable getAttachmentByTitle : SNote.t -> jsstring -> option SAttachment.t.
Variable getJsonContentSafely : SNote.t -> JsonValue.

Lemma addNoIndexHeader_status (note : SNote.t) (r : Reply.t) :
  Reply.statusCode (RouteHandlers.addNoIndexHeader isLabelTruthy note r)
  = Reply.statusCode r
  /\ Reply.sent (RouteHandlers.addNoIndexHeader isLabelTruthy note r)
     = Reply.sent r.
Proof.
  unfold RouteHandlers.addNoIndexHeader.
  now destruct (isLabelTruthy note _).
Qed.

Lemma renderImageAttachment_status (image : SNote.t) (r : Reply.t)
    (name : jsstring) :
  Reply.statusCode
    (RouteHandlers.renderImageAttachment getAttachmentByTitle
       getJsonContentSafely image r name)
  = Reply.statusCode r.
Proof.
  unfold RouteHandlers.renderImageAttachment.
  now destruct (getAttachmentByTitle image name).
Qed.

(** X14: once access is granted, the image handler answers 400, with the
    message that the note is not a shareable image, exactly when the
    note's type is none of [image], [canvas], [mermaid] and [mindMap];
    the attachment image handler answers 400 exactly when the
    attachment's role is not [image]. *)
Theorem image_handlers_bad_request
    (cache : ShareCache.t) (req : PageRequest.t) (res : Response.t) :
  Response.statusCode res <> 400 ->
  (forall noteId image,
     fst (Routes.checkNoteAccess decodeBase64 (ShareCache.shaca cache) noteId
            (PageRequest.request req) res) = Some image ->
     let reply :=
       replyOf (RouteHandlers.getApiImage decodeBase64 isLabelTruthy noteType
                  noteMime noteContent getAttachmentByTitle
                  getJsonContentSafely cache noteId req res) in
     (Reply.statusCode reply = 400
      <-> shareableImageType (noteType image) = false)
     /\ (shareableImageType (noteType image) = false ->
         Reply.sent reply
         = Some (SentBody
                   (JsonMessage
                      (js "Requested note is not a shareable image")))))
  /\ (forall attachmentId attachment,
        fst (RouteHandlers.checkAttachmentAccess decodeBase64 cache
               attachmentId (PageRequest.request req) res)
        = Some attachment ->
        let reply :=
          replyOf (RouteHandlers.getApiAttachmentImage decodeBase64
                     isLabelTruthy cache attachmentId req res) in
        (Reply.statusCode reply = 400
         <-> SAttachment.role attachment <> js "image")
        /\ (SAttachment.role attachment <> js "image" ->
            Reply.sent reply
            = Some (SentBody
                      (JsonMessage
                         (js "Requested attachment is not a shareable image"))))).
Proof.
  intros Hst. split.
  - intros noteId image Hchk. simpl.
    unfold RouteHandlers.getApiImage, shareableImageType.
    destruct (Routes.checkNoteAccess _ _ _ _ _) as [o res'] eqn:Hc.
    cbn [fst] in Hchk. subst o.
    apply checkNoteAccess_granted in Hc as [-> _].
    destruct (bool_decide (noteType image = js "image")); cbn [orb replyOf].
    { split; [| discriminate]. split; [| discriminate].
      simpl. rewrite (proj1 (addNoIndexHeader_status _ _)). simpl. tauto. }
    destruct (bool_decide (noteType image = js "canvas")); cbn [orb replyOf].
    { split; [| discriminate]. split; [| discriminate].
      rewrite renderImageAttachment_status. simpl. tauto. }
    destruct (bool_decide (noteType image = js "mermaid")); cbn [orb replyOf].
    { split; [| discriminate]. split; [| discriminate].
      rewrite renderImageAttachment_status. simpl. tauto. }
    destruct (bool_decide (noteType image = js "mindMap")); cbn [orb replyOf].
    { split; [| discriminate]. split; [| discriminate].
      rewrite renderImageAttachment_status. simpl. tauto. }
    split; [split |]; reflexivity.
  - intros attachmentId attachment Hchk. simpl.
    pose proof (fun attachment =>
                  checkAttachmentAccess_granted_iff decodeBase64 cache
                    attachmentId (PageRequest.request req) res attachment)
      as Hiff.
    pose proof (fun attachment =>
                  checkAttachmentAccess_granted_note decodeBase64 cache
                    attachmentId (PageRequest.request req) res attachment)
      as Hnote.
    destruct (Hnote attachment Hchk) as [n Hn].
    apply Hiff in Hchk as Hgr. destruct Hgr as [Hatt [m Hm]].
    unfold RouteHandlers.getApiAttachmentImage,
      RouteHandlers.checkAttachmentAccess, ShareCache.getAttachment.
    rewrite Hatt.
    destruct (Routes.checkNoteAccess _ _ _ _ _) as [o res'] eqn:Hc.
    cbn [fst] in Hm. subst o.
    apply checkNoteAccess_granted in Hc as [-> _].
    rewrite Hn.
    case_bool_decide as Hrole; cbn [replyOf].
    + split; [| congruence]. split; [| congruence].
      simpl. rewrite (proj1 (addNoIndexHeader_status _ _)). simpl. tauto.
    + split; [split; [intros _; exact Hrole | reflexivity] | reflexivity].
Qed.

End ImageHandlerFacts.

Lemma image_handlers_bad_request_witness :
  Reply.statusCode
    (replyOf
       (RouteHandlers.getApiImage decodeBase64Ascii DemoPages.isLabelTruthy
          DemoPages.noteType DemoPages.noteMime DemoPages.noteContent
          DemoPages.getAttachmentByTitle DemoPages.getJsonContentSafely
          DemoPages.cache (js "guide")
          (DemoPages.request None (js "/share/api/images/guide/x.png"))
          Response.fresh)) = 400.
Proof.
  apply (proj1 (image_handlers_bad_request decodeBase64Ascii
           DemoPages.isLabelTruthy DemoPages.noteType DemoPages.noteMime
           DemoPages.noteContent DemoPages.getAttachmentByTitle
           DemoPages.getJsonContentSafely DemoPages.cache
           (DemoPages.request None (js "/share/api/images/guide/x.png"))
           Response.fresh ltac:(discriminate)) (js "guide") Demo.guide).
  - vm_compute. reflexivity.
  - vm_compute. reflexivity.
Defined.

(** ** Pages *)

Section PageFacts.
Variable decodeBase64 : jsstring -> jsstring.
Variable isLabelTruthy : SNote.t -> jsstring -> bool.
Variable noteMime : SNote.t -> jsstring.
Variable noteContent : SNote.t -> Content.
Variable renderNoteContent : SNote.t -> jsstring.

Local Abbreviation renderNote :=
  (RouteHandlers.renderNote decodeBase64 isLabelTruthy noteMime noteContent
     renderNoteContent).
Local Abbreviation getShareId :=
  (RouteHandlers.getShareId decodeBase64 isLabelTruthy noteMime noteContent
     renderNoteContent).
Local Abbreviation getShare :=
  (RouteHandlers.getShare decodeBase64 isLabelTruthy noteMime noteContent
     renderNoteContent).

Lemma renderNote_view (cache : ShareCache.t) (note : SNote.t)
    (req : PageRequest.t) (res : Response.t) (template : jsstring)
    (relativePath : option jsstring) :
  Response.sent res = None ->
  Reply.sent (replyOf (renderNote cache (Some note) req res))
  <> Some (SentView template relativePath).
Proof.
  intros Hsent. unfold RouteHandlers.renderNote.
  destruct (Routes.checkNoteAccess _ _ _ _ _) as [[n |] res'] eqn:Hchk.
  - destruct (_ || _); discriminate.
  - apply checkNoteAccess_refused in Hchk as [-> | (code & m & ->)].
    + rewrite Hsent. discriminate.
    + discriminate.
Qed.

Lemma renderNonNote_view (cache : ShareCache.t) (req : PageRequest.t)
    (res : Response.t) (template : jsstring)
    (relativePath : option jsstring) :
  Reply.sent
    (replyOf (RouteHandlers.renderNonNote decodeBase64 cache req res))
  <> Some (SentView template relativePath).
Proof.
  unfold RouteHandlers.renderNonNote.
  destruct (Routes.checkNoteAccess _ _ _ _ _) as [[n |] res'].
  - cbn [replyOf Reply.ofResponse Reply.sent].
    now destruct (Response.sent res').
  - destruct (Response.sent res') eqn:Hs; cbn [replyOf]; [| discriminate].
    cbn [Reply.ofResponse Reply.sent]. now rewrite Hs.
Qed.

(** X15: [GET /share/:shareId] looks the id up among the aliases first and
    among the note ids second.  Both are plain objects, so an id that is
    an own key of neither still finds something when it names a member
    of [Object.prototype].  The handler answers with the 404 page (status
    404, the 404 template) exactly when the id is no alias, no note id
    and no such name.  For such a name that is no alias, [renderNote]
    runs on a value that is no note: when no note is cached under the
    key [undefined], the answer is the JSON 404 of the access check for
    [Note 'undefined'], and the handler ends in an exception. *)
Theorem getShareId_not_found
    (cache : ShareCache.t) (shareId : jsstring) (req : PageRequest.t)
    (res : Response.t) :
  Response.sent res = None ->
  (forall note,
     ShareCache.aliasToNote cache !! shareId = Some note ->
     getShareId cache shareId req res = renderNote cache (Some note) req res)
  /\ (ShareCache.aliasToNote cache !! shareId = None ->
      shareId ∉ objectPrototypeMembers ->
      getShareId cache shareId req res
      = renderNote cache (Shaca.notes (ShareCache.shaca cache) !! shareId)
          req res)
  /\ (Reply.sent (replyOf (getShareId cache shareId req res))
      = Some (SentView (js "../../share-theme/templates/404.ejs") None)
      <-> ShareCache.aliasToNote cache !! shareId = None
          /\ Shaca.notes (ShareCache.shaca cache) !! shareId = None
          /\ shareId ∉ objectPrototypeMembers)
  /\ (ShareCache.aliasToNote cache !! shareId = None ->
      Shaca.notes (ShareCache.shaca cache) !! shareId = None ->
      shareId ∉ objectPrototypeMembers ->
      Reply.statusCode (replyOf (getShareId cache shareId req res)) = 404)
  /\ (ShareCache.aliasToNote cache !! shareId = None ->
      shareId ∈ objectPrototypeMembers ->
      Shaca.notes (ShareCache.shaca cache) !! js "undefined" = None ->
      getShareId cache shareId req res
      = Thrown
          (Reply.ofResponse
             (jsonError 404 (js "Note 'undefined' not found.") res))).
Proof.
  intros Hsent.
  unfold RouteHandlers.getShareId, RouteHandlers.renderLooked, lookupMember.
  split; [intros note ->; reflexivity |].
  split.
  { intros -> Hname. rewrite (bool_decide_eq_false_2 _ Hname). cbn [orElse].
    now destruct (Shaca.notes (ShareCache.shaca cache) !! shareId). }
  split; [| split].
  - destruct (ShareCache.aliasToNote cache !! shareId) as [n |];
      cbn [orElse].
    { split; [| intros [? _]; discriminate].
      intros H. now apply renderNote_view in H. }
    case_bool_decide as Hname; cbn [orElse].
    { split; [| intros (_ & _ & ?); contradiction].
      intros H. now apply renderNonNote_view in H. }
    destruct (Shaca.notes (ShareCache.shaca cache) !! shareId) as [n |].
    + split; [| intros (_ & ? & _); discriminate].
      intros H. now apply renderNote_view in H.
    + split; [auto | reflexivity].
  - intros -> -> Hname. rewrite (bool_decide_eq_false_2 _ Hname).
    reflexivity.
  - intros -> Hname Hundefined. rewrite (bool_decide_eq_true_2 _ Hname).
    cbn [orElse]. unfold RouteHandlers.renderNonNote.
    now rewrite (checkNoteAccess_missing _ _ _ _ _ Hundefined).
Qed.

(** X16: when [checkNoteAccess] has itself answered, with the 404 for a
    note the cache does not hold under its id or with the 403 for the
    share index, [renderNote] still goes on to [requestCredentials]; the
    response being sent already, setting the header throws and the
    answer of the check stands.  So [GET /share/] with the share index
    disabled ends in the 403 answer and an exception. *)
Theorem renderNote_throws_after_answer
    (cache : ShareCache.t) (note : SNote.t) (req : PageRequest.t)
    (res : Response.t) :
  (Shaca.notes (ShareCache.shaca cache) !! SNote.noteId note = None ->
   renderNote cache (Some note) req res
   = Thrown
       (Reply.ofResponse
          (jsonError 404
             (js "Note '" ++ SNote.noteId note ++ js "' not found.") res)))
  /\ (is_Some (Shaca.notes (ShareCache.shaca cache) !! SNote.noteId note) ->
      SNote.noteId note = js "_share" ->
      Shaca.shareIndexEnabled (ShareCache.shaca cache) = false ->
      renderNote cache (Some note) req res
      = Thrown
          (Reply.ofResponse
             (jsonError 403 (js "Accessing share index is forbidden.") res))
      /\ (lastChar (PageRequest.path req) = js "/" ->
          ShareCache.shareRootNote cache = Some note ->
          getShare cache req res
          = Thrown
              (Reply.ofResponse
                 (jsonError 403 (js "Accessing share index is forbidden.")
                    res)))).
Proof.
  split.
  - intros Hnone. unfold RouteHandlers.renderNote.
    now rewrite (checkNoteAccess_missing _ _ _ _ _ Hnone).
  - intros [n Hn] Hid Hidx.
    assert (Hr : renderNote cache (Some note) req res
                 = Thrown
                     (Reply.ofResponse
                        (jsonError 403
                           (js "Accessing share index is forbidden.") res))).
    { unfold RouteHandlers.renderNote. rewrite Hid in *.
      now rewrite (checkNoteAccess_forbidden _ _ _ _ n Hn Hidx). }
    split; [exact Hr |].
    intros Hpath Hroot. unfold RouteHandlers.getShare.
    rewrite Hpath, Hroot. rewrite bool_decide_eq_true_2 by reflexivity.
    exact Hr.
Qed.

End PageFacts.

Lemma getShareId_not_found_witness :
  Reply.statusCode
    (replyOf
       (RouteHandlers.getShareId decodeBase64Ascii DemoPages.isLabelTruthy
          DemoPages.noteMime DemoPages.noteContent
          DemoPages.renderNoteContent DemoPages.cache (js "nowhere")
          (DemoPages.request None (js "/share/nowhere")) Response.fresh))
  = 404.
Proof.
  apply (proj1 (proj2 (proj2 (proj2 (getShareId_not_found decodeBase64Ascii
           DemoPages.isLabelTruthy DemoPages.noteMime DemoPages.noteContent
           DemoPages.renderNoteContent DemoPages.cache (js "nowhere")
           (DemoPages.request None (js "/share/nowhere")) Response.fresh
           eq_refl))))).
  - vm_compute. reflexivity.
  - vm_compute. reflexivity.
  - intros H. vm_compute in H.
    repeat (apply elem_of_cons in H as [H | H]; [discriminate |]).
    now apply elem_of_nil in H.
Defined.

Lemma renderNote_throws_after_answer_witness :
  RouteHandlers.getShare decodeBase64Ascii DemoPages.isLabelTruthy
    DemoPages.noteMime DemoPages.noteContent DemoPages.renderNoteContent
    DemoPages.cache (DemoPages.request None (js "/share/")) Response.fresh
  = Thrown
      (Reply.ofResponse
         (jsonError 403 (js "Accessing share index is forbidden.")
            Response.fresh)).
Proof.
  apply (proj2 (renderNote_throws_after_answer decodeBase64Ascii
           DemoPages.isLabelTruthy DemoPages.noteMime DemoPages.noteContent
           DemoPages.renderNoteContent DemoPages.cache Demo.shareRoot
           (DemoPages.request None (js "/share/")) Response.fresh)).
  - vm_compute. eauto.
  - reflexivity.
  - reflexivity.
  - vm_compute. reflexivity.
  - reflexivity.
Defined.

(** ** The middleware: the root of the shared subtree *)

Section SubTreeFacts.
Variable SHARE_ROOT_NOTE_ID : jsstring.
Variable getParentBranches : SNote.t -> list SBranch.t.
Variable getParentNote : SBranch.t -> option SNote.t.

Local Abbreviation getSharedSubTreeRoot :=
  (MiddlewareHandlers.getSharedSubTreeRoot SHARE_ROOT_NOTE_ID
     getParentBranches getParentNote).
Local Abbreviation firstParent :=
  (firstParent SHARE_ROOT_NOTE_ID getParentBranches getParentNote).
Local Abbreviation climbs :=
  (climbs SHARE_ROOT_NOTE_ID getParentBranches getParentNote).
Local Abbreviation climbEnds :=
  (climbEnds SHARE_ROOT_NOTE_ID getParentBranches getParentNote).

Ltac climb_end :=
  repeat match goal with
         | H : _ /\ _ |- _ => destruct H
         | H : exists _, _ |- _ => destruct H
         | H : _ \/ _ |- _ => destruct H
         | H : False |- _ => destruct H
         end;
  simplify_eq; try reflexivity; try contradiction; try congruence.

Lemma firstParent_unique (note p q : SNote.t) :
  firstParent note p -> firstParent note q -> p = q.
Proof.
  intros (_ & b & r & Hb & _ & Hp) (_ & b' & r' & Hb' & _ & Hq).
  rewrite Hb in Hb'. inversion Hb'; subst. congruence.
Qed.

Lemma firstParent_cases (note : SNote.t) :
  (exists parent, firstParent note parent)
  \/ (forall parent, ~ firstParent note parent).
Proof.
  destruct (decide (SNote.noteId note = SHARE_ROOT_NOTE_ID)) as [Hroot | Hroot].
  { right. intros p (Hne & _). contradiction. }
  destruct (getParentBranches note) as [| b r] eqn:Hb.
  { right. intros p (_ & b & r & Hb' & _). congruence. }
  destruct (decide (SBranch.parentNoteId b = SHARE_ROOT_NOTE_ID)) as [Hp | Hp].
  { right. intros p (_ & b' & r' & Hb' & Hne & _).
    rewrite Hb in Hb'. inversion Hb'; subst. contradiction. }
  destruct (getParentNote b) as [parent |] eqn:Hpn.
  - left. exists parent. split; [exact Hroot |]. eauto.
  - right. intros p (_ & b' & r' & Hb' & _ & Hp').
    rewrite Hb in Hb'. inversion Hb'; subst. congruence.
Qed.

(** One call that does not recurse ends the climb at [note] itself. *)
Lemma climbEnds_here (fuel : nat) (note : SNote.t)
    (result : Eval (option (SNote.t * SBranch.t))) :
  (forall parent, ~ firstParent note parent) ->
  getSharedSubTreeRoot (S fuel) note = result <-> climbEnds note result.
Proof.
  intros Hstop. simpl.
  case_bool_decide as Hroot.
  { split; [intros <-; exact Hroot |].
    destruct result as [[[t b] |] | |]; simpl; intros Hend; climb_end. }
  destruct (getParentBranches note) as [| pb rest] eqn:Hpb.
  { split; [intros <-; simpl; auto |].
    destruct result as [[[t b] |] | |]; simpl; intros Hend; climb_end. }
  case_bool_decide as Hparent.
  { split; [intros <-; simpl; eauto |].
    destruct result as [[[t b] |] | |]; simpl; intros Hend; climb_end. }
  destruct (getParentNote pb) as [parent |] eqn:Hpn.
  { exfalso. apply (Hstop parent). split; [exact Hroot |]. eauto. }
  split; [intros <-; simpl; split; [exact Hroot |]; right; eauto |].
  destruct result as [[[t b] |] | |]; simpl; intros Hend; climb_end.
Qed.

Lemma getSharedSubTreeRoot_step (fuel : nat) (note parent : SNote.t) :
  firstParent note parent ->
  getSharedSubTreeRoot (S fuel) note = getSharedSubTreeRoot fuel parent.
Proof.
  intros (Hroot & b & r & Hb & Hne & Hp). simpl.
  rewrite (bool_decide_eq_false_2 _ Hroot), Hb.
  now rewrite (bool_decide_eq_false_2 _ Hne), Hp.
Qed.

Lemma climbEnds_no_parent (note parent : SNote.t)
    (result : Eval (option (SNote.t * SBranch.t))) :
  firstParent note parent -> ~ climbEnds note result.
Proof.
  intros (Hroot & b & r & Hb & Hne & Hp).
  destruct result as [[[t c] |] | |]; simpl; intros Hend; climb_end.
Qed.

Lemma getSharedSubTreeRoot_climb_iff
    (fuel : nat) (note : SNote.t)
    (result : Eval (option (SNote.t * SBranch.t))) :
  result <> OutOfFuel ->
  getSharedSubTreeRoot fuel note = result
  <-> exists n top, (n < fuel)%nat /\ climbs n note top /\ climbEnds top result.
Proof.
  intros Hres. revert note.
  induction fuel as [| fuel IH]; intros note.
  - split; [intros H; simpl in H; congruence | intros (n & _ & Hn & _); lia].
  - destruct (firstParent_cases note) as [[parent Hparent] | Hstop].
    + rewrite (getSharedSubTreeRoot_step _ _ _ Hparent), IH. split.
      * intros (n & top & Hn & Hclimb & Hend).
        exists (S n), top. split; [lia |]. split; [| exact Hend].
        exists parent. auto.
      * intros (n & top & Hn & Hclimb & Hend). destruct n as [| n].
        -- simpl in Hclimb. subst top.
           now apply (climbEnds_no_parent _ _ _ Hparent) in Hend.
        -- destruct Hclimb as (p & Hp & Hclimb).
           rewrite (firstParent_unique _ _ _ Hp Hparent) in Hclimb.
           exists n, top. split; [lia | auto].
    + rewrite (climbEnds_here _ _ _ Hstop). split.
      * intros Hend. exists 0%nat, note. split; [lia |]. split; [reflexivity | exact Hend].
      * intros (n & top & Hn & Hclimb & Hend). destruct n as [| n].
        -- simpl in Hclimb. now subst top.
        -- destruct Hclimb as (p & Hp & _). now destruct (Hstop p).
Qed.

(** X17: [getSharedSubTreeRoot] climbs from the note along first parent
    branches.  With fuel [fuel] it returns a result (a value or an
    exception) exactly when the climb ends within fewer than [fuel] steps
    at a note that gives this result: the share root gives [{}], a note
    whose first parent branch leads to the share root gives itself with
    that branch, and a note without parent branch (or with a first parent
    branch that has no parent note) makes the call throw. *)
Theorem getSharedSubTreeRoot_climb
    (fuel : nat) (note : SNote.t)
    (result : Eval (option (SNote.t * SBranch.t))) :
  result <> OutOfFuel ->
  getSharedSubTreeRoot fuel note = result
  <-> exists n top, (n < fuel)%nat /\ climbs n note top /\ climbEnds top result.
Proof. apply getSharedSubTreeRoot_climb_iff. Qed.

End SubTreeFacts.

Lemma getSharedSubTreeRoot_climb_witness :
  MiddlewareHandlers.getSharedSubTreeRoot (js "_share")
    DemoTree.getParentBranches DemoTree.getParentNote 3 Demo.guide
  = Value (Some (Demo.docs, DemoTree.docsBranch)).
Proof.
  apply (proj2 (getSharedSubTreeRoot_climb (js "_share")
           DemoTree.getParentBranches DemoTree.getParentNote 3 Demo.guide
           (Value (Some (Demo.docs, DemoTree.docsBranch)))
           ltac:(discriminate))).
  exists 1%nat, Demo.docs. split; [lia |]. split.
  - exists Demo.docs. split; [| reflexivity].
    split; [vm_compute; discriminate |].
    exists DemoTree.guideBranch, []. split; [vm_compute; reflexivity |].
    split; [vm_compute; discriminate | vm_compute; reflexivity].
  - split; [reflexivity |]. split; [vm_compute; discriminate |].
    split; [exists []; vm_compute; reflexivity | reflexivity].
Defined.

(** ** The middleware: paths *)

Lemma splitSlash_cons (s : jsstring) :
  exists segment segments, splitSlash s = segment :: segments.
Proof.
  induction s as [| c s IH]; simpl; [eauto |].
  case_bool_decide; [eauto |].
  destruct IH as (seg & segs & ->). eauto.
Qed.

Lemma splitSlash_app (p q : jsstring) :
  splitSlash (p ++ 0x2F%N :: q) = splitSlash p ++ splitSlash q.
Proof.
  induction p as [| c p IH]; simpl.
  - reflexivity.
  - rewrite IH. case_bool_decide; [reflexivity |].
    destruct (splitSlash_cons p) as (seg & segs & ->). reflexivity.
Qed.

Lemma splitSlash_slashFree (s : jsstring) :
  0x2F%N ∉ s -> splitSlash s = [s].
Proof.
  induction s as [| c s IH]; intros Hs; [reflexivity |].
  simpl. rewrite bool_decide_eq_false_2
    by (intros ->; apply Hs; constructor).
  rewrite IH by (intros H; apply Hs; now constructor). reflexivity.
Qed.

Lemma repeatString_add (s : jsstring) (n m : nat) :
  repeatString s (n + m) = repeatString s n ++ repeatString s m.
Proof.
  induction n as [| n IH]; simpl; [reflexivity |].
  now rewrite IH, app_assoc.
Qed.

(** X19: the relative path that [renderNote] computes is additive over
    [/]: for [p/q] it is the one of [p] followed by the one of [q]; the
    empty path gives the empty string and a single non-empty segment
    gives [../].  So it counts the non-empty segments, whatever slashes
    are doubled, leading or trailing. *)
Theorem relativePath_segments (p q segment : jsstring) :
  MiddlewareHandlers.relativePath (p ++ js "/" ++ q)
  = MiddlewareHandlers.relativePath p ++ MiddlewareHandlers.relativePath q
  /\ MiddlewareHandlers.relativePath (js "") = js ""
  /\ (segment <> [] -> 0x2F%N ∉ segment ->
      MiddlewareHandlers.relativePath segment = js "../").
Proof.
  unfold MiddlewareHandlers.relativePath. split; [| split].
  - change (js "/" ++ q) with (0x2F%N :: q).
    rewrite splitSlash_app, filter_app, length_app.
    apply repeatString_add.
  - reflexivity.
  - intros Hne Hs. rewrite (splitSlash_slashFree _ Hs).
    rewrite filter_cons, decide_True by exact Hne. reflexivity.
Qed.

Lemma relativePath_segments_witness :
  MiddlewareHandlers.relativePath (js "share") = js "../".
Proof.
  apply (proj2 (proj2 (relativePath_segments (js "") (js "") (js "share")))).
  - discriminate.
  - intros H. vm_compute in H.
    repeat (apply elem_of_cons in H as [H | H]; [discriminate |]).
    inversion H.
Defined.

(** ** The middleware: the dispatch on the path *)

Lemma firstCut_app (f : jsstring -> option (list jsstring))
    (l1 l2 : list (jsstring * jsstring)) :
  firstCut f (l1 ++ l2)
  = match firstCut f l1 with
    | Some r => Some r
    | None => firstCut f l2
    end.
Proof.
  induction l1 as [| [pre post] l1 IH]; simpl; [reflexivity |].
  destruct (f post); [reflexivity | exact IH].
Qed.

Lemma firstCut_map (f : jsstring -> option (list jsstring)) (c : N)
    (l : list (jsstring * jsstring)) :
  firstCut f (map (fun cut => (c :: fst cut, snd cut)) l)
  = (fun captures =>
       match captures with
       | h :: t => (c :: h) :: t
       | [] => []
       end) <$> firstCut f l.
Proof.
  induction l as [| [pre post] l IH]; simpl; [reflexivity |].
  destruct (f post); [reflexivity | exact IH].
Qed.

(** A group that is followed by the end or by a [/] takes the whole
    segment. *)
Lemma matchAtoms_group (rest : list Atom) (segment remaining : jsstring) :
  0x2F%N ∉ segment ->
  (remaining = [] \/ exists r, remaining = 0x2F%N :: r) ->
  (forall c s, c <> 0x2F%N -> matchAtoms rest (c :: s) = None) ->
  matchAtoms (Group :: rest) (segment ++ remaining)
  = if str_falsy segment then None
    else cons segment <$> matchAtoms rest remaining.
Proof.
  intros Hseg Hrem Hrest. simpl matchAtoms.
  induction segment as [| c segment IH].
  - simpl. destruct Hrem as [-> | [r ->]]; reflexivity.
  - assert (Hc : c <> 0x2F%N) by (intros ->; apply Hseg; constructor).
    assert (Hseg' : 0x2F%N ∉ segment)
      by (intros H; apply Hseg; now constructor).
    specialize (IH Hseg').
    simpl app. simpl groupCuts.
    rewrite (bool_decide_eq_false_2 _ Hc).
    simpl rev. rewrite firstCut_app, <- map_rev, firstCut_map, IH.
    destruct segment as [| d segment]; simpl.
    + now destruct (matchAtoms rest remaining).
    + destruct (matchAtoms rest remaining); [reflexivity |].
      simpl. rewrite Hrest; [reflexivity |].
      intros ->. apply Hseg'. constructor.
Qed.

(** A word that is followed by the end or by a [/] matches the whole
    segment or nothing. *)
Lemma matchAtoms_word (rest : list Atom) (w segment remaining : jsstring) :
  0x2F%N ∉ w ->
  0x2F%N ∉ segment ->
  (remaining = [] \/ exists r, remaining = 0x2F%N :: r) ->
  (forall c s, c <> 0x2F%N -> matchAtoms rest (c :: s) = None) ->
  matchAtoms (map Lit w ++ rest) (segment ++ remaining)
  = if bool_decide (segment = w) then matchAtoms rest remaining else None.
Proof.
  intros Hw Hseg Hrem Hrest. revert segment Hseg.
  induction w as [| x w IH]; intros segment Hseg.
  - destruct segment as [| c segment]; cbn [matchAtoms map app].
    + now rewrite bool_decide_eq_true_2.
    + rewrite bool_decide_eq_false_2 by discriminate.
      apply Hrest. intros ->. apply Hseg. constructor.
  - assert (Hx : x <> 0x2F%N) by (intros ->; apply Hw; constructor).
    assert (Hw' : 0x2F%N ∉ w) by (intros H; apply Hw; now constructor).
    destruct segment as [| c segment]; cbn [matchAtoms map app].
    + rewrite (bool_decide_eq_false_2 ([] = x :: w)) by discriminate.
      destruct Hrem as [-> | [r ->]]; [reflexivity |].
      now rewrite bool_decide_eq_false_2 by congruence.
    + assert (Hseg' : 0x2F%N ∉ segment)
        by (intros H; apply Hseg; now constructor).
      destruct (decide (c = x)) as [-> | Hcx].
      * rewrite (bool_decide_eq_true_2 (x = x)) by reflexivity.
        rewrite (IH Hw' segment Hseg').
        destruct (decide (segment = w)) as [-> | E].
        -- now rewrite !bool_decide_eq_true_2.
        -- rewrite !bool_decide_eq_false_2 by congruence. reflexivity.
      * rewrite (bool_decide_eq_false_2 (c = x)) by exact Hcx.
        rewrite bool_decide_eq_false_2 by congruence. reflexivity.
Qed.

Lemma joinSlash_shape (segments : list jsstring) :
  joinSlash segments = [] \/ exists r, joinSlash segments = 0x2F%N :: r.
Proof. destruct segments; [now left | right; simpl; eauto]. Qed.

Lemma compile_rest (pattern : list SegmentPattern) (c : N) (s : jsstring) :
  c <> 0x2F%N -> matchAtoms (compile pattern) (c :: s) = None.
Proof.
  intros Hc. destruct pattern as [| p pattern]; [reflexivity |].
  simpl. now rewrite bool_decide_eq_false_2.
Qed.

(** The regular expression of a pattern of slash-free words matches a
    path made of slash-free segments as the pattern matches the
    segments. *)
Lemma matchAtoms_compile (pattern : list SegmentPattern)
    (segments : list jsstring) :
  Forall (fun p => match p with
                   | Word w => 0x2F%N ∉ w
                   | AnySegment => True
                   end) pattern ->
  Forall (fun segment => 0x2F%N ∉ segment) segments ->
  matchAtoms (compile pattern) (joinSlash segments)
  = matchSegments pattern segments.
Proof.
  intros Hpat. revert segments.
  induction Hpat as [| p pattern Hp Hpat IH]; intros segments Hsegs.
  - destruct segments; reflexivity.
  - destruct Hsegs as [| segment segments Hseg Hsegs].
    + destruct p; reflexivity.
    + change (joinSlash (segment :: segments))
        with (0x2F%N :: (segment ++ joinSlash segments)).
      destruct p as [w |].
      * change (compile (Word w :: pattern))
          with (Lit 0x2F%N :: (map Lit w ++ compile pattern)).
        simpl matchAtoms at 1.
        rewrite (matchAtoms_word _ _ _ _ Hp Hseg (joinSlash_shape _)
                   (compile_rest pattern)).
        simpl matchSegments. now rewrite IH.
      * change (compile (AnySegment :: pattern))
          with (Lit 0x2F%N :: Group :: compile pattern).
        change (matchAtoms (Lit 0x2F%N :: Group :: compile pattern)
                  (0x2F%N :: (segment ++ joinSlash segments)))
          with (matchAtoms (Group :: compile pattern)
                  (segment ++ joinSlash segments)).
        rewrite (matchAtoms_group _ _ _ Hseg (joinSlash_shape _)
                   (compile_rest pattern)).
        simpl matchSegments. now rewrite IH.
Qed.

Lemma joinSlash_splitSlash (s : jsstring) :
  joinSlash (splitSlash s) = 0x2F%N :: s.
Proof.
  induction s as [| c s IH]; [reflexivity |].
  cbn [splitSlash]. destruct (decide (c = 0x2F%N)) as [-> | Hc].
  - rewrite bool_decide_eq_true_2 by reflexivity.
    change (joinSlash ([] :: splitSlash s))
      with (0x2F%N :: joinSlash (splitSlash s)).
    now rewrite IH.
  - rewrite (bool_decide_eq_false_2 _ Hc).
    destruct (splitSlash s) as [| seg segs]; [discriminate |].
    change (joinSlash ((c :: seg) :: segs))
      with (0x2F%N :: c :: (seg ++ joinSlash segs)).
    change (joinSlash (seg :: segs))
      with (0x2F%N :: (seg ++ joinSlash segs)) in IH.
    now inversion IH.
Qed.

Lemma splitSlash_Forall (s : jsstring) :
  Forall (fun segment => 0x2F%N ∉ segment) (splitSlash s).
Proof.
  induction s as [| c s IH]; cbn [splitSlash].
  - constructor; [apply not_elem_of_nil | constructor].
  - case_bool_decide as Hc.
    + constructor; [apply not_elem_of_nil | exact IH].
    + destruct (splitSlash s) as [| seg segs]; [repeat constructor |].
      * intros H. apply elem_of_cons in H as [H | H]; [congruence |].
        now apply not_elem_of_nil in H.
      * inversion IH; subst. constructor; [| assumption].
        intros H. apply elem_of_cons in H as [H | H]; [congruence | contradiction].
Qed.

Lemma startsWith_app_both (p s q : jsstring) :
  startsWith (p ++ s) (p ++ q) = startsWith s q.
Proof.
  induction p as [| c p IH]; [reflexivity |].
  cbn [app startsWith]. now rewrite bool_decide_eq_true_2, IH.
Qed.

Lemma matchSegments_length (pattern : list SegmentPattern)
    (segments : list jsstring) :
  length pattern <> length segments -> matchSegments pattern segments = None.
Proof.
  revert segments. induction pattern as [| p pattern IH]; intros segments H.
  - destruct segments; [now destruct H | reflexivity].
  - destruct segments as [| segment segments]; [now destruct p |].
    simpl in H. destruct p; cbn [matchSegments].
    + rewrite IH by lia. now destruct (bool_decide _).
    + rewrite IH by lia. now destruct (str_falsy _).
Qed.

Ltac slash_free := apply (bool_decide_unpack _); vm_compute; exact I.
Ltac pattern_ok :=
  repeat (apply List.Forall_cons; [first [exact I | slash_free] |]);
  apply List.Forall_nil.

Lemma dispatch_joinSlash (sharePathOption : option jsstring)
    (segments : list jsstring) :
  Forall (fun segment => 0x2F%N ∉ segment) segments ->
  MiddlewareHandlers.dispatch sharePathOption
    (MiddlewareHandlers.sharePath sharePathOption ++ joinSlash segments)
  = routeOfSegments segments.
Proof.
  intros Hsegs. unfold MiddlewareHandlers.dispatch.
  set (sp := MiddlewareHandlers.sharePath sharePathOption).
  assert (Hcond : bool_decide (sp ++ joinSlash segments = sp)
                  || startsWith (sp ++ joinSlash segments) (sp ++ js "/")
                  = true).
  { destruct segments as [| segment segments].
    - simpl joinSlash. rewrite app_nil_r.
      now rewrite bool_decide_eq_true_2.
    - rewrite startsWith_app_both.
      change (joinSlash (segment :: segments))
        with (js "/" ++ (segment ++ joinSlash segments)).
      rewrite startsWith_app. apply orb_true_r. }
  rewrite Hcond. cbv zeta. rewrite drop_app_length.
  change (lits "/api/notes/" ++ [Group] ++ lits "/download")
    with (compile [Word (js "api"); Word (js "notes"); AnySegment;
                   Word (js "download")]).
  change (lits "/api/notes/" ++ [Group] ++ lits "/view")
    with (compile [Word (js "api"); Word (js "notes"); AnySegment;
                   Word (js "view")]).
  change (lits "/api/notes/" ++ [Group])
    with (compile [Word (js "api"); Word (js "notes"); AnySegment]).
  change (lits "/api/images/" ++ [Group] ++ lits "/" ++ [Group])
    with (compile [Word (js "api"); Word (js "images"); AnySegment;
                   AnySegment]).
  change (lits "/api/attachments/" ++ [Group] ++ lits "/image/" ++ [Group])
    with (compile [Word (js "api"); Word (js "attachments"); AnySegment;
                   Word (js "image"); AnySegment]).
  change (lits "/api/attachments/" ++ [Group] ++ lits "/download")
    with (compile [Word (js "api"); Word (js "attachments"); AnySegment;
                   Word (js "download")]).
  change (lits "/api/notes")
    with (compile [Word (js "api"); Word (js "notes")]).
  change (lits "/" ++ [Group]) with (compile [AnySegment]).
  rewrite !(fun p H => matchAtoms_compile p segments H Hsegs) by pattern_ok.
  assert (Hlong : forall a b rest,
            bool_decide (joinSlash (a :: b :: rest) = js "")
            || bool_decide (joinSlash (a :: b :: rest) = js "/") = false).
  { intros a b rest.
    rewrite !bool_decide_eq_false_2; [reflexivity | |];
      intros H; apply (f_equal length) in H;
      change (joinSlash (a :: b :: rest))
        with (0x2F%N :: (a ++ 0x2F%N :: (b ++ joinSlash rest))) in H;
      simpl in H; rewrite length_app in H; simpl in H; lia. }
  destruct segments as [| s1 [| s2 [| s3 [| s4 [| s5 [| s6 segments]]]]]];
    rewrite ?Hlong;
    repeat match goal with
           | |- context [matchSegments ?p ?s] =>
               rewrite (matchSegments_length p s) by (simpl; lia)
           end;
    cbn [matchSegments routeOfSegments];
    repeat match goal with
           | |- context [bool_decide (?x = ?y)] =>
               is_var x;
               destruct (decide (x = y)) as [-> | ?];
               [| rewrite (bool_decide_eq_false_2 (x = y)) by assumption]
           end;
    repeat match goal with
           | |- context [str_falsy ?x] => is_var x; destruct x
           end;
    try (vm_compute; reflexivity).
Qed.

Lemma dispatch_outside (sharePathOption : option jsstring) (path : jsstring) :
  bool_decide (path = MiddlewareHandlers.sharePath sharePathOption)
  || startsWith path (MiddlewareHandlers.sharePath sharePathOption ++ js "/")
  = false ->
  MiddlewareHandlers.dispatch sharePathOption path = Next.
Proof.
  intros H. unfold MiddlewareHandlers.dispatch. cbv zeta. now rewrite H.
Qed.

(** A path at or below the share path is the share path followed by its
    segments, each with a [/] in front. *)
Lemma under_share_path (sharePath path : jsstring) :
  bool_decide (path = sharePath) || startsWith path (sharePath ++ js "/")
  = true ->
  let segments := tail (splitSlash (drop (length sharePath) path)) in
  path = sharePath ++ joinSlash segments
  /\ Forall (fun segment => 0x2F%N ∉ segment) segments.
Proof.
  intros H. apply orb_true_iff in H as [H | H].
  - apply bool_decide_eq_true in H. subst path.
    rewrite drop_all. simpl. split; [now rewrite app_nil_r | constructor].
  - apply startsWith_prefix in H.
    remember (drop (length (sharePath ++ js "/")) path) as r eqn:Hr.
    clear Hr. rewrite <- app_assoc in H.
    change (js "/" ++ r) with (0x2F%N :: r) in H. subst path.
    cbv zeta. rewrite drop_app_length. cbn [splitSlash].
    rewrite bool_decide_eq_true_2 by reflexivity. cbn [tail].
    split; [now rewrite joinSlash_splitSlash | apply splitSlash_Forall].
Qed.

(** X20: the dispatch of the middleware is a table on the segments of
    the path below the share path.  A path that is neither the share path
    nor below it goes to [next()]; otherwise the rest is split at [/],
    and the branch is read off the segments by rows that exclude one
    another (so the order in which the middleware tries its regular
    expressions plays no part). *)
Theorem dispatch_by_segments
    (sharePathOption : option jsstring) (path : jsstring) :
  let sharePath := MiddlewareHandlers.sharePath sharePathOption in
  MiddlewareHandlers.dispatch sharePathOption path
  = if bool_decide (path = sharePath) || startsWith path (sharePath ++ js "/")
    then routeOfSegments (tail (splitSlash (drop (length sharePath) path)))
    else Next.
Proof.
  intros sharePath.
  destruct (bool_decide (path = sharePath)
            || startsWith path (sharePath ++ js "/")) eqn:H.
  - destruct (under_share_path _ _ H) as [Hpath Hsegs].
    rewrite Hpath at 1. now apply dispatch_joinSlash.
  - now apply dispatch_outside.
Qed.

Lemma startsWith_longer (s p q : jsstring) :
  startsWith s (p ++ q) = true -> startsWith s p = true.
Proof.
  revert s. induction p as [| c p IH]; intros s H; [now destruct s |].
  destruct s as [| d s]; [discriminate |].
  cbn [app startsWith] in *.
  apply andb_true_iff in H as [H1 H2]. rewrite H1. now apply IH.
Qed.

(** X21: the middleware leaves alone every path that does not start with
    the share path, and also a path that continues the share path with
    anything but a [/] (with share path [/share]: [/shared], [/share.txt]). *)
Theorem dispatch_passes_other_paths
    (sharePathOption : option jsstring) (path : jsstring) :
  let sharePath := MiddlewareHandlers.sharePath sharePathOption in
  (startsWith path sharePath = false ->
   MiddlewareHandlers.dispatch sharePathOption path = Next)
  /\ (forall c rest,
        c <> 0x2F%N ->
        MiddlewareHandlers.dispatch sharePathOption (sharePath ++ c :: rest)
        = Next).
Proof.
  intros sharePath. split.
  - intros H. apply dispatch_outside. fold sharePath.
    apply orb_false_iff. split.
    + apply bool_decide_eq_false. intros ->.
      rewrite <- (app_nil_r sharePath) in H at 1.
      now rewrite startsWith_app in H.
    + destruct (startsWith path (sharePath ++ js "/")) eqn:E; [| reflexivity].
      apply startsWith_longer in E. congruence.
  - intros c rest Hc. apply dispatch_outside. fold sharePath.
    apply orb_false_iff. split.
    + apply bool_decide_eq_false. intros H.
      apply (f_equal length) in H. rewrite length_app in H. simpl in H. lia.
    + rewrite startsWith_app_both. cbn [startsWith js].
      simpl. now rewrite bool_decide_eq_false_2.
Qed.

(** X22: the id that a branch of the middleware reads from the path is
    never empty and never contains a [/]. *)
Theorem dispatch_id_clean
    (sharePathOption : option jsstring) (path id : jsstring) :
  routeId (MiddlewareHandlers.dispatch sharePathOption path) = Some id ->
  id <> [] /\ 0x2F%N ∉ id.
Proof.
  destruct (bool_decide (path = MiddlewareHandlers.sharePath sharePathOption)
            || startsWith path
                 (MiddlewareHandlers.sharePath sharePathOption ++ js "/"))
    eqn:H.
  2:{ rewrite (dispatch_outside _ _ H). discriminate. }
  destruct (under_share_path _ _ H) as [Hpath Hsegs].
  rewrite Hpath, (dispatch_joinSlash _ _ Hsegs).
  set (segments := tail _) in *. clearbody segments. clear Hpath H.
  destruct segments as [| s1 [| s2 [| s3 [| s4 [| s5 [| s6 segments]]]]]];
    cbn [routeOfSegments]; try discriminate.
  all: repeat match goal with
              | H : Forall _ (_ :: _) |- _ => inversion H; clear H; subst
              end.
  all: repeat match goal with
              | |- context [if ?b then _ else _] => destruct b eqn:?
              end; try discriminate.
  all: intros Hid; inversion Hid; subst; split; try assumption.
  all: repeat match goal with
              | H : _ && _ = true |- _ => apply andb_true_iff in H as [? ?]
              end.
  all: match goal with
       | H : negb (str_falsy ?x) = true |- ?x <> [] => now destruct x
       | H : str_falsy ?x = false |- ?x <> [] => now destruct x
       end.
Qed.

Lemma dispatch_passes_other_paths_witness :
  MiddlewareHandlers.dispatch None (js "/shared/x") = Next.
Proof.
  apply (proj2 (dispatch_passes_other_paths None (js "/shared/x"))
           0x64%N (js "/x")).
  discriminate.
Defined.

Lemma dispatch_id_clean_witness :
  js "guide" <> [] /\ 0x2F%N ∉ js "guide".
Proof.
  apply (dispatch_id_clean (Some (js "/pub")) (js "/pub/api/notes/guide/view")
           (js "guide")).
  vm_compute. reflexivity.
Defined.

(** ** The middleware: the page handler *)

Section MiddlewarePageFacts.
Variable decodeBase64 : jsstring -> jsstring.
Variable SHARE_ROOT_NOTE_ID : jsstring.
Variable getParentBranches : SNote.t -> list SBranch.t.
Variable getParentNote : SBranch.t -> option SNote.t.
Variable isLabelTruthy : SNote.t -> jsstring -> bool.
Variable noteType : SNote.t -> jsstring.
Variable noteMime : SNote.t -> jsstring.
Variable noteContent : SNote.t -> Content.
Variable children : SNote.t -> list SNote.t.
Variable hasRelation : SNote.t -> jsstring -> bool.
Variable getRelation : SNote.t -> jsstring -> option SAttribute.
Variable ejsRender :
  jsstring -> PageOptions.t -> (jsstring -> option jsstring) -> option jsstring.
Variable getContent : SNote.t -> jsstring -> option RenderedContent.t.
Variable getOption : jsstring -> option jsstring.

Local Abbreviation renderNote :=
  (MiddlewarePages.renderNote decodeBase64 SHARE_ROOT_NOTE_ID
     getParentBranches getParentNote isLabelTruthy noteType noteMime
     noteContent children hasRelation getRelation ejsRender getContent
     getOption).
Local Abbreviation includer :=
  (MiddlewarePages.includer noteType noteMime noteContent children).

Lemma userView_Some (cache : ShareCache.t) (note : SNote.t)
    (opts : PageOptions.t) (ejsResult : jsstring) :
  MiddlewarePages.userView noteType noteMime noteContent children hasRelation
    getRelation ejsRender cache note opts = Some ejsResult ->
  exists relation templateNote content,
    hasRelation note (js "shareTemplate") = true
    /\ getRelation note (js "shareTemplate") = Some relation
    /\ Shaca.notes (ShareCache.shaca cache) !! value relation
       = Some templateNote
    /\ noteType templateNote = js "code"
    /\ noteMime templateNote = js "application/x-ejs"
    /\ noteContent templateNote = Text content
    /\ ejsRender content opts (includer templateNote) = Some ejsResult.
Proof.
  unfold MiddlewarePages.userView, Shaca.getNote.
  destruct (hasRelation note (js "shareTemplate")); [| discriminate].
  destruct (getRelation note (js "shareTemplate")) as [relation |];
    [| discriminate].
  cbn [fmap option_fmap option_map opt_str_falsy default].
  destruct (str_falsy (value relation)); [discriminate |].
  change (id (value relation)) with (value relation).
  destruct (Shaca.notes (ShareCache.shaca cache) !! value relation)
    as [templateNote |] eqn:Hl; [| discriminate].
  destruct (bool_decide (noteType templateNote = js "code")) eqn:Ht;
    cbn [andb]; [| discriminate].
  destruct (bool_decide (noteMime templateNote = js "application/x-ejs"))
    eqn:Hm; [| discriminate].
  apply bool_decide_eq_true in Ht, Hm.
  destruct (noteContent templateNote) as [content | bytes] eqn:Hc;
    [| discriminate].
  intros H. exists relation, templateNote, content.
  repeat split; first [reflexivity | assumption].
Qed.

(** X23: the page handler of the middleware falls back to the default
    view.  Once access is granted and outside raw mode, the handler calls
    the content renderer, then looks for the sub-tree root, then reads
    the option [showLoginInShareTheme]; an exception of any of the three
    leaves the handler with nothing sent.  When all three return, the
    handler finishes, leaves the status alone and sends exactly one of
    two things: the result of the template engine, which takes a
    [shareTemplate] relation to a cached EJS code note with a string
    content that the engine renders without throwing; or else the default
    page with the relative path. *)
Theorem renderNote_template_fallback
    (fuel : nat) (cache : ShareCache.t) (note granted : SNote.t)
    (req : PageRequest.t) (res : Response.t) :
  fst (Middleware.checkNoteAccess decodeBase64 (ShareCache.shaca cache)
         (SNote.noteId note) (PageRequest.request req) res) = Some granted ->
  isLabelTruthy note (js "shareRaw") = false ->
  PageRequest.raw req = None ->
  let relativePath := MiddlewareHandlers.relativePath (PageRequest.path req) in
  let unsent :=
    MiddlewarePages.addNoIndexHeader isLabelTruthy note
      (Reply.ofResponse res) in
  let subTreeRoot :=
    MiddlewareHandlers.getSharedSubTreeRoot SHARE_ROOT_NOTE_ID
      getParentBranches getParentNote fuel note in
  (getContent note relativePath = None ->
   renderNote fuel cache (Some note) req res = Some (Thrown unsent))
  /\ (is_Some (getContent note relativePath) ->
      subTreeRoot = Raised ->
      renderNote fuel cache (Some note) req res = Some (Thrown unsent))
  /\ (forall subRoot,
        is_Some (getContent note relativePath) ->
        subTreeRoot = Value subRoot ->
        getOption (js "showLoginInShareTheme") = None ->
        renderNote fuel cache (Some note) req res = Some (Thrown unsent))
  /\ (forall rendered subRoot showLoginInShareTheme,
        getContent note relativePath = Some rendered ->
        subTreeRoot = Value subRoot ->
        getOption (js "showLoginInShareTheme") = Some showLoginInShareTheme ->
        let opts :=
          PageOptions.mk note rendered subRoot relativePath
            showLoginInShareTheme in
        exists r,
          renderNote fuel cache (Some note) req res = Some (Finished r)
          /\ Reply.statusCode r = Response.statusCode res
          /\ (Reply.sent r
              = Some (SentView (js "../../share-theme/templates/page.ejs")
                        (Some relativePath))
              \/ exists relation templateNote content ejsResult,
                   hasRelation note (js "shareTemplate") = true
                   /\ getRelation note (js "shareTemplate") = Some relation
                   /\ Shaca.notes (ShareCache.shaca cache) !! value relation
                      = Some templateNote
                   /\ noteType templateNote = js "code"
                   /\ noteMime templateNote = js "application/x-ejs"
                   /\ noteContent templateNote = Text content
                   /\ ejsRender content opts (includer templateNote)
                      = Some ejsResult
                   /\ Reply.sent r = Some (SentContent (Text ejsResult)))).
Proof.
  intros Hchk Hraw Hq relativePath unsent subTreeRoot.
  assert (Hrun : renderNote fuel cache (Some note) req res
    = match getContent note relativePath with
      | None => Some (Thrown unsent)
      | Some rendered =>
          match subTreeRoot with
          | OutOfFuel => None
          | Raised => Some (Thrown unsent)
          | Value subRoot =>
              match getOption (js "showLoginInShareTheme") with
              | None => Some (Thrown unsent)
              | Some showLoginInShareTheme =>
                  match MiddlewarePages.userView noteType noteMime
                          noteContent children hasRelation getRelation
                          ejsRender cache note
                          (PageOptions.mk note rendered subRoot relativePath
                             showLoginInShareTheme) with
                  | Some ejsResult =>
                      Some
                        (Finished
                           (Reply.send (SentContent (Text ejsResult)) unsent))
                  | None =>
                      Some
                        (Finished
                           (MiddlewareHandlers.renderDefault unsent
                              (js "page") (Some relativePath)))
                  end
              end
          end
      end).
  { unfold MiddlewarePages.renderNote.
    destruct (Middleware.checkNoteAccess _ _ _ _ _) as [o res'] eqn:Hc.
    cbn [fst] in Hchk. subst o.
    change (Middleware.checkNoteAccess decodeBase64 (ShareCache.shaca cache)
              (SNote.noteId note) (PageRequest.request req) res)
      with (Routes.checkNoteAccess decodeBase64 (ShareCache.shaca cache)
              (SNote.noteId note) (PageRequest.request req) res) in Hc.
    apply checkNoteAccess_granted in Hc as [-> _].
    rewrite Hraw, Hq. cbn [orb].
    rewrite bool_decide_eq_false_2 by (intros [? ?]; discriminate).
    reflexivity. }
  rewrite Hrun. clear Hrun.
  split; [intros ->; reflexivity |].
  split; [intros [rendered ->] ->; reflexivity |].
  split; [intros subRoot [rendered ->] -> ->; reflexivity |].
  intros rendered subRoot showLoginInShareTheme -> -> -> opts.
  assert (Hstatus : Reply.statusCode unsent = Response.statusCode res).
  { subst unsent. unfold MiddlewarePages.addNoIndexHeader.
    destruct (isLabelTruthy note (js "shareDisallowRobotIndexing"));
      reflexivity. }
  fold opts.
  destruct (MiddlewarePages.userView _ _ _ _ _ _ _ cache note opts)
    as [ejsResult |] eqn:Hview.
  - eexists. split; [reflexivity |]. split; [exact Hstatus |].
    right. apply userView_Some in Hview
      as (relation & templateNote & content & H1 & H2 & H3 & H4 & H5 & H6 & H7).
    exists relation, templateNote, content, ejsResult.
    repeat split; first [reflexivity | assumption].
  - eexists. split; [reflexivity |]. split; [exact Hstatus |].
    left. reflexivity.
Qed.

End MiddlewarePageFacts.

Lemma renderNote_template_fallback_witness :
  exists r,
    MiddlewarePages.renderNote decodeBase64Ascii (js "_share")
      DemoTree.getParentBranches DemoTree.getParentNote
      (fun _ _ => false) DemoPages.noteType DemoPages.noteMime
      DemoPages.noteContent DemoTemplates.children DemoTemplates.hasRelation
      DemoTemplates.getRelation DemoTemplates.ejsRender
      DemoTemplates.getContent DemoTemplates.getOption 3 DemoPages.cache
      (Some Demo.guide) (DemoPages.request None (js "/share/the-guide"))
      Response.fresh
    = Some (Finished r)
    /\ Reply.statusCode r = 200.
Proof.
  destruct (proj2 (proj2 (proj2
              (renderNote_template_fallback decodeBase64Ascii (js "_share")
                 DemoTree.getParentBranches DemoTree.getParentNote
                 (fun _ _ => false) DemoPages.noteType DemoPages.noteMime
                 DemoPages.noteContent DemoTemplates.children
                 DemoTemplates.hasRelation DemoTemplates.getRelation
                 DemoTemplates.ejsRender DemoTemplates.getContent
                 DemoTemplates.getOption 3 DemoPages.cache Demo.guide
                 Demo.guide
                 (DemoPages.request None (js "/share/the-guide"))
                 Response.fresh ltac:(vm_compute; reflexivity) eq_refl
                 eq_refl)))
              (RenderedContent.mk (js "") (Text (js "Guide")) false)
              (Some (Demo.docs, DemoTree.docsBranch)) (js "false"))
    as (r & Hr & Hst & _).
  - vm_compute. reflexivity.
  - vm_compute. reflexivity.
  - vm_compute. reflexivity.
  - exists r. split; [exact Hr | exact Hst].
Defined.

(** ** The [X-Robots-Tag] header *)

Section NoIndexFacts.
Variable decodeBase64 : jsstring -> jsstring.
Variable isLabelTruthy : SNote.t -> jsstring -> bool.
Variable noteType : SNote.t -> jsstring.
Variable noteMime : SNote.t -> jsstring.
Variable noteContent : SNote.t -> Content.
Variable getAttachmentByTitle : SNote.t -> jsstring -> option SAttachment.t.
Variable getJsonContentSafely : SNote.t -> JsonValue.
Variable renderNoteContent : SNote.t -> jsstring.
Variable formatDownloadTitle : jsstring -> option jsstring -> jsstring -> jsstring.
Variable getContentDisposition : jsstring -> jsstring.

Local Abbreviation renderNote :=
  (RouteHandlers.renderNote decodeBase64 isLabelTruthy noteMime noteContent
     renderNoteContent).
Local Abbreviation getApiNote :=
  (RouteHandlers.getApiNote decodeBase64 isLabelTruthy).
Local Abbreviation getApiNoteDownload :=
  (RouteHandlers.getApiNoteDownload decodeBase64 isLabelTruthy noteType
     noteMime noteContent formatDownloadTitle getContentDisposition).
Local Abbreviation getApiNoteView :=
  (RouteHandlers.getApiNoteView decodeBase64 isLabelTruthy noteMime
     noteContent).
Local Abbreviation getApiImage :=
  (RouteHandlers.getApiImage decodeBase64 isLabelTruthy noteType noteMime
     noteContent getAttachmentByTitle getJsonContentSafely).
Local Abbreviation getApiAttachmentImage :=
  (RouteHandlers.getApiAttachmentImage decodeBase64 isLabelTruthy).
Local Abbreviation getApiAttachmentDownload :=
  (RouteHandlers.getApiAttachmentDownload decodeBase64 isLabelTruthy
     formatDownloadTitle getContentDisposition).

Lemma hasHeader_setHeader (name n v : jsstring) (r : Reply.t) :
  hasHeader name (Reply.setHeader n v r) <-> hasHeader name r \/ n = name.
Proof.
  unfold hasHeader, Reply.setHeader. cbn [Reply.headers].
  rewrite fmap_app, elem_of_app. cbn [fmap list_fmap fst].
  rewrite list_elem_of_singleton. split; intros [H | H]; auto.
Qed.

Lemma hasHeader_send (name : jsstring) (what : Sent) (r : Reply.t) :
  hasHeader name (Reply.send what r) <-> hasHeader name r.
Proof. reflexivity. Qed.

Lemma hasHeader_status (name : jsstring) (code : Z) (r : Reply.t) :
  hasHeader name (Reply.status code r) <-> hasHeader name r.
Proof. reflexivity. Qed.

Lemma hasHeader_addNoIndexHeader (note : SNote.t) (r : Reply.t) :
  hasHeader (js "X-Robots-Tag")
    (RouteHandlers.addNoIndexHeader isLabelTruthy note r)
  <-> hasHeader (js "X-Robots-Tag") r
      \/ isLabelTruthy note (js "shareDisallowRobotIndexing") = true.
Proof.
  unfold RouteHandlers.addNoIndexHeader.
  destruct (isLabelTruthy note _).
  - rewrite hasHeader_setHeader. tauto.
  - split; [auto | intros [H | H]; [exact H | discriminate]].
Qed.

Lemma hasHeader_renderImageAttachment (image : SNote.t) (r : Reply.t)
    (attachmentName : jsstring) :
  hasHeader (js "X-Robots-Tag")
    (RouteHandlers.renderImageAttachment getAttachmentByTitle
       getJsonContentSafely image r attachmentName)
  <-> hasHeader (js "X-Robots-Tag") r.
Proof.
  unfold RouteHandlers.renderImageAttachment.
  destruct (getAttachmentByTitle image attachmentName); [| reflexivity].
  rewrite hasHeader_send, !hasHeader_setHeader.
  split; [| auto].
  intros [[H | H] | H]; [exact H | |]; vm_compute in H; discriminate.
Qed.

Ltac header_calls :=
  cbn [replyOf];
  repeat first
    [ rewrite hasHeader_send | rewrite hasHeader_status
    | rewrite hasHeader_setHeader | rewrite hasHeader_addNoIndexHeader ].

(** X24: the header [X-Robots-Tag: noindex].  On a response that does not
    carry the header yet, a handler that was granted access leaves with
    the header set exactly when the note (for an attachment: its owner)
    has a truthy label [shareDisallowRobotIndexing]: the page handler, the
    note record, the download and the view, the image of an image note and
    of an image attachment.  The image handler does not set it for a note
    of another type: the exported SVG of a canvas, mermaid or mind-map
    note goes out without the header whatever the label says. *)
Theorem noindex_header
    (cache : ShareCache.t) (req : PageRequest.t) (res : Response.t) :
  js "X-Robots-Tag" ∉ (fst <$> Response.headers res) ->
  let noindex outcome := hasHeader (js "X-Robots-Tag") (replyOf outcome) in
  let disallowed note :=
    isLabelTruthy note (js "shareDisallowRobotIndexing") = true in
  (forall note granted,
     fst (Routes.checkNoteAccess decodeBase64 (ShareCache.shaca cache)
            (SNote.noteId note) (PageRequest.request req) res)
     = Some granted ->
     noindex (renderNote cache (Some note) req res) <-> disallowed note)
  /\ (forall noteId note,
        fst (Routes.checkNoteAccess decodeBase64 (ShareCache.shaca cache)
               noteId (PageRequest.request req) res) = Some note ->
        (noindex (getApiNote cache noteId req res) <-> disallowed note)
        /\ (noindex (getApiNoteDownload cache noteId req res)
            <-> disallowed note)
        /\ (noindex (getApiNoteView cache noteId req res) <-> disallowed note)
        /\ (noindex (getApiImage cache noteId req res)
            <-> disallowed note /\ noteType note = js "image"))
  /\ (forall attachmentId attachment owner,
        fst (RouteHandlers.checkAttachmentAccess decodeBase64 cache
               attachmentId (PageRequest.request req) res)
        = Some attachment ->
        ShareCache.note cache attachment = Some owner ->
        (noindex (getApiAttachmentDownload cache attachmentId req res)
         <-> disallowed owner)
        /\ (noindex (getApiAttachmentImage cache attachmentId req res)
            <-> disallowed owner
                /\ SAttachment.role attachment = js "image")).
Proof.
  intros Hfresh noindex disallowed. subst noindex disallowed. cbn beta.
  assert (Hres : ~ hasHeader (js "X-Robots-Tag") (Reply.ofResponse res))
    by exact Hfresh.
  assert (Htype : js "Content-Type" <> js "X-Robots-Tag")
    by (vm_compute; discriminate).
  assert (Hcache : js "Cache-Control" <> js "X-Robots-Tag")
    by (vm_compute; discriminate).
  assert (Hdisp : js "Content-Disposition" <> js "X-Robots-Tag")
    by (vm_compute; discriminate).
  split; [| split].
  - intros note granted Hgr. unfold RouteHandlers.renderNote.
    destruct (Routes.checkNoteAccess _ _ _ _ _) as [[n |] res'] eqn:Hc;
      [| discriminate].
    apply checkNoteAccess_granted in Hc as [-> _].
    destruct (_ || _); header_calls; tauto.
  - intros noteId note Hgr.
    unfold RouteHandlers.getApiNote, RouteHandlers.getApiNoteDownload,
      RouteHandlers.getApiNoteView, RouteHandlers.getApiImage.
    destruct (Routes.checkNoteAccess _ _ _ _ _) as [[n |] res'] eqn:Hc;
      [| discriminate].
    cbn [fst] in Hgr. inversion Hgr; subst n.
    apply checkNoteAccess_granted in Hc as [-> _].
    split; [header_calls; tauto |].
    split; [header_calls; tauto |].
    split; [header_calls; tauto |].
    repeat case_bool_decide; header_calls;
      rewrite ?hasHeader_renderImageAttachment; tauto.
  - intros attachmentId attachment owner Hgr Hown.
    unfold RouteHandlers.getApiAttachmentDownload,
      RouteHandlers.getApiAttachmentImage.
    destruct (RouteHandlers.checkAttachmentAccess _ _ _ _ _)
      as [[a |] res'] eqn:Hc; [| discriminate].
    cbn [fst] in Hgr. inversion Hgr; subst a.
    assert (res' = res) as ->.
    { unfold RouteHandlers.checkAttachmentAccess in Hc.
      destruct (ShareCache.getAttachment cache attachmentId);
        [| discriminate].
      destruct (Routes.checkNoteAccess _ _ _ _ _) as [[n |] r] eqn:Hn;
        [| discriminate].
      apply checkNoteAccess_granted in Hn as [-> _]. congruence. }
    rewrite Hown. split; [header_calls; tauto |].
    case_bool_decide; header_calls; tauto.
Qed.

End NoIndexFacts.

Lemma noindex_header_witness :
  hasHeader (js "X-Robots-Tag")
    (replyOf
       (RouteHandlers.getApiNote decodeBase64Ascii DemoPages.isLabelTruthy
          DemoPages.cache (js "guide")
          (DemoPages.request None (js "/share/api/notes/guide"))
          Response.fresh)).
Proof.
  refine (proj2 (proj1 (proj1 (proj2 (noindex_header decodeBase64Ascii
           DemoPages.isLabelTruthy DemoPages.noteType DemoPages.noteMime
           DemoPages.noteContent DemoPages.getAttachmentByTitle
           DemoPages.getJsonContentSafely DemoPages.renderNoteContent
           DemoPages.formatDownloadTitle DemoPages.getContentDisposition
           DemoPages.cache
           (DemoPages.request None (js "/share/api/notes/guide"))
           Response.fresh _)) (js "guide") Demo.guide _)) _).
  - apply not_elem_of_nil.
  - vm_compute. reflexivity.
  - reflexivity.
Defined.

(** ** The middleware and the per-route handlers *)

Section MiddlewareRouterFacts.
Variable decodeBase64 : jsstring -> jsstring.
Variable hoistedNoteId : jsstring.
Variable findResultsWithQuery :
  jsstring -> SearchContext.t -> list SearchResult.t.
Variable SHARE_ROOT_NOTE_ID : jsstring.
Variable getParentBranches : SNote.t -> list SBranch.t.
Variable getParentNote : SBranch.t -> option SNote.t.
Variable isLabelTruthy : SNote.t -> jsstring -> bool.
Variable noteType : SNote.t -> jsstring.
Variable noteMime : SNote.t -> jsstring.
Variable noteContent : SNote.t -> Content.
Variable children : SNote.t -> list SNote.t.
Variable hasRelation : SNote.t -> jsstring -> bool.
Variable getRelation : SNote.t -> jsstring -> option SAttribute.
Variable ejsRender :
  jsstring -> PageOptions.t -> (jsstring -> option jsstring) -> option jsstring.
Variable getContent : SNote.t -> jsstring -> option RenderedContent.t.
Variable getOption : jsstring -> option jsstring.
Variable getAttachmentByTitle : SNote.t -> jsstring -> option SAttachment.t.
Variable getJsonContentSafely : SNote.t -> JsonValue.
Variable renderNoteContent : SNote.t -> jsstring.
Variable formatDownloadTitle : jsstring -> option jsstring -> jsstring -> jsstring.
Variable getContentDisposition : jsstring -> jsstring.

Local Abbreviation middleware :=
  (MiddlewareRouter.middleware decodeBase64 hoistedNoteId findResultsWithQuery
     SHARE_ROOT_NOTE_ID getParentBranches getParentNote isLabelTruthy
     noteType noteMime noteContent children hasRelation getRelation ejsRender
     getContent getOption getAttachmentByTitle getJsonContentSafely
     formatDownloadTitle getContentDisposition).
Local Abbreviation rootPage :=
  (MiddlewareRouter.rootPage decodeBase64 SHARE_ROOT_NOTE_ID
     getParentBranches getParentNote isLabelTruthy noteType noteMime
     noteContent children hasRelation getRelation ejsRender getContent
     getOption).
Local Abbreviation getApiNote :=
  (RouteHandlers.getApiNote decodeBase64 isLabelTruthy).
Local Abbreviation getApiNoteDownload :=
  (RouteHandlers.getApiNoteDownload decodeBase64 isLabelTruthy noteType
     noteMime noteContent formatDownloadTitle getContentDisposition).
Local Abbreviation getApiNoteView :=
  (RouteHandlers.getApiNoteView decodeBase64 isLabelTruthy noteMime
     noteContent).
Local Abbreviation getApiImage :=
  (RouteHandlers.getApiImage decodeBase64 isLabelTruthy noteType noteMime
     noteContent getAttachmentByTitle getJsonContentSafely).
Local Abbreviation getApiAttachmentImage :=
  (RouteHandlers.getApiAttachmentImage decodeBase64 isLabelTruthy).
Local Abbreviation getApiAttachmentDownload :=
  (RouteHandlers.getApiAttachmentDownload decodeBase64 isLabelTruthy
     formatDownloadTitle getContentDisposition).
Local Abbreviation getShare :=
  (RouteHandlers.getShare decodeBase64 isLabelTruthy noteMime noteContent
     renderNoteContent).

(** X25: on the paths of the API the middleware does what the per-route
    handlers do.  When the dispatch selects the branch of a note record,
    a download, a view, an attachment image, an attachment download or
    the search, the middleware ends exactly as the handler of the
    per-route variant does for the id read from the path.  For the image
    of a note the two agree whenever the export attachment that a granted
    canvas, mermaid or mind-map note needs is there; when it is missing,
    the middleware answers with the 404 page while the per-route handler
    leaves the request unanswered. *)
Theorem middleware_agrees_with_routes
    (fuel : nat) (sharePathOption : option jsstring) (cache : ShareCache.t)
    (req : PageRequest.t) (res : Response.t) :
  let route :=
    MiddlewareHandlers.dispatch sharePathOption (PageRequest.path req) in
  let served := middleware fuel sharePathOption cache req res in
  let granted noteId image :=
    fst (Routes.checkNoteAccess decodeBase64 (ShareCache.shaca cache) noteId
           (PageRequest.request req) res) = Some image in
  (forall noteId, route = ApiNote noteId ->
     served = Answered (getApiNote cache noteId req res))
  /\ (forall noteId, route = ApiNoteDownload noteId ->
        served = Answered (getApiNoteDownload cache noteId req res))
  /\ (forall noteId, route = ApiNoteView noteId ->
        served = Answered (getApiNoteView cache noteId req res))
  /\ (forall attachmentId, route = ApiAttachmentImage attachmentId ->
        served = Answered (getApiAttachmentImage cache attachmentId req res))
  /\ (forall attachmentId, route = ApiAttachmentDownload attachmentId ->
        served
        = Answered (getApiAttachmentDownload cache attachmentId req res))
  /\ (route = ApiNotesSearch ->
      served
      = Searched
          (Routes.searchNotes decodeBase64 hoistedNoteId findResultsWithQuery
             (ShareCache.shaca cache) (PageRequest.request req) res))
  /\ (forall noteId, route = ApiImage noteId ->
        (forall image name,
           granted noteId image ->
           exportName (noteType image) = Some name ->
           is_Some (getAttachmentByTitle image name)) ->
        served = Answered (getApiImage cache noteId req res))
  /\ (forall noteId image name, route = ApiImage noteId ->
        granted noteId image ->
        exportName (noteType image) = Some name ->
        getAttachmentByTitle image name = None ->
        served
        = Answered
            (Finished
               (Reply.mk 404 (Response.headers res)
                  (Some (SentView (js "../../share-theme/templates/404.ejs")
                           None))))
        /\ getApiImage cache noteId req res
           = Finished (Reply.ofResponse res)).
Proof.
  intros route served granted. subst route served granted. cbn beta.
  unfold MiddlewareRouter.middleware.
  split; [| split; [| split; [| split; [| split; [| split; [| split]]]]]].
  1-6: intros; match goal with H : _ = _ |- _ => rewrite H end; reflexivity.
  - intros noteId Hroute Hexport. rewrite Hroute. f_equal.
    unfold MiddlewareRouter.apiImage, RouteHandlers.getApiImage.
    change (Middleware.checkNoteAccess decodeBase64)
      with (Routes.checkNoteAccess decodeBase64).
    destruct (Routes.checkNoteAccess _ _ _ _ _) as [[image |] res'] eqn:Hc;
      [| reflexivity].
    specialize (Hexport image). unfold exportName in Hexport.
    repeat case_bool_decide; try reflexivity; f_equal;
      (edestruct Hexport as [a Ha]; [reflexivity | reflexivity |]);
      unfold MiddlewareHandlers.renderImageAttachment,
        RouteHandlers.renderImageAttachment; now rewrite Ha.
  - intros noteId image name Hroute Hgr Hname Hnone.
    assert (Himage : noteType image <> js "image").
    { intros E. unfold exportName in Hname. rewrite E in Hname.
      vm_compute in Hname. discriminate. }
    rewrite Hroute.
    unfold MiddlewareRouter.apiImage, RouteHandlers.getApiImage.
    change (Middleware.checkNoteAccess decodeBase64)
      with (Routes.checkNoteAccess decodeBase64).
    destruct (Routes.checkNoteAccess _ _ _ _ _) as [[n |] res'] eqn:Hc;
      [| discriminate].
    cbn [fst] in Hgr. inversion Hgr; subst n.
    apply checkNoteAccess_granted in Hc as [-> _].
    rewrite (bool_decide_eq_false_2 _ Himage).
    unfold exportName in Hname.
    repeat case_bool_decide; try discriminate; inversion Hname; subst name;
      unfold MiddlewareHandlers.renderImageAttachment,
        RouteHandlers.renderImageAttachment; rewrite Hnone;
      split; reflexivity.
Qed.

Lemma ofResponse_no_redirect (res : Response.t) :
  redirects (Answered (Finished (Reply.ofResponse res))) = false
  /\ redirects (Answered (Thrown (Reply.ofResponse res))) = false.
Proof.
  unfold redirects, replyOf, Reply.ofResponse. cbn [Reply.sent].
  now destruct (Response.sent res).
Qed.

Ltac no_redirect :=
  repeat first
    [ reflexivity
    | apply ofResponse_no_redirect
    | progress cbn [redirects replyOf ofPage Reply.sent Reply.send
                    Reply.setHeader Reply.status]
    | match goal with
      | |- context [match ?x with _ => _ end] =>
          lazymatch x with
          | context [match _ with _ => _ end] => fail
          | _ => destruct x
          end
      end ].

(** X26: the middleware never redirects: whatever the request, what a
    branch sends is no redirect.  The share path itself, with or without
    the slash at its end, is served by the branch of the root page.  The
    per-route variant answers every path to [GET /share/] that does not
    end in a slash with a redirect. *)
Theorem middleware_never_redirects
    (fuel : nat) (sharePathOption : option jsstring) (cache : ShareCache.t)
    (req : PageRequest.t) (res : Response.t) :
  let sharePath := MiddlewareHandlers.sharePath sharePathOption in
  redirects (middleware fuel sharePathOption cache req res) = false
  /\ (PageRequest.path req = sharePath
      \/ PageRequest.path req = sharePath ++ js "/" ->
      middleware fuel sharePathOption cache req res
      = rootPage fuel cache req res)
  /\ (lastChar (PageRequest.path req) <> js "/" ->
      redirects (Answered (getShare cache req res)) = true).
Proof.
  intros sharePath. split; [| split].
  - unfold MiddlewareRouter.middleware.
    destruct (MiddlewareHandlers.dispatch _ _); [reflexivity | .. ].
    + unfold MiddlewareRouter.rootPage, MiddlewarePages.renderNote,
        MiddlewareHandlers.renderDefault, MiddlewarePages.addNoIndexHeader.
      no_redirect.
    + unfold MiddlewareRouter.page, MiddlewarePages.renderLooked,
        MiddlewarePages.renderNonNote, MiddlewarePages.renderNote,
        MiddlewareHandlers.renderDefault, MiddlewarePages.addNoIndexHeader.
      no_redirect.
    + unfold MiddlewareRouter.apiNote, MiddlewarePages.addNoIndexHeader.
      no_redirect.
    + unfold MiddlewareRouter.apiNoteDownload,
        MiddlewarePages.addNoIndexHeader.
      no_redirect.
    + unfold MiddlewareRouter.apiImage, MiddlewarePages.addNoIndexHeader,
        MiddlewareHandlers.renderImageAttachment,
        MiddlewareHandlers.renderDefault.
      no_redirect.
    + unfold MiddlewareRouter.apiAttachmentImage,
        MiddlewarePages.addNoIndexHeader.
      no_redirect.
    + unfold MiddlewareRouter.apiAttachmentDownload,
        MiddlewarePages.addNoIndexHeader.
      no_redirect.
    + unfold MiddlewareRouter.apiNoteView, MiddlewarePages.addNoIndexHeader.
      no_redirect.
    + reflexivity.
  - intros Hpath. unfold MiddlewareRouter.middleware.
    assert (Hroot : MiddlewareHandlers.dispatch sharePathOption
                      (PageRequest.path req) = RootPage);
      [| now rewrite Hroot].
    unfold MiddlewareHandlers.dispatch. fold sharePath. cbv zeta.
    destruct Hpath as [-> | ->].
    + rewrite (bool_decide_eq_true_2 (sharePath = sharePath) eq_refl).
      cbn [orb]. rewrite drop_all. reflexivity.
    + rewrite startsWith_app_both with (q := js "/"), orb_true_r.
      rewrite drop_app_length. reflexivity.
  - intros Hlast. unfold RouteHandlers.getShare.
    rewrite (bool_decide_eq_false_2 _ Hlast). reflexivity.
Qed.

End MiddlewareRouterFacts.

Lemma middleware_agrees_with_routes_witness :
  MiddlewareRouter.middleware decodeBase64Ascii (js "root") Demo.findTwo
    (js "_share") DemoTree.getParentBranches DemoTree.getParentNote
    DemoPages.isLabelTruthy DemoPages.noteType DemoPages.noteMime
    DemoPages.noteContent DemoTemplates.children DemoTemplates.hasRelation
    DemoTemplates.getRelation DemoTemplates.ejsRender
    DemoTemplates.getContent DemoTemplates.getOption
    DemoPages.getAttachmentByTitle DemoPages.getJsonContentSafely
    DemoPages.formatDownloadTitle DemoPages.getContentDisposition 3 None
    DemoPages.cache (DemoPages.request None (js "/share/api/notes/guide"))
    Response.fresh
  = Answered
      (RouteHandlers.getApiNote decodeBase64Ascii DemoPages.isLabelTruthy
         DemoPages.cache (js "guide")
         (DemoPages.request None (js "/share/api/notes/guide"))
         Response.fresh).
Proof.
  apply (proj1 (middleware_agrees_with_routes decodeBase64Ascii (js "root")
           Demo.findTwo (js "_share") DemoTree.getParentBranches
           DemoTree.getParentNote DemoPages.isLabelTruthy DemoPages.noteType
           DemoPages.noteMime DemoPages.noteContent DemoTemplates.children
           DemoTemplates.hasRelation DemoTemplates.getRelation
           DemoTemplates.ejsRender DemoTemplates.getContent
           DemoTemplates.getOption DemoPages.getAttachmentByTitle
           DemoPages.getJsonContentSafely DemoPages.formatDownloadTitle
           DemoPages.getContentDisposition 3 None DemoPages.cache
           (DemoPages.request None (js "/share/api/notes/guide"))
           Response.fresh)).
  vm_compute. reflexivity.
Defined.

Lemma middleware_never_redirects_witness :
  MiddlewareRouter.middleware decodeBase64Ascii (js "root") Demo.findTwo
    (js "_share") DemoTree.getParentBranches DemoTree.getParentNote
    DemoPages.isLabelTruthy DemoPages.noteType DemoPages.noteMime
    DemoPages.noteContent DemoTemplates.children DemoTemplates.hasRelation
    DemoTemplates.getRelation DemoTemplates.ejsRender
    DemoTemplates.getContent DemoTemplates.getOption
    DemoPages.getAttachmentByTitle DemoPages.getJsonContentSafely
    DemoPages.formatDownloadTitle DemoPages.getContentDisposition 3 None
    DemoPages.cache (DemoPages.request None (js "/share")) Response.fresh
  = MiddlewareRouter.rootPage decodeBase64Ascii (js "_share")
      DemoTree.getParentBranches DemoTree.getParentNote
      DemoPages.isLabelTruthy DemoPages.noteType DemoPages.noteMime
      DemoPages.noteContent DemoTemplates.children DemoTemplates.hasRelation
      DemoTemplates.getRelation DemoTemplates.ejsRender
      DemoTemplates.getContent DemoTemplates.getOption 3 DemoPages.cache
      (DemoPages.request None (js "/share")) Response.fresh
  /\ redirects
       (Answered
          (RouteHandlers.getShare decodeBase64Ascii DemoPages.isLabelTruthy
             DemoPages.noteMime DemoPages.noteContent
             DemoPages.renderNoteContent DemoPages.cache
             (DemoPages.request None (js "/share")) Response.fresh))
     = true.
Proof.
  pose proof (middleware_never_redirects decodeBase64Ascii (js "root")
                Demo.findTwo (js "_share") DemoTree.getParentBranches
                DemoTree.getParentNote DemoPages.isLabelTruthy
                DemoPages.noteType DemoPages.noteMime DemoPages.noteContent
                DemoTemplates.children DemoTemplates.hasRelation
                DemoTemplates.getRelation DemoTemplates.ejsRender
                DemoTemplates.getContent DemoTemplates.getOption
                DemoPages.getAttachmentByTitle DemoPages.getJsonContentSafely
                DemoPages.renderNoteContent DemoPages.formatDownloadTitle
                DemoPages.getContentDisposition 3 None DemoPages.cache
                (DemoPages.request None (js "/share")) Response.fresh)
    as (_ & Hroot & Hredirect).
  split.
  - apply Hroot. left. reflexivity.
  - apply Hredirect. vm_compute. discriminate.
Defined.
